(** * Notion-DB-GraphQL-Backend: the resolvers over a model of the store

    A shallow embedding of [graphql/resolvers.js] and of the Mongoose
    schemas it is written against ([models/databaseDefinition.js],
    [models/Record.js], [models/ActivityLog.js], [models/User.js]).

    - A collection is the list of its documents in insertion order; [find]
      and [findOne] scan it in that order.
    - A resolver is a computation in [M]: it reads and writes the [World]
      and either returns or throws.  What was written before a throw
      stays written, as in the source, where nothing is rolled back.
    - One resolver runs at a time; interleavings of requests are outside
      the model.
    - A string is held as the bytes of its UTF-8 encoding.  [trim] strips
      the white space of ECMAScript; [toLowerCase] maps the letters A to
      Z, which is what it does on a string of ASCII characters.
    - A stored value is a JSON scalar; numbers are integers.
    - An id argument is a well-formed [ObjectId], casts do not fail;
      where the source compares the argument as a string, the model
      records whether it is spelled as [toString] spells an id.
    - The Mongoose [Map] of a record's values refuses a key with a dot or
      a leading dollar sign: [set] on a loaded document throws, a new
      document fails validation on [save].  [o[k]] reads the own
      properties of [o]; the theorems on values take plain keys
      ([plain_key]).
    - A record is kept in the store as a read lists it: the keys of its
      values that are array indices first, in ascending order.
    - The predicate language of the user filter and the order the store
      sorts values in are parameters of the query engine: the resolvers
      forward them without looking inside. *)

From Stdlib Require Import ZArith NArith Ascii String List Bool Lia.
From stdpp Require Import base decidable option list strings numbers relations.

Local Open Scope Z_scope.

(** ** JavaScript strings *)

Module Js.

(** [c.toLowerCase()] on one byte: the letters A to Z move down by 32. *)
Definition lower_ascii (c : ascii) : ascii :=
  let n := N_of_ascii c in
  if ((65 <=? n) && (n <=? 90))%N then ascii_of_N (n + 32) else c.

(** [s.toLowerCase()] *)
Fixpoint toLowerCase (s : string) : string :=
  match s with
  | EmptyString => EmptyString
  | String c s' => String (lower_ascii c) (toLowerCase s')
  end.

(** The bytes with the given codes. *)
Definition bytes (codes : list N) : list ascii := ascii_of_N <$> codes.

(** The characters [trim] strips, each as its UTF-8 bytes: the WhiteSpace
    and LineTerminator code points of ECMAScript, which are TAB, LF, VT,
    FF, CR, SP, U+00A0, U+1680, U+2000 to U+200A, U+2028, U+2029, U+202F,
    U+205F, U+3000 and U+FEFF. *)
Definition white_space : list (list ascii) :=
  bytes <$> [[9]; [10]; [11]; [12]; [13]; [32]; [194; 160]; [225; 154; 128];
             [226; 128; 128]; [226; 128; 129]; [226; 128; 130]; [226; 128; 131];
             [226; 128; 132]; [226; 128; 133]; [226; 128; 134]; [226; 128; 135];
             [226; 128; 136]; [226; 128; 137]; [226; 128; 138];
             [226; 128; 168]; [226; 128; 169]; [226; 128; 175]; [226; 129; 159];
             [227; 128; 128]; [239; 187; 191]]%N.

(** What follows [p] in [l], when [l] starts with [p]. *)
Definition strip_prefix (p l : list ascii) : option (list ascii) :=
  if decide (take (length p) l = p) then Some (drop (length p) l) else None.

(** What follows the first of [pats] that [l] starts with. *)
Fixpoint skip (pats : list (list ascii)) (l : list ascii) : option (list ascii) :=
  match pats with
  | [] => None
  | p :: pats' =>
      match strip_prefix p l with
      | Some rest => Some rest
      | None => skip pats' l
      end
  end.

(** [l] without the [pats] it starts with, at most [n] of them. *)
Fixpoint strip (pats : list (list ascii)) (n : nat) (l : list ascii) : list ascii :=
  match n with
  | O => l
  | S n' =>
      match skip pats l with
      | Some rest => strip pats n' rest
      | None => l
      end
  end.

Definition trimStart_bytes (l : list ascii) : list ascii :=
  strip white_space (length l) l.
Definition trimEnd_bytes (l : list ascii) : list ascii :=
  reverse (strip (reverse <$> white_space) (length l) (reverse l)).

(** [s.trimStart()] *)
Definition trimStart (s : string) : string :=
  string_of_list_ascii (trimStart_bytes (list_ascii_of_string s)).

(** [s.trim()] *)
Definition trim (s : string) : string :=
  string_of_list_ascii (trimEnd_bytes (trimStart_bytes (list_ascii_of_string s))).

(** Every character of [s] is an ASCII character. *)
Fixpoint is_ascii (s : string) : bool :=
  match s with
  | EmptyString => true
  | String c s' => (N_of_ascii c <? 128)%N && is_ascii s'
  end.

(** [hay.startsWith(needle)] *)
Fixpoint startsWith (needle hay : string) : bool :=
  match needle, hay with
  | EmptyString, _ => true
  | String _ _, EmptyString => false
  | String a n', String b h' => bool_decide (a = b) && startsWith n' h'
  end.

(** [hay.includes(needle)]: [needle] occurs in [hay] as a substring. *)
Fixpoint includes (needle hay : string) : bool :=
  startsWith needle hay ||
  match hay with
  | EmptyString => false
  | String _ h' => includes needle h'
  end.

(** The integer a number holds when [n] is rounded to the nearest double,
    ties to even: [n] itself up to 2^53 in absolute value. *)
Definition round_double (n : Z) : Z :=
  let a := Z.abs n in
  if a <=? 2 ^ 53 then n
  else
    let k := Z.log2 a - 52 in
    let q := a / 2 ^ k in
    let r := a mod 2 ^ k in
    let half := 2 ^ (k - 1) in
    let q' := if (half <? r) || ((r =? half) && Z.odd q) then q + 1 else q in
    Z.sgn n * (q' * 2 ^ k).

(** [a * b] on two numbers that hold integers. *)
Definition times (a b : Z) : Z := round_double (a * b).

(** The property names every object inherits from [Object.prototype]. *)
Definition Object_prototype : list string :=
  ["constructor"; "__proto__"; "hasOwnProperty"; "isPrototypeOf";
   "propertyIsEnumerable"; "toLocaleString"; "toString"; "valueOf";
   "__defineGetter__"; "__defineSetter__"; "__lookupGetter__"; "__lookupSetter__"].

(** The double quote, for the messages that quote a field name. *)
Definition dquote : string := String (ascii_of_N 34) EmptyString.

End Js.

(** ** Stored values and insertion-ordered maps *)

(** What a [Mixed] path holds. *)
Inductive value : Type :=
| VNull
| VBool (b : bool)
| VNum (n : Z)
| VStr (s : string).

#[global] Instance value_eq_dec : EqDecision value.
Proof. solve_decision. Defined.

(** The own properties of a JavaScript object, or the entries of a [Map],
    in insertion order.  The keys of a well-formed one are pairwise
    distinct. *)
Definition entries (A : Type) : Type := list (string * A).

Definition keys {A} (o : entries A) : list string := o.*1.

(** [o[k]], [m.get(k)]; [None] stands for [undefined]. *)
Fixpoint get {A} (k : string) (o : entries A) : option A :=
  match o with
  | [] => None
  | (k', v) :: o' => if decide (k' = k) then Some v else get k o'
  end.

(** [m.set(k, v)]: an existing key keeps its place, a new key goes last. *)
Fixpoint set {A} (k : string) (v : A) (m : entries A) : entries A :=
  match m with
  | [] => [(k, v)]
  | (k', v') :: m' =>
      if decide (k' = k) then (k, v) :: m' else (k', v') :: set k v m'
  end.

(** The keys a Mongoose [Map] takes: it throws on a key that starts with
    a dollar sign or contains a dot. *)
Definition Map_key_ok (k : string) : bool :=
  negb (Js.startsWith "$" k) && negb (Js.includes "." k).

(** The value of a string of decimal digits, read after [acc]. *)
Fixpoint digits (s : string) (acc : N) : option N :=
  match s with
  | EmptyString => Some acc
  | String c s' =>
      let d := N_of_ascii c in
      if ((48 <=? d) && (d <=? 57))%N then digits s' (acc * 10 + (d - 48))%N else None
  end.

(** [k] as an array index: the canonical decimal spelling of an integer
    below 2^32 - 1. *)
Definition array_index (k : string) : option N :=
  match k with
  | EmptyString => None
  | String c rest =>
      if bool_decide (c = "0"%char) then
        if bool_decide (rest = EmptyString) then Some 0%N else None
      else
        match digits k 0 with
        | Some n => if (n <=? 4294967294)%N then Some n else None
        | None => None
        end
  end.

(** ** Documents *)

Definition ObjectId : Type := N.
Bind Scope N_scope with ObjectId.

(** An id as a resolver gets it in an argument that it also reads as a
    string: the [ObjectId] the string is cast to, and whether the string
    is the spelling [toString()] gives that id (its 24 hexadecimal digits
    in lower case). *)
Record IdArg : Type := mkIdArg {
  arg_id : ObjectId;
  arg_canonical : bool
}.

(** The id as the server prints it. *)
Definition canonical (id : ObjectId) : IdArg := mkIdArg id true.

(** [models/User.js]: [role] is one of ['Admin', 'Editor', 'Viewer']. *)
Inductive Role : Type := Admin | Editor | Viewer.

#[global] Instance Role_eq_dec : EqDecision Role.
Proof. solve_decision. Defined.

(** The user document a context carries (the fields the resolvers read). *)
Record User : Type := mkUser {
  u_id : ObjectId;
  u_tenantId : ObjectId;
  u_role : Role
}.

(** The request context: [context.user] is absent for an anonymous caller. *)
Record Context : Type := mkContext { user : option User }.

(** A sub-document of [fields] in [models/databaseDefinition.js]. *)
Record FieldDefinition : Type := mkField {
  f_id : ObjectId;
  f_name : string;
  f_type : string;
  f_options : list string;
  f_relation : option ObjectId
}.

(** [models/databaseDefinition.js] *)
Record DatabaseDefinition : Type := mkDatabase {
  db_id : ObjectId;
  db_tenantId : ObjectId;
  db_name : string;
  db_fields : list FieldDefinition;
  db_isDeleted : bool;
  db_createdAt : Z
}.

(** [models/Record.js] *)
Record RecordDoc : Type := mkRecord {
  r_id : ObjectId;
  r_tenantId : ObjectId;
  r_databaseId : ObjectId;
  r_values : entries value;
  r_isDeleted : bool;
  r_createdAt : Z;
  r_updatedAt : Z
}.

(** The [action] enum of [models/ActivityLog.js]. *)
Inductive Action : Type :=
| CREATE_DATABASE | DELETE_DATABASE | UPDATE_DATABASE
| CREATE_FIELD | UPDATE_FIELD | DELETE_FIELD
| CREATE_RECORD | UPDATE_RECORD | DELETE_RECORD.

(** The [details] payloads the resolvers write. *)
Record Details : Type := mkDetails {
  databaseId : option ObjectId;
  databaseName : option string;
  recordId : option ObjectId
}.

(** [models/ActivityLog.js] *)
Record ActivityLog : Type := mkLog {
  l_id : ObjectId;
  l_tenantId : ObjectId;
  l_userId : ObjectId;
  l_action : Action;
  l_details : Details;
  l_createdAt : Z
}.

#[global] Instance FieldDefinition_eq_dec : EqDecision FieldDefinition.
Proof. solve_decision. Defined.
#[global] Instance DatabaseDefinition_eq_dec : EqDecision DatabaseDefinition.
Proof. solve_decision. Defined.
#[global] Instance RecordDoc_eq_dec : EqDecision RecordDoc.
Proof. solve_decision. Defined.

(** ** The world and the resolver monad *)

(** The three collections, the [ObjectId] generator, the clock [Date.now]
    reads, and whether the store accepts a write to the activity log. *)
Record World : Type := mkWorld {
  databases : list DatabaseDefinition;
  records : list RecordDoc;
  activityLogs : list ActivityLog;
  nextId : ObjectId;
  now : Z;
  auditUp : bool
}.

(** What a resolver can throw: the Apollo error classes with their
    message, the plain [Error], and what Mongoose and the driver raise;
    [MapKeyError] is the [Error] a Mongoose [Map] throws on a key it does
    not support.
    [RegexOutsideFragment] marks a pattern the model of [$regex] does not
    interpret. *)
Inductive exn : Type :=
| AuthenticationError (msg : string)
| ForbiddenError (msg : string)
| UserInputError (msg : string)
| Error (msg : string)
| ValidationError (path : string)
| MongoServerError (code : Z)
| MongoNetworkError
| MapKeyError (key : string)
| RegexOutsideFragment (pattern : string).

Inductive outcome (A : Type) : Type :=
| Return (a : A)
| Throw (e : exn).
Arguments Return {A} a.
Arguments Throw {A} e.

Definition M (A : Type) : Type := World -> outcome A * World.

#[global] Instance M_ret : MRet M := fun A a w => (Return a, w).
#[global] Instance M_bind : MBind M := fun A B f m w =>
  match m w with
  | (Return a, w') => f a w'
  | (Throw e, w') => (Throw e, w')
  end.

Definition throw {A} (e : exn) : M A := fun w => (Throw e, w).

(** [try { body } catch (error) { handler }] *)
Definition try_catch {A} (body : M A) (handler : exn -> M A) : M A := fun w =>
  match body w with
  | (Return a, w') => (Return a, w')
  | (Throw e, w') => handler e w'
  end.

(** [error.code], where the error has one. *)
Definition code (e : exn) : option Z :=
  match e with
  | MongoServerError c => Some c
  | _ => None
  end.

(** [new mongoose.Types.ObjectId()] *)
Definition freshId : M ObjectId := fun w =>
  (Return (nextId w),
   mkWorld (databases w) (records w) (activityLogs w)
           (N.succ (nextId w)) (now w) (auditUp w)).

(** [Date.now()], [new Date()] *)
Definition dateNow : M Z := fun w => (Return (now w), w).

(** ** Mongoose: queries, validation and writes *)

(** A query object such as [{ _id: id, tenantId: t, isDeleted: false }]:
    a criterion that is absent constrains nothing.  The resolvers never
    put a criterion on a path the queried collection lacks. *)
Record Query : Type := mkQuery {
  q_id : option ObjectId;
  q_tenantId : option ObjectId;
  q_databaseId : option ObjectId;
  q_isDeleted : option bool
}.

Definition crit {A} `{EqDecision A} (c : option A) (x : A) : bool :=
  match c with
  | None => true
  | Some a => bool_decide (x = a)
  end.

Definition db_matches (q : Query) (d : DatabaseDefinition) : bool :=
  crit (q_id q) (db_id d) && crit (q_tenantId q) (db_tenantId d)
  && crit (q_isDeleted q) (db_isDeleted d).

Definition record_matches (q : Query) (r : RecordDoc) : bool :=
  crit (q_id q) (r_id r) && crit (q_tenantId q) (r_tenantId r)
  && crit (q_databaseId q) (r_databaseId r)
  && crit (q_isDeleted q) (r_isDeleted r).

Definition log_matches (q : Query) (l : ActivityLog) : bool :=
  crit (q_id q) (l_id l) && crit (q_tenantId q) (l_tenantId l).

Definition with_databases (ds : list DatabaseDefinition) (w : World) : World :=
  mkWorld ds (records w) (activityLogs w) (nextId w) (now w) (auditUp w).
Definition with_records (rs : list RecordDoc) (w : World) : World :=
  mkWorld (databases w) rs (activityLogs w) (nextId w) (now w) (auditUp w).
Definition with_activityLogs (ls : list ActivityLog) (w : World) : World :=
  mkWorld (databases w) (records w) ls (nextId w) (now w) (auditUp w).
Definition with_auditUp (b : bool) (w : World) : World :=
  mkWorld (databases w) (records w) (activityLogs w) (nextId w) (now w) b.

(** Replace the document that has the id of [x], or insert [x] last. *)
Fixpoint upsert {A} (id : A -> ObjectId) (x : A) (l : list A) : list A :=
  match l with
  | [] => [x]
  | y :: l' => if decide (id y = id x) then x :: l' else y :: upsert id x l'
  end.

(** Rewrite the first document that satisfies [p]. *)
Fixpoint update_first {A} (p : A -> bool) (f : A -> A) (l : list A) : list A :=
  match l with
  | [] => []
  | y :: l' => if p y then f y :: l' else y :: update_first p f l'
  end.

(** A stable insertion sort: the order [.sort()] and [$sort] produce, with
    ties kept in collection order (the store leaves their order open). *)
Fixpoint insert_by {A} (le : A -> A -> bool) (x : A) (l : list A) : list A :=
  match l with
  | [] => [x]
  | y :: l' => if le x y then x :: l else y :: insert_by le x l'
  end.

Definition sort_by {A} (le : A -> A -> bool) (l : list A) : list A :=
  foldr (insert_by le) [] l.

(** The own properties of an object in the order JavaScript lists them:
    the array indices first, in ascending order, then the other keys in
    insertion order. *)
Definition object_order {A} (o : entries A) : entries A :=
  let index (e : string * A) : N := default 0%N (array_index e.1) in
  sort_by (fun a b => (index a <=? index b)%N)
          (List.filter (fun e => bool_decide (is_Some (array_index e.1))) o)
  ++ List.filter (fun e => negb (bool_decide (is_Some (array_index e.1)))) o.

(** The [type] enum of a field in [models/databaseDefinition.js]. *)
Definition field_types : list string :=
  ["text"; "number"; "date"; "boolean"; "select"; "multi-select"; "relation"].

(** Schema validation of one field: [name] and [type] are required (the
    required validator of a String path rejects the empty string) and
    [type] is in the enum. *)
Definition validateField (f : FieldDefinition) : option exn :=
  if decide (f_name f = "") then Some (ValidationError "fields.name")
  else if decide (f_type f ∈ field_types) then None
  else Some (ValidationError "fields.type").

Fixpoint validateFields (fs : list FieldDefinition) : option exn :=
  match fs with
  | [] => None
  | f :: fs' =>
      match validateField f with
      | Some e => Some e
      | None => validateFields fs'
      end
  end.

Definition validateDatabase (d : DatabaseDefinition) : option exn :=
  if decide (db_name d = "") then Some (ValidationError "name")
  else validateFields (db_fields d).

(** The unique index [{ tenantId: 1, name: 1 }]: another document of the
    collection, deleted or not, has this tenant and name. *)
Definition name_taken (d : DatabaseDefinition) (ds : list DatabaseDefinition) : bool :=
  existsb (fun d' => bool_decide (db_tenantId d' = db_tenantId d)
                     && bool_decide (db_name d' = db_name d)
                     && negb (bool_decide (db_id d' = db_id d))) ds.

Definition DatabaseDefinition_find (q : Query) : M (list DatabaseDefinition) :=
  fun w => (Return (List.filter (db_matches q) (databases w)), w).

Definition DatabaseDefinition_findOne (q : Query) : M (option DatabaseDefinition) :=
  fun w => (Return (List.find (db_matches q) (databases w)), w).

Definition DatabaseDefinition_findById (id : ObjectId) : M (option DatabaseDefinition) :=
  DatabaseDefinition_findOne (mkQuery (Some id) None None None).

(** [new DatabaseDefinition({ name, tenantId, fields })]: the [trim] setter
    of [name] and the schema defaults apply. *)
Definition new_DatabaseDefinition (name : string) (tenantId : ObjectId)
    (fields : list FieldDefinition) : M DatabaseDefinition :=
  id ← freshId;
  createdAt ← dateNow;
  mret (mkDatabase id tenantId (Js.trim name) fields false createdAt).

(** [doc.isNew]: no document of the collection has this [_id] yet. *)
Definition isNew (d : DatabaseDefinition) (ds : list DatabaseDefinition) : bool :=
  negb (existsb (fun d' => bool_decide (db_id d' = db_id d)) ds).

(** [doc.save()]: validate, then write.  Inserting a new document whose
    key of the unique index is taken is the server error 11000; saving a
    loaded document writes its modified paths, and the resolvers modify
    [fields] only. *)
Definition DatabaseDefinition_save (d : DatabaseDefinition) : M unit := fun w =>
  match validateDatabase d with
  | Some e => (Throw e, w)
  | None =>
      if isNew d (databases w) && name_taken d (databases w)
      then (Throw (MongoServerError 11000), w)
      else (Return tt, with_databases (upsert db_id d (databases w)) w)
  end.

(** The two updates the resolvers send: [{ $set: { name } }] and
    [{ $set: { isDeleted } }].  Mongoose runs the setters of the schema on
    an update, so the new name is trimmed as on a save. *)
Inductive DatabaseUpdate : Type :=
| SetName (name : string)
| SetIsDeleted (isDeleted : bool).

Definition applyDatabaseUpdate (u : DatabaseUpdate) (d : DatabaseDefinition)
    : DatabaseDefinition :=
  match u with
  | SetName name =>
      mkDatabase (db_id d) (db_tenantId d) (Js.trim name) (db_fields d)
                 (db_isDeleted d) (db_createdAt d)
  | SetIsDeleted b =>
      mkDatabase (db_id d) (db_tenantId d) (db_name d) (db_fields d)
                 b (db_createdAt d)
  end.

Definition touchesName (u : DatabaseUpdate) : bool :=
  match u with
  | SetName _ => true
  | SetIsDeleted _ => false
  end.

(** [findOneAndUpdate(q, u, { new: returnNew })]: the first match is
    rewritten; the document comes back as it is after the update when
    [returnNew], as it was before otherwise; [null] when nothing matches.
    A new name that collides in the unique index is the error 11000. *)
Definition DatabaseDefinition_findOneAndUpdate (q : Query) (u : DatabaseUpdate)
    (returnNew : bool) : M (option DatabaseDefinition) := fun w =>
  match List.find (db_matches q) (databases w) with
  | None => (Return None, w)
  | Some d =>
      let d' := applyDatabaseUpdate u d in
      if touchesName u && name_taken d' (databases w)
      then (Throw (MongoServerError 11000), w)
      else (Return (Some (if returnNew then d' else d)),
            with_databases (update_first (db_matches q) (applyDatabaseUpdate u)
                                         (databases w)) w)
  end.

Definition Record_findOne (q : Query) : M (option RecordDoc) :=
  fun w => (Return (List.find (record_matches q) (records w)), w).

(** [new Record({ databaseId, tenantId, values })] *)
Definition new_Record (databaseId tenantId : ObjectId) (values : entries value)
    : M RecordDoc :=
  id ← freshId;
  t ← dateNow;
  mret (mkRecord id tenantId databaseId values false t t).

(** A record as a read hands it over: the driver builds [values] as an
    object, so a read lists the keys in the order of an object's. *)
Definition as_read (r : RecordDoc) : RecordDoc :=
  mkRecord (r_id r) (r_tenantId r) (r_databaseId r) (object_order (r_values r))
           (r_isDeleted r) (r_createdAt r) (r_updatedAt r).

(** [doc.isNew]: no record of the collection has this [_id] yet. *)
Definition isNewRecord (r : RecordDoc) (rs : list RecordDoc) : bool :=
  negb (existsb (fun r' => bool_decide (r_id r' = r_id r)) rs).

(** [doc.save()].  A new document is validated: the value map it was
    built from was cast to a Mongoose [Map], and [values] is invalid when
    the [Map] refused one of the keys.  A loaded document writes its
    modified paths, whose keys the [Map] took when they were set. *)
Definition Record_save (r : RecordDoc) : M unit := fun w =>
  if isNewRecord r (records w) && negb (forallb Map_key_ok (keys (r_values r)))
  then (Throw (ValidationError "values"), w)
  else (Return tt, with_records (upsert r_id (as_read r) (records w)) w).

(** [{ $set: { isDeleted, updatedAt } }] *)
Definition setDeleted (isDeleted : bool) (updatedAt : Z) (r : RecordDoc) : RecordDoc :=
  mkRecord (r_id r) (r_tenantId r) (r_databaseId r) (r_values r)
           isDeleted (r_createdAt r) updatedAt.

(** [Record.findOneAndUpdate(q, { $set: ... })]: returns the document as
    it was before the update. *)
Definition Record_findOneAndUpdate (q : Query) (f : RecordDoc -> RecordDoc)
    : M (option RecordDoc) := fun w =>
  match List.find (record_matches q) (records w) with
  | None => (Return None, w)
  | Some r =>
      (Return (Some r),
       with_records (update_first (record_matches q) f (records w)) w)
  end.

(** [ActivityLog.create({ tenantId, userId, action, details })]: the
    entry is appended when the store takes the write; otherwise the
    driver's error is thrown. *)
Definition ActivityLog_create (tenantId userId : ObjectId) (action : Action)
    (details : Details) : M ActivityLog := fun w =>
  if auditUp w then
    let entry := mkLog (nextId w) tenantId userId action details (now w) in
    (Return entry,
     mkWorld (databases w) (records w) (activityLogs w ++ [entry])
             (N.succ (nextId w)) (now w) (auditUp w))
  else (Throw MongoNetworkError, w).

(** [ActivityLog.find(q).sort({ createdAt: -1 }).skip(s).limit(n)] *)
Definition ActivityLog_find_sorted (q : Query) (skipNum limitNum : Z)
    : M (list ActivityLog) := fun w =>
  (Return (take (Z.to_nat limitNum)
             (drop (Z.to_nat skipNum)
                (sort_by (fun a b => l_createdAt b <=? l_createdAt a)
                   (List.filter (log_matches q) (activityLogs w))))), w).

(** ** The fragment of [$regex] the model interprets *)

Module Regex.

(** A pattern of the fragment is a sequence of ordinary characters and
    dots.  Every other metacharacter puts the pattern outside it. *)
Inductive atom : Type :=
| Lit (c : ascii)
| AnyChar.

Definition is_meta (c : ascii) : bool :=
  bool_decide (c ∈ ["\"; "^"; "$"; "."; "|"; "?"; "*"; "+";
                    "("; ")"; "["; "]"; "{"; "}"]%char).

Fixpoint compile (p : string) : option (list atom) :=
  match p with
  | EmptyString => Some []
  | String c p' =>
      if bool_decide (c = "."%char) then cons AnyChar <$> compile p'
      else if is_meta c then None
      else cons (Lit c) <$> compile p'
  end.



(** With the option [i] letters match in either case; a dot matches any
    character but the line feed. *)
Definition atom_matches (caseless : bool) (a : atom) (c : ascii) : bool :=
  match a with
  | Lit x =>
      if caseless then bool_decide (Js.lower_ascii x = Js.lower_ascii c)
      else bool_decide (x = c)
  | AnyChar => negb (bool_decide (c = "010"%char))
  end.

Fixpoint match_here (caseless : bool) (p : list atom) (s : string) : bool :=
  match p, s with
  | [], _ => true
  | _ :: _, EmptyString => false
  | a :: p', String c s' => atom_matches caseless a c && match_here caseless p' s'
  end.

(** An unanchored pattern matches when it matches at some position. *)
Fixpoint search (caseless : bool) (p : list atom) (s : string) : bool :=
  match_here caseless p s ||
  match s with
  | EmptyString => false
  | String _ s' => search caseless p s'
  end.

End Regex.

(** [{ $regex: pattern, $options: options }] *)
Record RegexCond : Type := mkRegex {
  regex : string;
  options : string
}.

(** The options the fragment knows: none, or [i]. *)
Definition caseless_of (options : string) : option bool :=
  if decide (options = "") then Some false
  else if decide (options = "i") then Some true
  else None.

(** A condition compiled for matching, or the pattern that is outside the
    fragment. *)
Definition compileCond (c : RegexCond) : exn + (bool * list Regex.atom) :=
  match caseless_of (options c), Regex.compile (regex c) with
  | Some caseless, Some p => inr (caseless, p)
  | _, _ => inl (RegexOutsideFragment (regex c))
  end.

(** [$regex] holds of string values only. *)
Definition regex_holds (cp : bool * list Regex.atom) (v : option value) : bool :=
  match v with
  | Some (VStr s) => Regex.search cp.1 cp.2 s
  | _ => false
  end.

(** ** Resolver inputs and results *)

(** [sort: { field, order }] *)
Record SortInput : Type := mkSort {
  s_field : string;
  s_order : string
}.

(** The [field] argument of [createField] and [updateField]; [options]
    and [relation] may be left out. *)
Record FieldInput : Type := mkFieldInput {
  fi_name : string;
  fi_type : string;
  fi_options : option (list string);
  fi_relation : option ObjectId
}.

(** One [{ field, value }] pair of a formatted record. *)
Record FieldValue : Type := mkFieldValue {
  fv_field : string;
  fv_value : value
}.

(** [{ ...record, values: [...entries].map(([field, value]) => ({ field, value })) }] *)
Record FormattedRecord : Type := mkFormatted {
  fr_id : ObjectId;
  fr_tenantId : ObjectId;
  fr_databaseId : ObjectId;
  fr_values : list FieldValue;
  fr_isDeleted : bool;
  fr_createdAt : Z;
  fr_updatedAt : Z
}.

Definition format (r : RecordDoc) : FormattedRecord :=
  mkFormatted (r_id r) (r_tenantId r) (r_databaseId r)
              ((fun '(field, value) => mkFieldValue field value) <$> r_values r)
              (r_isDeleted r) (r_createdAt r) (r_updatedAt r).

(** [page && page > 0 ? page : 1] *)
Definition pageNum (page : option Z) : Z :=
  match page with
  | Some p => if 0 <? p then p else 1
  | None => 1
  end.

(** [limit && limit > 0 ? limit : dflt] *)
Definition limitNum (dflt : Z) (limit : option Z) : Z :=
  match limit with
  | Some l => if 0 <? l then l else dflt
  | None => dflt
  end.

(** [(pageNum - 1) * limitNum] *)
Definition skipNum (dflt : Z) (page limit : option Z) : Z :=
  Js.times (pageNum page - 1) (limitNum dflt limit).

(** ** The query engine *)

Section QueryEngine.

(** The store's predicate language, as the [filter] argument carries
    it, and the store's order on the values of a path ([None] is a
    missing path). *)
Context {condition : Type}.
Variable cond_holds : condition -> option value -> bool.
Variable bson_leb : option value -> option value -> bool.

(** The stages [records] pushes.  A field name [f] in a stage is the
    path [values.f]. *)
Inductive Stage : Type :=
| MatchQuery (q : Query)
| MatchOr (alternatives : entries RegexCond)
| MatchFilter (filterQuery : entries condition)
| SortStage (fieldName : string) (sortOrder : Z)
| SkipStage (n : Z)
| LimitStage (n : Z).

Fixpoint compileAlternatives (alts : entries RegexCond)
    : exn + entries (bool * list Regex.atom) :=
  match alts with
  | [] => inr []
  | (f, c) :: alts' =>
      match compileCond c, compileAlternatives alts' with
      | inl e, _ => inl e
      | inr _, inl e => inl e
      | inr cp, inr cs => inr ((f, cp) :: cs)
      end
  end.

Definition runStage (st : Stage) (docs : list RecordDoc) : outcome (list RecordDoc) :=
  match st with
  | MatchQuery q => Return (List.filter (record_matches q) docs)
  | MatchOr [] => Throw (MongoServerError 2)
  | MatchOr alts =>
      match compileAlternatives alts with
      | inl e => Throw e
      | inr cs =>
          Return (List.filter
                    (fun r => existsb (fun '(f, cp) => regex_holds cp (get f (r_values r))) cs)
                    docs)
      end
  | MatchFilter filterQuery =>
      Return (List.filter
                (fun r => forallb (fun '(f, c) => cond_holds c (get f (r_values r)))
                                  filterQuery)
                docs)
  | SortStage f sortOrder =>
      Return (sort_by
                (fun a b =>
                   if sortOrder <? 0
                   then bson_leb (get f (r_values b)) (get f (r_values a))
                   else bson_leb (get f (r_values a)) (get f (r_values b)))
                docs)
  | SkipStage n => Return (drop (Z.to_nat n) docs)
  | LimitStage n => Return (take (Z.to_nat n) docs)
  end.

Fixpoint runPipeline (pipeline : list Stage) (docs : list RecordDoc)
    : outcome (list RecordDoc) :=
  match pipeline with
  | [] => Return docs
  | st :: pipeline' =>
      match runStage st docs with
      | Return docs' => runPipeline pipeline' docs'
      | Throw e => Throw e
      end
  end.

(** [Record.aggregate(pipeline)] *)
Definition Record_aggregate (pipeline : list Stage) : M (list RecordDoc) :=
  fun w => (runPipeline pipeline (records w), w).

(** The stages [Query.records] pushes before it paginates: the tenant
    and database match, the keyword search, the user filter, the sort. *)
Definition records_stages (databaseId : ObjectId)
    (filter : option (entries condition)) (sort : option SortInput)
    (search : option string) (u : User) : M (list Stage) :=
  let pipeline :=
    [MatchQuery (mkQuery None (Some (u_tenantId u)) (Some databaseId) (Some false))] in
  pipeline ←
    match search with
    | Some (String _ _ as search) =>
        dbDefinition ← DatabaseDefinition_findById databaseId;
        match dbDefinition with
        | Some dbDefinition =>
            let textFields :=
              f_name <$> List.filter (fun field => bool_decide (f_type field = "text"))
                                     (db_fields dbDefinition) in
            if (0 <? length textFields)%nat then
              let searchOrConditions :=
                (fun fieldName => (fieldName, mkRegex search "i")) <$> textFields in
              mret (pipeline ++ [MatchOr searchOrConditions])
            else mret pipeline
        | None => mret pipeline
        end
    | _ => mret pipeline
    end;
  let pipeline :=
    match filter with
    | Some filter =>
        let filterQuery :=
          foldl (fun q '(fieldName, condition) => set fieldName condition q) [] filter in
        pipeline ++ [MatchFilter filterQuery]
    | None => pipeline
    end in
  let pipeline :=
    match sort with
    | Some sort =>
        let sortOrder :=
          if decide (Js.toLowerCase (s_order sort) = "desc") then -1 else 1 in
        pipeline ++ [SortStage (s_field sort) sortOrder]
    | None => pipeline
    end in
  mret pipeline.

(** The whole pipeline: the pagination stages go last. *)
Definition records_pipeline (databaseId : ObjectId)
    (filter : option (entries condition)) (sort : option SortInput)
    (page limit : option Z) (search : option string) (u : User)
    : M (list Stage) :=
  pipeline ← records_stages databaseId filter sort search u;
  mret (pipeline ++ [SkipStage (skipNum 20 page limit)]
                 ++ [LimitStage (limitNum 20 limit)]).

(** What the stages before pagination select, in order: the matching
    records, sorted when a sort is asked for. *)
Definition records_before_pagination (databaseId : ObjectId)
    (filter : option (entries condition)) (sort : option SortInput)
    (search : option string) (u : User) : M (list RecordDoc) :=
  pipeline ← records_stages databaseId filter sort search u; Record_aggregate pipeline.

(** The value paths the search stages of a pipeline look at. *)
Definition searchedFields (pipeline : list Stage) : list string :=
  concat ((fun st => match st with
                     | MatchOr alternatives => keys alternatives
                     | _ => []
                     end) <$> pipeline).

(** ** [resolvers.Query] *)

Definition Query_databases (context : Context) : M (list DatabaseDefinition) :=
  match user context with
  | None => throw (AuthenticationError "You must be logged in to view databases.")
  | Some u =>
      DatabaseDefinition_find (mkQuery None (Some (u_tenantId u)) None (Some false))
  end.

Definition Query_database (id : ObjectId) (context : Context) : M DatabaseDefinition :=
  match user context with
  | None => throw (AuthenticationError "You must be logged in to view a database.")
  | Some u =>
      singleDatabase ←
        DatabaseDefinition_findOne
          (mkQuery (Some id) (Some (u_tenantId u)) None (Some false));
      match singleDatabase with
      | None =>
          throw (Error "Database not found or you don't have permission to view it.")
      | Some singleDatabase => mret singleDatabase
      end
  end.

Definition Query_records (databaseId : ObjectId)
    (filter : option (entries condition)) (sort : option SortInput)
    (page limit : option Z) (search : option string) (context : Context)
    : M (list FormattedRecord) :=
  match user context with
  | None => throw (AuthenticationError "You must be logged in.")
  | Some u =>
      pipeline ← records_pipeline databaseId filter sort page limit search u;
      recordsFromDB ← Record_aggregate pipeline;
      mret (format <$> recordsFromDB)
  end.

(** [null] is [None]. *)
Definition Query_record (id : ObjectId) (context : Context)
    : M (option FormattedRecord) :=
  match user context with
  | None => throw (AuthenticationError "You must be logged in.")
  | Some u =>
      recordFromDB ← Record_findOne (mkQuery (Some id) (Some (u_tenantId u)) None None);
      match recordFromDB with
      | None => mret None
      | Some recordFromDB => mret (Some (format recordFromDB))
      end
  end.

Definition Query_activityLogs (limit page : option Z) (context : Context)
    : M (list ActivityLog) :=
  match user context with
  | None => throw (AuthenticationError "You must be logged in.")
  | Some u =>
      ActivityLog_find_sorted (mkQuery None (Some (u_tenantId u)) None None)
                              (skipNum 25 page limit) (limitNum 25 limit)
  end.

End QueryEngine.

(** ** [resolvers.Mutation] *)

Definition isAdmin (u : User) : bool := bool_decide (u_role u = Admin).

(** [["Editor", "Admin"].includes(context.user.role)] *)
Definition canEditRecords (u : User) : bool :=
  bool_decide (u_role u ∈ [Editor; Admin]).

(** [!name || name.trim() === ""] *)
Definition blank (name : string) : bool :=
  bool_decide (name = "") || bool_decide (Js.trim name = "").

Definition Mutation_createDatabase (name : string) (context : Context)
    : M DatabaseDefinition :=
  match user context with
  | None => throw (AuthenticationError "You must be logged in to create a database.")
  | Some u =>
      if negb (isAdmin u) then
        throw (ForbiddenError
                 "You are not authorized to perform this action. Admin role required.")
      else if blank name then throw (UserInputError "Database name cannot be empty.")
      else
        try_catch
          (newDatabase ← new_DatabaseDefinition name (u_tenantId u) [];
           _ ← DatabaseDefinition_save newDatabase;
           _ ← ActivityLog_create (u_tenantId u) (u_id u) CREATE_DATABASE
                 (mkDetails (Some (db_id newDatabase)) (Some (db_name newDatabase)) None);
           mret newDatabase)
          (fun error =>
             if decide (code error = Some 11000) then
               throw (UserInputError
                        "A database with this name already exists in your tenant.")
             else throw (Error "An error occurred while creating the database."))
  end.

Definition Mutation_updateDatabase (id : ObjectId) (name : string) (context : Context)
    : M DatabaseDefinition :=
  match user context with
  | None => throw (AuthenticationError "You must be logged in.")
  | Some u =>
      if negb (isAdmin u) then
        throw (ForbiddenError "You are not authorized to perform this action.")
      else if blank name then throw (UserInputError "Database name cannot be empty.")
      else
        try_catch
          (updatedDatabase ←
             DatabaseDefinition_findOneAndUpdate
               (mkQuery (Some id) (Some (u_tenantId u)) None None) (SetName name) true;
           match updatedDatabase with
           | None =>
               throw (Error "Database not found or you don't have permission to modify it.")
           | Some updatedDatabase =>
               _ ← ActivityLog_create (u_tenantId u) (u_id u) UPDATE_DATABASE
                     (mkDetails (Some (db_id updatedDatabase))
                                (Some (db_name updatedDatabase)) None);
               mret updatedDatabase
           end)
          (fun error =>
             if decide (code error = Some 11000) then
               throw (UserInputError
                        "Another database with this name already exists in your tenant.")
             else throw error)
  end.

Definition Mutation_deleteDatabase (id : ObjectId) (context : Context) : M bool :=
  match user context with
  | None => throw (AuthenticationError "You must be logged in.")
  | Some u =>
      if negb (isAdmin u) then
        throw (ForbiddenError "You are not authorized to perform this action.")
      else
        deletedDatabase ←
          DatabaseDefinition_findOneAndUpdate
            (mkQuery (Some id) (Some (u_tenantId u)) None None) (SetIsDeleted true) false;
        match deletedDatabase with
        | None =>
            throw (Error "Database not found or you don't have permission to delete it.")
        | Some deletedDatabase =>
            _ ← ActivityLog_create (u_tenantId u) (u_id u) DELETE_DATABASE
                  (mkDetails (Some (db_id deletedDatabase))
                             (Some (db_name deletedDatabase)) None);
            mret true
        end
  end.

Definition with_fields (fs : list FieldDefinition) (d : DatabaseDefinition)
    : DatabaseDefinition :=
  mkDatabase (db_id d) (db_tenantId d) (db_name d) fs (db_isDeleted d) (db_createdAt d).

(** [database.fields.some((f) => f.name.toLowerCase() === field.name.toLowerCase())] *)
Definition fieldExists (fields : list FieldDefinition) (field : FieldInput) : bool :=
  existsb (fun f => bool_decide (Js.toLowerCase (f_name f) = Js.toLowerCase (fi_name field)))
          fields.

(** [database.fields.some((f) => f.name.toLowerCase() === field.name.toLowerCase()
    && f._id.toString() !== fieldId)]: the printed id of the field is
    compared with the argument as a string, so they are equal when the
    argument is the printed spelling of that id. *)
Definition otherFieldExists (fields : list FieldDefinition) (fieldId : IdArg)
    (field : FieldInput) : bool :=
  existsb (fun f => bool_decide (Js.toLowerCase (f_name f) = Js.toLowerCase (fi_name field))
                    && negb (bool_decide (f_id f = arg_id fieldId)
                             && arg_canonical fieldId))
          fields.

(** [database.fields.id(fieldId)] *)
Definition fields_id (fields : list FieldDefinition) (fieldId : ObjectId)
    : option FieldDefinition :=
  List.find (fun f => bool_decide (f_id f = fieldId)) fields.

(** The sub-document [database.fields.push(field)] casts [field] to: it
    gets an [_id], and [options] defaults to the empty array. *)
Definition castField (id : ObjectId) (field : FieldInput) : FieldDefinition :=
  mkField id (fi_name field) (fi_type field) (default [] (fi_options field))
          (fi_relation field).

(** [fieldToUpdate.set(field)]: the paths [field] carries are overwritten,
    [_id] and the paths it leaves out stay. *)
Definition setField (field : FieldInput) (f : FieldDefinition) : FieldDefinition :=
  mkField (f_id f) (fi_name field) (fi_type field)
          (default (f_options f) (fi_options field))
          (match fi_relation field with
           | Some r => Some r
           | None => f_relation f
           end).

Definition Mutation_createField (databaseId : ObjectId) (field : FieldInput)
    (context : Context) : M DatabaseDefinition :=
  match user context with
  | None => throw (AuthenticationError "You must be logged in.")
  | Some u =>
      if negb (isAdmin u) then
        throw (ForbiddenError "You are not authorized to modify database schemas.")
      else
        database ←
          DatabaseDefinition_findOne
            (mkQuery (Some databaseId) (Some (u_tenantId u)) None None);
        match database with
        | None =>
            throw (ForbiddenError
                     "Database not found or you don't have permission to modify it.")
        | Some database =>
            if fieldExists (db_fields database) field then
              throw (UserInputError
                       ("A field named " +:+ Js.dquote +:+ fi_name field +:+ Js.dquote
                        +:+ " already exists in this database."))
            else
              fieldId ← freshId;
              let database :=
                with_fields (db_fields database ++ [castField fieldId field]) database in
              _ ← DatabaseDefinition_save database;
              _ ← ActivityLog_create (u_tenantId u) (u_id u) CREATE_FIELD
                    (mkDetails (Some (db_id database)) (Some (db_name database)) None);
              mret database
        end
  end.

Definition Mutation_updateField (databaseId : ObjectId) (fieldId : IdArg)
    (field : FieldInput) (context : Context) : M DatabaseDefinition :=
  match user context with
  | None => throw (AuthenticationError "You must be logged in.")
  | Some u =>
      if negb (isAdmin u) then
        throw (ForbiddenError "You are not authorized to modify schemas.")
      else
        database ←
          DatabaseDefinition_findOne
            (mkQuery (Some databaseId) (Some (u_tenantId u)) None None);
        match database with
        | None =>
            throw (ForbiddenError
                     "Database not found or you don't have permission to modify it.")
        | Some database =>
            match fields_id (db_fields database) (arg_id fieldId) with
            | None => throw (UserInputError "Field not found in this database.")
            | Some _ =>
                if otherFieldExists (db_fields database) fieldId field then
                  throw (UserInputError
                           ("Another field named " +:+ Js.dquote +:+ fi_name field
                            +:+ Js.dquote +:+ " already exists in this database."))
                else
                  let database :=
                    with_fields
                      (update_first (fun f => bool_decide (f_id f = arg_id fieldId))
                                    (setField field) (db_fields database))
                      database in
                  _ ← DatabaseDefinition_save database;
                  _ ← ActivityLog_create (u_tenantId u) (u_id u) UPDATE_FIELD
                        (mkDetails (Some (db_id database)) (Some (db_name database)) None);
                  mret database
            end
        end
  end.

Definition Mutation_deleteField (databaseId fieldId : ObjectId) (context : Context)
    : M DatabaseDefinition :=
  match user context with
  | None => throw (AuthenticationError "You must be logged in.")
  | Some u =>
      if negb (isAdmin u) then
        throw (ForbiddenError "You are not authorized to modify schemas.")
      else
        database ←
          DatabaseDefinition_findOne
            (mkQuery (Some databaseId) (Some (u_tenantId u)) None None);
        match database with
        | None =>
            throw (ForbiddenError
                     "Database not found or you don't have permission to modify it.")
        | Some database =>
            match fields_id (db_fields database) fieldId with
            | None => throw (UserInputError "Field not found in this database.")
            | Some fieldToRemove =>
                let database :=
                  with_fields
                    (List.filter (fun f => negb (bool_decide (f_id f = f_id fieldToRemove)))
                                 (db_fields database))
                    database in
                _ ← DatabaseDefinition_save database;
                _ ← ActivityLog_create (u_tenantId u) (u_id u) DELETE_FIELD
                      (mkDetails (Some (db_id database)) (Some (db_name database)) None);
                mret database
            end
        end
  end.

(** The loop of [createRecord] over [database.fields]: a provided value
    ([!== undefined]) is copied under the field's name. *)
Definition validatedValues (fields : list FieldDefinition) (values : entries value)
    : entries value :=
  foldl (fun validated field =>
           match get (f_name field) values with
           | Some providedValue => set (f_name field) providedValue validated
           | None => validated
           end)
        [] fields.

Definition Mutation_createRecord (databaseId : ObjectId) (values : entries value)
    (context : Context) : M FormattedRecord :=
  match user context with
  | None => throw (AuthenticationError "You must be logged in.")
  | Some u =>
      if negb (canEditRecords u) then
        throw (ForbiddenError "You are not authorized to create records.")
      else
        database ←
          DatabaseDefinition_findOne
            (mkQuery (Some databaseId) (Some (u_tenantId u)) None None);
        match database with
        | None => throw (ForbiddenError "Database not found or you don't have permission.")
        | Some database =>
            newRecord ← new_Record databaseId (u_tenantId u)
                          (validatedValues (db_fields database) values);
            _ ← Record_save newRecord;
            _ ← ActivityLog_create (u_tenantId u) (u_id u) CREATE_RECORD
                  (mkDetails (Some databaseId) None (Some (r_id newRecord)));
            mret (format newRecord)
        end
  end.

(** The loop of [updateRecord] over [Object.entries(values)]:
    [record.values.set(key, value)] throws on the first key the [Map]
    does not take. *)
Fixpoint mergedValues (old : entries value) (values : entries value)
    : exn + entries value :=
  match values with
  | [] => inr old
  | (key, value) :: values' =>
      if Map_key_ok key then mergedValues (set key value old) values'
      else inl (MapKeyError key)
  end.


Definition Mutation_updateRecord (id : ObjectId) (values : entries value)
    (context : Context) : M FormattedRecord :=
  match user context with
  | None => throw (AuthenticationError "You must be logged in.")
  | Some u =>
      if negb (canEditRecords u) then
        throw (ForbiddenError "You are not authorized to edit records.")
      else
        record ← Record_findOne (mkQuery (Some id) (Some (u_tenantId u)) None None);
        match record with
        | None => throw (UserInputError "Record not found or you don't have permission.")
        | Some record =>
            match mergedValues (r_values record) values with
            | inl error => throw error
            | inr merged =>
                updatedAt ← dateNow;
                let record :=
                  mkRecord (r_id record) (r_tenantId record) (r_databaseId record)
                           merged (r_isDeleted record) (r_createdAt record) updatedAt in
                _ ← Record_save record;
                _ ← ActivityLog_create (u_tenantId u) (u_id u) UPDATE_RECORD
                      (mkDetails None None (Some (r_id record)));
                mret (format record)
            end
        end
  end.

Definition Mutation_deleteRecord (id : ObjectId) (context : Context) : M bool :=
  match user context with
  | None => throw (AuthenticationError "You must be logged in.")
  | Some u =>
      if negb (canEditRecords u) then
        throw (ForbiddenError "You are not authorized to delete records.")
      else
        updatedAt ← dateNow;
        result ← Record_findOneAndUpdate
                   (mkQuery (Some id) (Some (u_tenantId u)) None None)
                   (setDeleted true updatedAt);
        match result with
        | None => throw (UserInputError "Record not found or you don't have permission.")
        | Some result =>
            _ ← ActivityLog_create (u_tenantId u) (u_id u) DELETE_RECORD
                  (mkDetails (Some (r_databaseId result)) None (Some (r_id result)));
            mret true
        end
  end.

(** ** The mutation resolvers as one map *)

(** A call of one of the nine data mutations of [resolvers.Mutation],
    with its arguments. *)
Inductive MutationCall : Type :=
| CreateDatabase (name : string)
| UpdateDatabase (id : ObjectId) (name : string)
| DeleteDatabase (id : ObjectId)
| CreateField (databaseId : ObjectId) (field : FieldInput)
| UpdateField (databaseId : ObjectId) (fieldId : IdArg) (field : FieldInput)
| DeleteField (databaseId fieldId : ObjectId)
| CreateRecord (databaseId : ObjectId) (values : entries value)
| UpdateRecord (id : ObjectId) (values : entries value)
| DeleteRecord (id : ObjectId).

(** The run of a resolver with its result forgotten. *)
Definition discard {A} (m : M A) : M unit := fun w =>
  match m w with
  | (Return _, w') => (Return tt, w')
  | (Throw e, w') => (Throw e, w')
  end.

Definition Mutation_call (call : MutationCall) (context : Context) : M unit :=
  match call with
  | CreateDatabase name => discard (Mutation_createDatabase name context)
  | UpdateDatabase id name => discard (Mutation_updateDatabase id name context)
  | DeleteDatabase id => discard (Mutation_deleteDatabase id context)
  | CreateField databaseId field => discard (Mutation_createField databaseId field context)
  | UpdateField databaseId fieldId field =>
      discard (Mutation_updateField databaseId fieldId field context)
  | DeleteField databaseId fieldId =>
      discard (Mutation_deleteField databaseId fieldId context)
  | CreateRecord databaseId values =>
      discard (Mutation_createRecord databaseId values context)
  | UpdateRecord id values => discard (Mutation_updateRecord id values context)
  | DeleteRecord id => discard (Mutation_deleteRecord id context)
  end.

(** The [action] each mutation hands to [ActivityLog.create]. *)
Definition action_of (call : MutationCall) : Action :=
  match call with
  | CreateDatabase _ => CREATE_DATABASE
  | UpdateDatabase _ _ => UPDATE_DATABASE
  | DeleteDatabase _ => DELETE_DATABASE
  | CreateField _ _ => CREATE_FIELD
  | UpdateField _ _ _ => UPDATE_FIELD
  | DeleteField _ _ => DELETE_FIELD
  | CreateRecord _ _ => CREATE_RECORD
  | UpdateRecord _ _ => UPDATE_RECORD
  | DeleteRecord _ => DELETE_RECORD
  end.

(** ** Accounts: tenants, users, [signup], [login] and the request context *)

(** [models/Tenant.js] *)
Record Tenant : Type := mkTenant {
  t_id : ObjectId;
  t_name : string;
  t_plan : string;
  t_createdAt : Z
}.

(** [models/User.js], the whole document. *)
Record UserDoc : Type := mkUserDoc {
  ud_id : ObjectId;
  ud_tenantId : ObjectId;
  ud_username : string;
  ud_email : string;
  ud_password : string;
  ud_role : Role;
  ud_createdAt : Z
}.

(** The user a context carries: the document without its password. *)
Definition context_user (d : UserDoc) : User :=
  mkUser (ud_id d) (ud_tenantId d) (ud_role d).

(** The two collections [signup] and [login] work on, with the id
    generator and the clock. *)
Record Accounts : Type := mkAccounts {
  tenants : list Tenant;
  users : list UserDoc;
  acc_nextId : ObjectId;
  acc_now : Z
}.

(** The resolver monad over the accounts. *)
Definition MA (A : Type) : Type := Accounts -> outcome A * Accounts.

#[global] Instance MA_ret : MRet MA := fun A a s => (Return a, s).
#[global] Instance MA_bind : MBind MA := fun A B f m s =>
  match m s with
  | (Return a, s') => f a s'
  | (Throw e, s') => (Throw e, s')
  end.

Definition throwA {A} (e : exn) : MA A := fun s => (Throw e, s).

(** [User.findOne({ email })] *)
Definition User_findOne_email (email : string) : MA (option UserDoc) := fun s =>
  (Return (List.find (fun d => bool_decide (ud_email d = email)) (users s)), s).

(** [User.findById(id)] *)
Definition User_findById (id : ObjectId) (s : Accounts) : option UserDoc :=
  List.find (fun d => bool_decide (ud_id d = id)) (users s).

(** [new Tenant({ name })]: [name] is trimmed, [plan] defaults to "Free". *)
Definition new_Tenant (name : string) : MA Tenant := fun s =>
  (Return (mkTenant (acc_nextId s) (Js.trim name) "Free" (acc_now s)),
   mkAccounts (tenants s) (users s) (N.succ (acc_nextId s)) (acc_now s)).

(** [newTenant.save()]: [name] is required and unique. *)
Definition Tenant_save (t : Tenant) : MA unit := fun s =>
  if decide (t_name t = "") then (Throw (ValidationError "name"), s)
  else if existsb (fun t' => bool_decide (t_name t' = t_name t)) (tenants s)
  then (Throw (MongoServerError 11000), s)
  else (Return tt, mkAccounts (tenants s ++ [t]) (users s) (acc_nextId s) (acc_now s)).

(** [new User({ username, email, password, tenantId, role })] *)
Definition new_User (username email password : string) (tenantId : ObjectId)
    (role : Role) : MA UserDoc := fun s =>
  (Return (mkUserDoc (acc_nextId s) tenantId username email password role (acc_now s)),
   mkAccounts (tenants s) (users s) (N.succ (acc_nextId s)) (acc_now s)).

(** [newUser.save()]: [username], [email] and [password] are required;
    [username] and [email] are each unique over the collection, which
    subsumes the two indexes that pair them with [tenantId]. *)
Definition User_save (d : UserDoc) : MA unit := fun s =>
  if decide (ud_username d = "") then (Throw (ValidationError "username"), s)
  else if decide (ud_email d = "") then (Throw (ValidationError "email"), s)
  else if decide (ud_password d = "") then (Throw (ValidationError "password"), s)
  else if existsb (fun d' => bool_decide (ud_username d' = ud_username d)
                             || bool_decide (ud_email d' = ud_email d)) (users s)
  then (Throw (MongoServerError 11000), s)
  else (Return tt, mkAccounts (tenants s) (users s ++ [d]) (acc_nextId s) (acc_now s)).

(** What [jwt.sign] is given: [{ id, role, tenantId }]. *)
Record TokenPayload : Type := mkPayload {
  tp_id : ObjectId;
  tp_role : Role;
  tp_tenantId : ObjectId
}.

(** What [login] and [signup] return: [{ token, user }]. *)
Record AuthPayload : Type := mkAuthPayload {
  token : string;
  auth_user : UserDoc
}.

(** [s.split(sep)] for a one-character separator. *)
Fixpoint split_on (sep : ascii) (s : string) : list string :=
  match s with
  | EmptyString => [EmptyString]
  | String c s' =>
      if decide (c = sep) then EmptyString :: split_on sep s'
      else match split_on sep s' with
           | [] => [String c EmptyString]
           | piece :: pieces => String c piece :: pieces
           end
  end.

Section Auth.

(** The libraries the account code calls, with the secret, the salt and
    the clock they use held fixed: [bcrypt.hash(password, 10)],
    [bcrypt.compare(password, hash)], [jwt.sign(payload, secret, { expiresIn })]
    and [jwt.verify(token, secret)], where [None] stands for a throw. *)
Variable bcrypt_hash : string -> string.
Variable bcrypt_compare : string -> string -> bool.
Variable jwt_sign : TokenPayload -> string.
Variable jwt_verify : string -> option TokenPayload.

(** [resolvers.Mutation.login] *)
Definition Mutation_login (email password : string) : MA AuthPayload :=
  u ← User_findOne_email email;
  match u with
  | None => throwA (UserInputError "Invalid Credentials")
  | Some u =>
      let validPassword := bcrypt_compare password (ud_password u) in
      if negb validPassword then throwA (UserInputError "Invalid credentials")
      else
        let token := jwt_sign (mkPayload (ud_id u) (ud_role u) (ud_tenantId u)) in
        mret (mkAuthPayload token u)
  end.

(** [resolvers.Mutation.signup] *)
Definition Mutation_signup (username email password : string) : MA AuthPayload :=
  if bool_decide (username = "") || bool_decide (email = "") || bool_decide (password = "")
  then throwA (UserInputError "Please provide username, email, and password.")
  else
    existingUser ← User_findOne_email email;
    match existingUser with
    | Some _ => throwA (UserInputError "User with this email already exists.")
    | None =>
        newTenant ← new_Tenant (username +:+ "'s Workspace");
        _ ← Tenant_save newTenant;
        let hashedPassword := bcrypt_hash password in
        newUser ← new_User username email hashedPassword (t_id newTenant) Admin;
        _ ← User_save newUser;
        let token :=
          jwt_sign (mkPayload (ud_id newUser) (ud_role newUser) (ud_tenantId newUser)) in
        mret (mkAuthPayload token newUser)
    end.

(** The tenant and the user a successful [signup] creates. *)
Definition signup_tenant (username : string) (s : Accounts) : Tenant :=
  mkTenant (acc_nextId s) (Js.trim (username +:+ "'s Workspace")) "Free" (acc_now s).
Definition signup_user (username email password : string) (s : Accounts) : UserDoc :=
  mkUserDoc (N.succ (acc_nextId s)) (acc_nextId s) username email
            (bcrypt_hash password) Admin (acc_now s).

(** The token the [context] function of the server takes from the
    [authorization] header: the second piece of the header split at the
    spaces, when the header starts with "Bearer". *)
Definition bearer_token (authorization : option string) : option string :=
  match authorization with
  | Some header =>
      if Js.startsWith "Bearer" header then split_on " " header !! 1%nat else None
  | None => None
  end.

(** The [context] function of the Apollo server: no token, or a token
    [jwt.verify] throws on, gives the empty context; otherwise the user is
    looked up by the id of the token. *)
Definition server_context (authorization : option string) (s : Accounts) : Context :=
  match bearer_token authorization with
  | Some (String _ _ as token) =>
      match jwt_verify token with
      | Some decoded => mkContext (context_user <$> User_findById (tp_id decoded) s)
      | None => mkContext None
      end
  | _ => mkContext None
  end.

End Auth.

(** ** A small store with two tenants *)

Module Example.

Definition tenant1 : ObjectId := 10%N.
Definition tenant2 : ObjectId := 20%N.

Definition alice : User := mkUser 1 tenant1 Admin.
Definition erin : User := mkUser 3 tenant1 Editor.

Definition as_user (u : User) : Context := mkContext (Some u).

Definition tasks : DatabaseDefinition :=
  mkDatabase 100 tenant1 "Tasks"
    [mkField 101 "Title" "text" [] None; mkField 102 "Done" "boolean" [] None]
    false 1.
Definition archive : DatabaseDefinition :=
  mkDatabase 110 tenant1 "Archive" [] true 1.
Definition leads : DatabaseDefinition :=
  mkDatabase 200 tenant2 "Leads" [mkField 201 "Company" "text" [] None] false 2.
(** [leads] with its text field turned into a number field. *)
Definition leads_numeric : DatabaseDefinition :=
  mkDatabase 200 tenant2 "Leads" [mkField 201 "Company" "number" [] None] false 2.

Definition task1 : RecordDoc :=
  mkRecord 150 tenant1 100 [("Title", VStr "abc")] false 3 3.
Definition lead1 : RecordDoc :=
  mkRecord 250 tenant2 200 [("Company", VStr "Acme")] false 4 4.

Definition log1 : ActivityLog :=
  mkLog 160 tenant1 1 CREATE_DATABASE (mkDetails (Some 100%N) (Some "Tasks") None) 1.
Definition log2 : ActivityLog :=
  mkLog 260 tenant2 2 CREATE_DATABASE (mkDetails (Some 200%N) (Some "Leads") None) 2.

Definition world : World :=
  mkWorld [tasks; archive; leads] [task1; lead1] [log1; log2] 1000 5 true.

(** The same store, with the other tenant's schema changed. *)
Definition world' : World :=
  mkWorld [tasks; archive; leads_numeric] [task1; lead1] [log1; log2] 1000 5 true.

(** The same store when the activity log refuses writes. *)
Definition world_audit_down : World := with_auditUp false world.

(** Twenty-five live records of [tasks], numbered 1 to 25. *)
Definition numbered (i : nat) : RecordDoc :=
  mkRecord (300 + N.of_nat i) tenant1 100 [("No", VNum (Z.of_nat i))] false 3 3.
Definition world25 : World :=
  mkWorld [tasks] (numbered <$> seq 1 25) [] 1000 5 true.

(** A database with a field named by an array index, and a store with
    it. *)
Definition grid : DatabaseDefinition :=
  mkDatabase 120 tenant1 "Grid"
    [mkField 121 "b" "number" [] None; mkField 122 "1" "number" [] None] false 1.
Definition world_grid : World := mkWorld [tasks; grid] [task1] [] 1000 5 true.

(** The no-break space U+00A0 as a string. *)
Definition nbsp : string := string_of_list_ascii (Js.bytes [194; 160]%N).

(** A filter language of literals, and an order that relates everything:
    stand-ins for the store's own where a concrete engine is needed. *)
Definition literal_holds (c : value) (v : option value) : bool :=
  bool_decide (v = Some c).
Definition any_order (_ _ : option value) : bool := true.

(** Accounts with one tenant and its Admin, and stand-ins for the
    libraries: the hash is the password behind a tag, a token is the
    user's role and ids spelled out. *)
Definition carol : UserDoc :=
  mkUserDoc 7 70 "carol" "carol@example.com" "hashed:pw" Viewer 1.
Definition accounts : Accounts :=
  mkAccounts [mkTenant 70 "carol's Workspace" "Free" 1] [carol] 100 5.

Definition hash (password : string) : string := "hashed:" +:+ password.
Definition compare (password hashed : string) : bool :=
  bool_decide (hashed = hash password).

Fixpoint tally (n : nat) (c : ascii) : string :=
  match n with
  | O => EmptyString
  | S n' => String c (tally n' c)
  end.

Definition sign (p : TokenPayload) : string :=
  match tp_role p with
  | Admin => "A"
  | Editor => "E"
  | Viewer => "V"
  end +:+ tally (N.to_nat (tp_id p)) "i" +:+ "."
      +:+ tally (N.to_nat (tp_tenantId p)) "t".

Fixpoint count_prefix (c : ascii) (s : string) : nat * string :=
  match s with
  | String c' s' =>
      if decide (c' = c) then let '(n, rest) := count_prefix c s' in (S n, rest)
      else (O, s)
  | EmptyString => (O, EmptyString)
  end.

Definition verify (token : string) : option TokenPayload :=
  match token with
  | String r rest =>
      let role :=
        if decide (r = "A"%char) then Some Admin
        else if decide (r = "E"%char) then Some Editor
        else if decide (r = "V"%char) then Some Viewer
        else None in
      let '(i, rest1) := count_prefix "i" rest in
      match role, rest1 with
      | Some role, String "." rest2 =>
          let '(t, rest3) := count_prefix "t" rest2 in
          match rest3 with
          | EmptyString => Some (mkPayload (N.of_nat i) role (N.of_nat t))
          | _ => None
          end
      | _, _ => None
      end
  | EmptyString => None
  end.

End Example.

(** ** Vocabulary of the statements *)


(** After a run on [w_down], where the activity log refuses writes, the
    store holds what the successful run [w_ok] wrote to the databases and
    records, and the activity log is as it was. *)
Definition primary_write_kept (w_down w_ok w_fail : World) : Prop :=
  databases w_fail = databases w_ok /\ records w_fail = records w_ok /\
  activityLogs w_fail = activityLogs w_down.

(** Whenever [op] succeeds on [w], the same call on [w] with the activity
    log refusing writes throws [e] to the caller and keeps the primary
    write. *)
Definition audit_failure_surfaces {A} (op : M A) (e : exn) (w : World) : Prop :=
  forall r w', op w = (Return r, w') ->
    exists w'', op (with_auditUp false w) = (Throw e, w'') /\
                primary_write_kept (with_auditUp false w) w' w''.


(** The run throws and writes nothing; when the caller passes the gate
    named, what it throws is [e]. *)
Definition refused {A} (run : outcome A * World) (w : World) (passes_gate : Prop)
    (e : exn) : Prop :=
  exists e', run = (Throw e', w) /\ (passes_gate -> e' = e).

(** What a tenant owns in a store. *)
Definition tenant_view (t : ObjectId) (w : World)
    : list DatabaseDefinition * list RecordDoc * list ActivityLog :=
  (List.filter (fun d => bool_decide (db_tenantId d = t)) (databases w),
   List.filter (fun r => bool_decide (r_tenantId r = t)) (records w),
   List.filter (fun l => bool_decide (l_tenantId l = t)) (activityLogs w)).

(** The ids of each collection are pairwise distinct and were drawn from
    the generator. *)
Definition ids_unique (w : World) : Prop :=
  NoDup (db_id <$> databases w) /\ NoDup (r_id <$> records w) /\
  (forall d, d ∈ databases w -> (db_id d < nextId w)%N) /\
  (forall r, r ∈ records w -> (r_id r < nextId w)%N).

(** One write to the store on behalf of the user [u], as the resolvers
    issue them: an id drawn, a document of [u]'s tenant inserted under a
    fresh id, a document of [u]'s tenant saved again or updated in place
    with its id and tenant kept, an entry of [u]'s tenant appended to the
    activity log. *)
Inductive write (u : User) : World -> World -> Prop :=
| write_id w :
    write u w (mkWorld (databases w) (records w) (activityLogs w)
                       (N.succ (nextId w)) (now w) (auditUp w))
| write_database_new w d :
    db_id d = nextId w -> db_tenantId d = u_tenantId u ->
    write u w (mkWorld (upsert db_id d (databases w)) (records w) (activityLogs w)
                       (N.succ (nextId w)) (now w) (auditUp w))
| write_database_saved w d0 d :
    d0 ∈ databases w -> db_tenantId d0 = u_tenantId u ->
    db_id d = db_id d0 -> db_tenantId d = db_tenantId d0 ->
    write u w (with_databases (upsert db_id d (databases w)) w)
| write_database_updated w q f :
    q_tenantId q = Some (u_tenantId u) ->
    (forall d, db_id (f d) = db_id d /\ db_tenantId (f d) = db_tenantId d) ->
    write u w (with_databases (update_first (db_matches q) f (databases w)) w)
| write_record_new w r :
    r_id r = nextId w -> r_tenantId r = u_tenantId u ->
    write u w (mkWorld (databases w) (upsert r_id r (records w)) (activityLogs w)
                       (N.succ (nextId w)) (now w) (auditUp w))
| write_record_saved w r0 r :
    r0 ∈ records w -> r_tenantId r0 = u_tenantId u ->
    r_id r = r_id r0 -> r_tenantId r = r_tenantId r0 ->
    r_databaseId r = r_databaseId r0 ->
    write u w (with_records (upsert r_id r (records w)) w)
| write_record_updated w q f :
    q_tenantId q = Some (u_tenantId u) ->
    (forall r, r_id (f r) = r_id r /\ r_tenantId (f r) = r_tenantId r
               /\ r_databaseId (f r) = r_databaseId r) ->
    write u w (with_records (update_first (record_matches q) f (records w)) w)
| write_log w entry :
    l_tenantId entry = u_tenantId u ->
    write u w (mkWorld (databases w) (records w) (activityLogs w ++ [entry])
                       (N.succ (nextId w)) (now w) (auditUp w)).

(** Who owns which id: what no write may change. *)
Definition database_owners (w : World) : list (ObjectId * ObjectId) :=
  (fun d => (db_id d, db_tenantId d)) <$> databases w.
Definition record_owners (w : World) : list (ObjectId * ObjectId * ObjectId) :=
  (fun r => (r_id r, r_tenantId r, r_databaseId r)) <$> records w.

(** The user filter read as a conjunction on one record. *)
Definition satisfies {condition : Type} (cond_holds : condition -> option value -> bool)
    (filter : entries condition) (r : RecordDoc) : bool :=
  forallb (fun '(f, c) => cond_holds c (get f (r_values r))) filter.

(** The field names of a database are pairwise distinct up to case. *)
Definition names_distinct (fields : list FieldDefinition) : Prop :=
  NoDup ((fun f => Js.toLowerCase (f_name f)) <$> fields).

(** The ids of the users are pairwise distinct and were drawn from the
    generator. *)
Definition accounts_ids_unique (s : Accounts) : Prop :=
  NoDup (ud_id <$> users s) /\ (forall d, d ∈ users s -> (ud_id d < acc_nextId s)%N).

(** An ordinary key of a value map: one every version of the Mongoose
    [Map] takes (no leading dollar sign, no dot, not the reserved name
    [prototype]) and that names no property an object inherits, so that
    [values[key]] reads what the caller sent. *)
Definition plain_key (k : string) : bool :=
  Map_key_ok k && bool_decide (k ∉ Js.Object_prototype)
  && bool_decide (k <> "prototype").

(** [s] has a character that is not white space (something is left of it
    after the leading white space; white space as [trim] reads it). *)
Definition has_nonspace (s : string) : bool :=
  negb (bool_decide (Js.trimStart s = "")).

(** No character of the string is the space. *)
Fixpoint no_space (s : string) : bool :=
  match s with
  | EmptyString => true
  | String c s' => negb (bool_decide (c = " "%char)) && no_space s'
  end.

(** The fields of a database have pairwise distinct ids, drawn from the
    generator before [n], and pairwise distinct names up to case. *)
Definition fields_wf (fields : list FieldDefinition) (n : ObjectId) : Prop :=
  NoDup (f_id <$> fields) /\ names_distinct fields /\
  forall f, f ∈ fields -> (f_id f < n)%N.
Definition fields_ok (w : World) : Prop :=
  forall d, d ∈ databases w -> fields_wf (db_fields d) (nextId w).


(** The live records of a database in the caller's tenant, in collection
    order: what the first stage of [Query.records] selects. *)
Definition live_records (databaseId : ObjectId) (u : User) (w : World) : list RecordDoc :=
  List.filter
    (record_matches (mkQuery None (Some (u_tenantId u)) (Some databaseId) (Some false)))
    (records w).

(** The page [page] of [docs] at [limit] records a page, formatted. *)
Definition page_of (page limit : option Z) (docs : list RecordDoc)
    : list FormattedRecord :=
  format <$> take (Z.to_nat (limitNum 20 limit))
                  (drop (Z.to_nat (skipNum 20 page limit)) docs).



(** * Facts *)

Ltac unfold_M :=
  unfold mbind, M_bind, mret, M_ret, throw, try_catch, dateNow, freshId in *.

(** ** Lists, lookups and maps *)

Lemma find_none_iff {A} (p : A -> bool) (l : list A) :
  List.find p l = None <-> (forall x, x ∈ l -> p x = false).
Proof.
  induction l as [|y l IH]; simpl.
  - split; [intros _ x Hx; inversion Hx | done].
  - destruct (p y) eqn:Hy.
    + split; [done | intros H; rewrite H in Hy; [done | left]].
    + rewrite IH. split.
      * intros H x Hx. inversion Hx; subst; auto.
      * intros H x Hx. apply H. by right.
Qed.

Lemma find_some_elem {A} (p : A -> bool) (l : list A) (x : A) :
  List.find p l = Some x -> x ∈ l /\ p x = true.
Proof.
  intros H. apply List.find_some in H as [Hin Hp].
  split; [by apply list_elem_of_In | done].
Qed.

Lemma plain_key_ok (k : string) : plain_key k = true -> Map_key_ok k = true.
Proof. unfold plain_key. by intros [[? _]%andb_true_iff _]%andb_true_iff. Qed.



(** A record that was loaded from the collection is not new. *)
Lemma isNewRecord_loaded (q : Query) (rs : list RecordDoc) (r r' : RecordDoc) :
  List.find (record_matches q) rs = Some r -> r_id r' = r_id r ->
  isNewRecord r' rs = false.
Proof.
  intros Hfind Hid. unfold isNewRecord. apply negb_false_iff.
  apply List.existsb_exists. exists r. apply List.find_some in Hfind as [Hin _].
  split; [done|]. apply bool_decide_eq_true. congruence.
Qed.

Lemma keys_set_sub {A} (k : string) (v : A) (m : entries A) (x : string) :
  x ∈ keys (set k v m) -> x = k \/ x ∈ keys m.
Proof.
  unfold keys. induction m as [|[k' v'] m IH]; cbn.
  - intros [->|H]%elem_of_cons; [by left | by apply elem_of_nil in H].
  - destruct (decide (k' = k)) as [->|Hne]; cbn.
    + intros [->|H]%elem_of_cons; [by left | right; by right].
    + intros [->|H]%elem_of_cons; [right; left|].
      destruct (IH H) as [->|Hin]; [by left | right; by right].
Qed.

(** [createRecord] keeps keys that name a field only. *)
Lemma keys_validatedValues (fields : list FieldDefinition) (values : entries value)
    (k : string) :
  k ∈ keys (validatedValues fields values) -> k ∈ f_name <$> fields.
Proof.
  unfold validatedValues.
  assert (forall acc,
            k ∈ keys (foldl (fun validated field =>
                               match get (f_name field) values with
                               | Some providedValue =>
                                   set (f_name field) providedValue validated
                               | None => validated
                               end) acc fields) ->
            k ∈ keys acc \/ k ∈ f_name <$> fields) as H.
  { induction fields as [|f fields IH]; intros acc; cbn [foldl]; [by left|].
    intros Hk. destruct (IH _ Hk) as [Hacc|Hin]; [|right; by right].
    destruct (get (f_name f) values); [|by left].
    apply keys_set_sub in Hacc as [->|Hacc]; [right; left | by left]. }
  intros Hk. destruct (H [] Hk) as [Hnil|Hin]; [|done]. by apply elem_of_nil in Hnil.
Qed.

Lemma validatedValues_keys_ok (fields : list FieldDefinition) (values : entries value) :
  Forall (fun f => Map_key_ok (f_name f) = true) fields ->
  forallb Map_key_ok (keys (validatedValues fields values)) = true.
Proof.
  intros Hok. apply forallb_forall. intros k Hk%list_elem_of_In.
  apply keys_validatedValues in Hk. apply list_elem_of_fmap in Hk as (f & -> & Hf).
  rewrite Forall_forall in Hok. by apply Hok.
Qed.

(** What [createRecord] does for a caller who may edit records, on a
    database of the caller's tenant whose field names the [Map] takes:
    the record is saved as a read will list it, then the audit entry is
    written, then the record is returned as it was built. *)
Lemma createRecord_run (databaseId : ObjectId) (values : entries value) (u : User)
    (w : World) (database : DatabaseDefinition) :
  canEditRecords u = true ->
  List.find (db_matches (mkQuery (Some databaseId) (Some (u_tenantId u)) None None))
            (databases w) = Some database ->
  Forall (fun f => Map_key_ok (f_name f) = true) (db_fields database) ->
  let newRecord :=
    mkRecord (nextId w) (u_tenantId u) databaseId
             (validatedValues (db_fields database) values) false (now w) (now w) in
  let saved :=
    mkWorld (databases w) (upsert r_id (as_read newRecord) (records w)) (activityLogs w)
            (N.succ (nextId w)) (now w) (auditUp w) in
  Mutation_createRecord databaseId values (mkContext (Some u)) w =
    match ActivityLog_create (u_tenantId u) (u_id u) CREATE_RECORD
            (mkDetails (Some databaseId) None (Some (nextId w))) saved with
    | (Return _, w') => (Return (format newRecord), w')
    | (Throw e, w') => (Throw e, w')
    end.
Proof.
  intros Hedit Hfind Hok newRecord saved.
  unfold Mutation_createRecord. cbn [user]. rewrite Hedit. cbn [negb].
  unfold_M. unfold DatabaseDefinition_findOne, new_Record, Record_save. unfold_M.
  rewrite Hfind. cbn [databases records activityLogs nextId now auditUp r_values r_id].
  rewrite (validatedValues_keys_ok _ values Hok). cbn [negb]. rewrite andb_false_r.
  unfold with_records.
  cbn [databases records activityLogs nextId now auditUp r_values r_id]. done.
Qed.



Lemma same_id_same_doc {A} (id : A -> ObjectId) (l : list A) (x y : A) :
  NoDup (id <$> l) -> x ∈ l -> y ∈ l -> id x = id y -> x = y.
Proof.
  induction l as [|z l IH]; intros Hnd Hx Hy Hid; [inversion Hx|].
  rewrite fmap_cons in Hnd. inversion Hnd as [|? ? Hz Hnd']; subst.
  inversion Hx; inversion Hy; subst; auto.
  - exfalso. apply Hz. rewrite Hid. by apply list_elem_of_fmap_2.
  - exfalso. apply Hz. rewrite <- Hid. by apply list_elem_of_fmap_2.
Qed.

Lemma crit_true {A} `{EqDecision A} (c : option A) (x : A) :
  crit c x = true <-> (forall a, c = Some a -> x = a).
Proof.
  destruct c as [a|]; simpl.
  - rewrite bool_decide_eq_true. split; [by intros -> ? [= <-] | auto].
  - split; [done | auto].
Qed.

Lemma db_matches_true (q : Query) (d : DatabaseDefinition) :
  db_matches q d = true <->
  (forall i, q_id q = Some i -> db_id d = i) /\
  (forall t, q_tenantId q = Some t -> db_tenantId d = t) /\
  (forall b, q_isDeleted q = Some b -> db_isDeleted d = b).
Proof. unfold db_matches. rewrite !andb_true_iff, !crit_true. tauto. Qed.

Lemma record_matches_true (q : Query) (r : RecordDoc) :
  record_matches q r = true <->
  (forall i, q_id q = Some i -> r_id r = i) /\
  (forall t, q_tenantId q = Some t -> r_tenantId r = t) /\
  (forall i, q_databaseId q = Some i -> r_databaseId r = i) /\
  (forall b, q_isDeleted q = Some b -> r_isDeleted r = b).
Proof. unfold record_matches. rewrite !andb_true_iff, !crit_true. tauto. Qed.

(** A database of another tenant is invisible to a lookup by id and
    tenant, whatever the soft-delete criterion. *)
Lemma foreign_database_not_found (ds : list DatabaseDefinition)
    (d : DatabaseDefinition) (t : ObjectId) (del : option bool) :
  NoDup (db_id <$> ds) -> d ∈ ds -> db_tenantId d <> t ->
  List.find (db_matches (mkQuery (Some (db_id d)) (Some t) None del)) ds = None.
Proof.
  intros Hnd Hd Ht. apply find_none_iff. intros x Hx.
  apply not_true_is_false. intros Hm.
  apply db_matches_true in Hm as (Hid & Hten & _). simpl in *.
  specialize (Hid _ eq_refl). specialize (Hten _ eq_refl).
  assert (x = d) by (apply (same_id_same_doc db_id ds); auto). by subst.
Qed.

Lemma foreign_record_not_found (rs : list RecordDoc) (r : RecordDoc) (t : ObjectId) :
  NoDup (r_id <$> rs) -> r ∈ rs -> r_tenantId r <> t ->
  List.find (record_matches (mkQuery (Some (r_id r)) (Some t) None None)) rs = None.
Proof.
  intros Hnd Hr Ht. apply find_none_iff. intros x Hx.
  apply not_true_is_false. intros Hm.
  apply record_matches_true in Hm as (Hid & Hten & _). simpl in *.
  specialize (Hid _ eq_refl). specialize (Hten _ eq_refl).
  assert (x = r) by (apply (same_id_same_doc r_id rs); auto). by subst.
Qed.

Lemma update_first_elem {A} (p : A -> bool) (f : A -> A) (l : list A) (x : A) :
  List.find p l = Some x -> f x ∈ update_first p f l.
Proof.
  induction l as [|y l IH]; simpl; [done|].
  destruct (p y); [intros [= ->]; left | intros H; right; auto].
Qed.

Lemma isAdmin_true (u : User) : u_role u = Admin -> isAdmin u = true.
Proof. intros H. unfold isAdmin. by rewrite H. Qed.

(** ** The single-database lookup *)

(** C9, as stated, fails: where no live database of the caller's tenant
    has the id (an id nobody has, an id of another tenant, a soft-deleted
    database), [Query.database] throws; it does not return [null]. *)
Lemma database_query_throws_counterexample :
  let missing := Error "Database not found or you don't have permission to view it." in
  (Query_database 999 (Example.as_user Example.alice) Example.world).1 = Throw missing /\
  (Query_database 200 (Example.as_user Example.alice) Example.world).1 = Throw missing /\
  (Query_database 110 (Example.as_user Example.alice) Example.world).1 = Throw missing.
Proof. by vm_compute. Qed.

(** C9, amended: when no live database with the id exists in the
    caller's tenant, [Query.database] throws the plain [Error]
    "Database not found or you don't have permission to view it." and
    leaves the store as it was. *)
Theorem database_query_not_found (w : World) (u : User) (id : ObjectId) :
  (forall d, d ∈ databases w -> db_id d = id -> db_tenantId d = u_tenantId u ->
             db_isDeleted d = true) ->
  Query_database id (mkContext (Some u)) w =
    (Throw (Error "Database not found or you don't have permission to view it."), w).
Proof.
  intros Hnone. unfold Query_database, DatabaseDefinition_findOne. simpl. unfold_M.
  replace (List.find _ (databases w)) with (@None DatabaseDefinition); [done|].
  symmetry. apply find_none_iff. intros d Hd.
  apply not_true_is_false. intros Hm.
  apply db_matches_true in Hm as (Hid & Hten & Hdel). simpl in *.
  specialize (Hnone d Hd (Hid _ eq_refl) (Hten _ eq_refl)).
  specialize (Hdel _ eq_refl). congruence.
Qed.

Lemma database_query_not_found_witness :
  Query_database 110 (mkContext (Some Example.alice)) Example.world =
    (Throw (Error "Database not found or you don't have permission to view it."),
     Example.world).
Proof.
  apply (database_query_not_found Example.world Example.alice 110).
  intros d Hd Hid _.
  repeat (apply elem_of_cons in Hd as [->|Hd]; [by vm_compute || by vm_compute in Hid|]).
  by apply elem_of_nil in Hd.
Defined.

(** ** Renaming a database *)

(** C8, as stated, fails: a soft-deleted database of the caller's tenant
    is renamed; [updateDatabase] does not answer that it was not found. *)
Lemma updateDatabase_soft_deleted_counterexample :
  db_isDeleted Example.archive = true /\
  Example.archive ∈ databases Example.world /\
  (Mutation_updateDatabase 110 "Restored" (Example.as_user Example.alice)
                           Example.world).1
  = Return (mkDatabase 110 Example.tenant1 "Restored" [] true 1).
Proof. split; [done|]. split; [|by vm_compute]. right; left. Qed.

(** C8, amended: for an Admin and a name that is not blank,
    [updateDatabase] throws the plain [Error] "Database not found or you
    don't have permission to modify it." when no database of the caller's
    tenant has the id, and changes nothing; a database of the caller's
    tenant with that id, live or soft-deleted, is renamed (its soft-delete
    flag untouched) when the new name is free and the audit entry can be
    written. *)
Theorem updateDatabase_not_found_or_renamed (w : World) (u : User)
    (id : ObjectId) (name : string) :
  u_role u = Admin -> blank name = false ->
  ((forall d, d ∈ databases w -> db_id d = id -> db_tenantId d <> u_tenantId u) ->
   Mutation_updateDatabase id name (mkContext (Some u)) w =
     (Throw (Error "Database not found or you don't have permission to modify it."), w))
  /\
  (forall d,
     List.find (db_matches (mkQuery (Some id) (Some (u_tenantId u)) None None))
               (databases w) = Some d ->
     name_taken (applyDatabaseUpdate (SetName name) d) (databases w) = false ->
     auditUp w = true ->
     let renamed := applyDatabaseUpdate (SetName name) d in
     exists w',
       Mutation_updateDatabase id name (mkContext (Some u)) w = (Return renamed, w') /\
       renamed ∈ databases w' /\
       db_name renamed = Js.trim name /\
       db_isDeleted renamed = db_isDeleted d).
Proof.
  intros Hadmin Hname.
  unfold Mutation_updateDatabase. cbn [user].
  rewrite (isAdmin_true u Hadmin), Hname. cbn [negb].
  split.
  - intros Hforeign. unfold_M. unfold DatabaseDefinition_findOneAndUpdate.
    replace (List.find _ (databases w)) with (@None DatabaseDefinition); [done|].
    symmetry. apply find_none_iff. intros d Hd.
    apply not_true_is_false. intros Hm.
    apply db_matches_true in Hm as (Hid & Hten & _). simpl in *.
    by apply (Hforeign d Hd (Hid _ eq_refl)), Hten.
  - intros d Hfind Hfree Hup. unfold_M.
    unfold DatabaseDefinition_findOneAndUpdate, ActivityLog_create.
    rewrite Hfind. cbn [touchesName andb]. rewrite Hfree. cbn [databases with_databases auditUp].
    rewrite Hup. eexists. split; [reflexivity|]. cbn [databases].
    split; [by apply update_first_elem|]. done.
Qed.

Lemma updateDatabase_not_found_or_renamed_witness :
  Mutation_updateDatabase 200 "Mine" (mkContext (Some Example.alice)) Example.world =
    (Throw (Error "Database not found or you don't have permission to modify it."),
     Example.world)
  /\
  exists w',
    Mutation_updateDatabase 110 "Restored" (mkContext (Some Example.alice)) Example.world
      = (Return (applyDatabaseUpdate (SetName "Restored") Example.archive), w').
Proof.
  split.
  - destruct (updateDatabase_not_found_or_renamed Example.world Example.alice 200
                "Mine" eq_refl eq_refl) as [H _].
    apply H. intros d Hd Hid.
    repeat (apply elem_of_cons in Hd as [->|Hd]; [by vm_compute || by vm_compute in Hid|]).
    by apply elem_of_nil in Hd.
  - destruct (updateDatabase_not_found_or_renamed Example.world Example.alice 110
                "Restored" eq_refl eq_refl) as [_ H].
    destruct (H Example.archive eq_refl eq_refl eq_refl) as (w' & Hrun & _).
    by exists w'.
Defined.

(** ** A failed audit write *)

Ltac world_fields :=
  cbn [with_auditUp with_records with_databases with_activityLogs
       records databases activityLogs auditUp now nextId] in *.

(** The common end of the nine cases: the successful run is known, the
    run with the log down is computed and compared. *)
Ltac audit_down Hup Hrun :=
  world_fields; rewrite Hup in Hrun; injection Hrun as <- <-;
  eexists; split; [reflexivity|]; by repeat split.

Lemma createDatabase_audit name ctx w :
  auditUp w = true ->
  audit_failure_surfaces (Mutation_createDatabase name ctx)
    (Error "An error occurred while creating the database.") w.
Proof.
  intros Hup r w' Hrun. unfold Mutation_createDatabase in *.
  destruct (user ctx) as [u|]; [|discriminate].
  destruct (negb (isAdmin u)); [discriminate|].
  destruct (blank name); [discriminate|].
  unfold_M. unfold new_DatabaseDefinition, DatabaseDefinition_save, ActivityLog_create in *.
  unfold_M. world_fields.
  destruct (validateDatabase _); [by destruct (decide _)|].
  destruct (isNew _ _ && name_taken _ _); [by destruct (decide _)|].
  audit_down Hup Hrun.
Qed.

Lemma updateDatabase_audit id name ctx w :
  auditUp w = true ->
  audit_failure_surfaces (Mutation_updateDatabase id name ctx) MongoNetworkError w.
Proof.
  intros Hup r w' Hrun. unfold Mutation_updateDatabase in *.
  destruct (user ctx) as [u|]; [|discriminate].
  destruct (negb (isAdmin u)); [discriminate|].
  destruct (blank name); [discriminate|].
  unfold_M. unfold DatabaseDefinition_findOneAndUpdate, ActivityLog_create in *.
  world_fields.
  destruct (List.find _ (databases w)); [|discriminate].
  destruct (touchesName _ && name_taken _ _); [by destruct (decide _)|].
  audit_down Hup Hrun.
Qed.

Lemma deleteDatabase_audit id ctx w :
  auditUp w = true ->
  audit_failure_surfaces (Mutation_deleteDatabase id ctx) MongoNetworkError w.
Proof.
  intros Hup r w' Hrun. unfold Mutation_deleteDatabase in *.
  destruct (user ctx) as [u|]; [|discriminate].
  destruct (negb (isAdmin u)); [discriminate|].
  unfold_M. unfold DatabaseDefinition_findOneAndUpdate, ActivityLog_create in *.
  world_fields.
  destruct (List.find _ (databases w)); [|discriminate].
  destruct (touchesName _ && name_taken _ _); [discriminate|].
  audit_down Hup Hrun.
Qed.

Lemma createField_audit databaseId field ctx w :
  auditUp w = true ->
  audit_failure_surfaces (Mutation_createField databaseId field ctx) MongoNetworkError w.
Proof.
  intros Hup r w' Hrun. unfold Mutation_createField in *.
  destruct (user ctx) as [u|]; [|discriminate].
  destruct (negb (isAdmin u)); [discriminate|].
  unfold_M. unfold DatabaseDefinition_findOne, DatabaseDefinition_save,
    ActivityLog_create in *.
  world_fields.
  destruct (List.find _ (databases w)); [|discriminate].
  destruct (fieldExists _ _); [discriminate|]. world_fields.
  destruct (validateDatabase _); [discriminate|].
  destruct (isNew _ _ && name_taken _ _); [discriminate|].
  audit_down Hup Hrun.
Qed.

Lemma updateField_audit databaseId fieldId field ctx w :
  auditUp w = true ->
  audit_failure_surfaces (Mutation_updateField databaseId fieldId field ctx)
    MongoNetworkError w.
Proof.
  intros Hup r w' Hrun. unfold Mutation_updateField in *.
  destruct (user ctx) as [u|]; [|discriminate].
  destruct (negb (isAdmin u)); [discriminate|].
  unfold_M. unfold DatabaseDefinition_findOne, DatabaseDefinition_save,
    ActivityLog_create in *.
  world_fields.
  destruct (List.find _ (databases w)); [|discriminate].
  destruct (fields_id _ _); [|discriminate].
  destruct (otherFieldExists _ _ _); [discriminate|]. world_fields.
  destruct (validateDatabase _); [discriminate|].
  destruct (isNew _ _ && name_taken _ _); [discriminate|].
  audit_down Hup Hrun.
Qed.

Lemma deleteField_audit databaseId fieldId ctx w :
  auditUp w = true ->
  audit_failure_surfaces (Mutation_deleteField databaseId fieldId ctx) MongoNetworkError w.
Proof.
  intros Hup r w' Hrun. unfold Mutation_deleteField in *.
  destruct (user ctx) as [u|]; [|discriminate].
  destruct (negb (isAdmin u)); [discriminate|].
  unfold_M. unfold DatabaseDefinition_findOne, DatabaseDefinition_save,
    ActivityLog_create in *.
  world_fields.
  destruct (List.find _ (databases w)); [|discriminate].
  destruct (fields_id _ _); [|discriminate]. world_fields.
  destruct (validateDatabase _); [discriminate|].
  destruct (isNew _ _ && name_taken _ _); [discriminate|].
  audit_down Hup Hrun.
Qed.

Lemma createRecord_audit databaseId values ctx w :
  auditUp w = true ->
  audit_failure_surfaces (Mutation_createRecord databaseId values ctx) MongoNetworkError w.
Proof.
  intros Hup r w' Hrun. unfold Mutation_createRecord in *.
  destruct (user ctx) as [u|]; [|discriminate].
  destruct (negb (canEditRecords u)); [discriminate|].
  unfold_M. unfold DatabaseDefinition_findOne, new_Record, Record_save,
    ActivityLog_create in *.
  unfold_M. world_fields.
  destruct (List.find _ (databases w)); [|discriminate].
  destruct (isNewRecord _ _ && negb _); [discriminate|].
  audit_down Hup Hrun.
Qed.

Lemma updateRecord_audit id values ctx w :
  auditUp w = true ->
  audit_failure_surfaces (Mutation_updateRecord id values ctx) MongoNetworkError w.
Proof.
  intros Hup r w' Hrun. unfold Mutation_updateRecord in *.
  destruct (user ctx) as [u|]; [|discriminate].
  destruct (negb (canEditRecords u)); [discriminate|].
  unfold_M. unfold Record_findOne, Record_save, ActivityLog_create in *.
  world_fields.
  destruct (List.find _ (records w)); [|discriminate].
  destruct (mergedValues _ _); [discriminate|]. world_fields.
  destruct (isNewRecord _ _ && negb _); [discriminate|].
  audit_down Hup Hrun.
Qed.

Lemma deleteRecord_audit id ctx w :
  auditUp w = true ->
  audit_failure_surfaces (Mutation_deleteRecord id ctx) MongoNetworkError w.
Proof.
  intros Hup r w' Hrun. unfold Mutation_deleteRecord in *.
  destruct (user ctx) as [u|]; [|discriminate].
  destruct (negb (canEditRecords u)); [discriminate|].
  unfold_M. unfold Record_findOneAndUpdate, ActivityLog_create in *.
  world_fields.
  destruct (List.find _ (records w)); [|discriminate].
  audit_down Hup Hrun.
Qed.

(** C7, as stated, fails: with the activity log refusing writes, an
    Admin's [updateRecord] and [createDatabase] write the record and the
    database and then throw to the caller instead of returning them. *)
Lemma audit_failure_counterexample :
  let ctx := Example.as_user Example.alice in
  let run1 := Mutation_updateRecord 150 [("Title", VStr "xyz")] ctx
                                    Example.world_audit_down in
  let run2 := Mutation_createDatabase "Plans" ctx Example.world_audit_down in
  run1.1 = Throw MongoNetworkError /\
  records run1.2 =
    [mkRecord 150 Example.tenant1 100 [("Title", VStr "xyz")] false 3 5; Example.lead1] /\
  run2.1 = Throw (Error "An error occurred while creating the database.") /\
  databases run2.2 =
    databases Example.world ++ [mkDatabase 1000 Example.tenant1 "Plans" [] false 5].
Proof. by vm_compute. Qed.

(** C7, amended: the audit entry is written after the primary write and
    awaited; when that write fails the primary write stays and the
    failure reaches the caller.  For each of the nine mutations: if the
    call succeeds on a store, the same call on that store with the
    activity log refusing writes leaves the databases and records as the
    successful call leaves them, appends nothing to the log, and throws -
    the driver's error, or from [createDatabase], whose [catch] rewrites
    it, the plain [Error] "An error occurred while creating the
    database.". *)
Theorem audit_failure_reaches_caller (w : World) (context : Context) :
  auditUp w = true ->
  (forall name,
     audit_failure_surfaces (Mutation_createDatabase name context)
       (Error "An error occurred while creating the database.") w) /\
  (forall id name,
     audit_failure_surfaces (Mutation_updateDatabase id name context) MongoNetworkError w) /\
  (forall id,
     audit_failure_surfaces (Mutation_deleteDatabase id context) MongoNetworkError w) /\
  (forall databaseId field,
     audit_failure_surfaces (Mutation_createField databaseId field context)
       MongoNetworkError w) /\
  (forall databaseId fieldId field,
     audit_failure_surfaces (Mutation_updateField databaseId fieldId field context)
       MongoNetworkError w) /\
  (forall databaseId fieldId,
     audit_failure_surfaces (Mutation_deleteField databaseId fieldId context)
       MongoNetworkError w) /\
  (forall databaseId values,
     audit_failure_surfaces (Mutation_createRecord databaseId values context)
       MongoNetworkError w) /\
  (forall id values,
     audit_failure_surfaces (Mutation_updateRecord id values context) MongoNetworkError w) /\
  (forall id,
     audit_failure_surfaces (Mutation_deleteRecord id context) MongoNetworkError w).
Proof.
  intros Hup.
  repeat split; intros;
    auto using createDatabase_audit, updateDatabase_audit, deleteDatabase_audit,
      createField_audit, updateField_audit, deleteField_audit,
      createRecord_audit, updateRecord_audit, deleteRecord_audit.
Qed.

Lemma audit_failure_reaches_caller_witness :
  exists w'',
    Mutation_deleteRecord 150 (Example.as_user Example.alice) Example.world_audit_down
      = (Throw MongoNetworkError, w'') /\
    records w'' = [setDeleted true 5 Example.task1; Example.lead1].
Proof.
  destruct (audit_failure_reaches_caller Example.world (Example.as_user Example.alice)
              eq_refl) as (_ & _ & _ & _ & _ & _ & _ & _ & H).
  destruct (H 150%N true
              (Mutation_deleteRecord 150 (Example.as_user Example.alice) Example.world).2
              eq_refl) as (w'' & Hrun & _ & Hrecords & _).
  exists w''. split; [exact Hrun | exact Hrecords].
Defined.

(** ** The role matrix *)



Lemma isAdmin_false (u : User) : u_role u <> Admin -> isAdmin u = false.
Proof. intros H. unfold isAdmin. by apply bool_decide_eq_false. Qed.

Section RoleMatrix.

Context {condition : Type}.
Variable cond_holds : condition -> option value -> bool.
Variable bson_leb : option value -> option value -> bool.



(** The stages are built without a throw and without a write. *)
Lemma records_stages_returns databaseId filter sort search u w :
  exists stages : list (@Stage condition),
    records_stages databaseId filter sort search u w = (Return stages, w).
Proof.
  unfold records_stages, DatabaseDefinition_findById, DatabaseDefinition_findOne.
  unfold_M. destruct search as [[|c s]|]; try (eexists; reflexivity).
  destruct (List.find _ (databases w)); [|eexists; reflexivity].
  destruct (0 <? _)%nat; eexists; reflexivity.
Qed.



End RoleMatrix.


(** ** Field names *)

Lemma existsb_true_iff {A} (p : A -> bool) (l : list A) :
  existsb p l = true <-> exists x, x ∈ l /\ p x = true.
Proof.
  rewrite existsb_exists. split; intros (x & Hx & Hp); exists x; split; auto;
    by apply list_elem_of_In.
Qed.

Lemma fieldExists_true (fields : list FieldDefinition) (field : FieldInput) :
  fieldExists fields field = true <->
  exists f, f ∈ fields /\ Js.toLowerCase (f_name f) = Js.toLowerCase (fi_name field).
Proof.
  unfold fieldExists. rewrite existsb_true_iff.
  by setoid_rewrite bool_decide_eq_true.
Qed.

Lemma otherFieldExists_true (fields : list FieldDefinition) (fieldId : IdArg)
    (field : FieldInput) :
  otherFieldExists fields fieldId field = true <->
  exists f, f ∈ fields /\
            Js.toLowerCase (f_name f) = Js.toLowerCase (fi_name field) /\
            (f_id f <> arg_id fieldId \/ arg_canonical fieldId = false).
Proof.
  unfold otherFieldExists. rewrite existsb_true_iff.
  setoid_rewrite andb_true_iff. setoid_rewrite negb_true_iff.
  setoid_rewrite andb_false_iff.
  setoid_rewrite bool_decide_eq_true. by setoid_rewrite bool_decide_eq_false.
Qed.

(** A document that was loaded from the collection is not new. *)
Lemma isNew_loaded (q : Query) (ds : list DatabaseDefinition)
    (d : DatabaseDefinition) (fs : list FieldDefinition) :
  List.find (db_matches q) ds = Some d -> isNew (with_fields fs d) ds = false.
Proof.
  intros H. apply find_some_elem in H as [Hd _].
  unfold isNew. apply negb_false_iff, existsb_true_iff.
  exists d. split; [done|]. by apply bool_decide_eq_true.
Qed.


(** The first match is rewritten where it stands. *)
Lemma update_first_in_place {A} (p : A -> bool) (f : A -> A) (l : list A) (x : A) :
  List.find p l = Some x ->
  exists pre post, l = pre ++ x :: post /\ update_first p f l = pre ++ f x :: post.
Proof.
  induction l as [|y l IH]; simpl; [done|].
  destruct (p y) eqn:Hy.
  - intros [= ->]. by exists [], l.
  - intros H. destruct (IH H) as (pre & post & -> & ->).
    by exists (y :: pre), post.
Qed.

(** X27: field names are unique up to case.  For an Admin and a database
    found in the caller's tenant: [createField] throws the [UserInputError]
    "A field named ... already exists in this database." and changes
    nothing whenever a field of the database has the new name up to the
    case of the letters A to Z (after "Email", "email" fails); when no
    field has it and the names at hand are ASCII, the field, once it
    passes the schema's validation, is appended with a fresh id.
    [updateField], for a field id of the database, throws the
    [UserInputError] "Another field named ... already exists in this
    database." and changes nothing whenever a field with another id has
    the new name up to case - and also, the ids being compared as
    strings, when the field itself has it and the id argument is not
    spelled as the store prints ids; otherwise, the names at hand being
    ASCII, the field is replaced where it stands, keeping its id.  The
    caller gets the database back when the audit entry can be written. *)
Theorem field_name_uniqueness (w : World) (u : User) (databaseId : ObjectId)
    (database : DatabaseDefinition) (field : FieldInput) :
  u_role u = Admin ->
  List.find (db_matches (mkQuery (Some databaseId) (Some (u_tenantId u)) None None))
            (databases w) = Some database ->
  let context := mkContext (Some u) in
  let same_name f := Js.toLowerCase (f_name f) = Js.toLowerCase (fi_name field) in
  let ascii_names :=
    Js.is_ascii (fi_name field) = true /\
    Forall (fun f => Js.is_ascii (f_name f) = true) (db_fields database) in
  let result d' := if auditUp w then Return d' else Throw MongoNetworkError in
  ((exists f, f ∈ db_fields database /\ same_name f) ->
   Mutation_createField databaseId field context w =
     (Throw (UserInputError ("A field named " +:+ Js.dquote +:+ fi_name field
                             +:+ Js.dquote +:+ " already exists in this database.")), w))
  /\
  ((forall f, f ∈ db_fields database -> ~ same_name f) -> ascii_names ->
   let database' :=
     with_fields (db_fields database ++ [castField (nextId w) field]) database in
   validateDatabase database' = None ->
   exists w',
     Mutation_createField databaseId field context w = (result database', w') /\
     databases w' = upsert db_id database' (databases w))
  /\
  (forall fieldId old,
     fields_id (db_fields database) (arg_id fieldId) = Some old ->
     ((exists f, f ∈ db_fields database /\ same_name f /\
                 (f_id f <> arg_id fieldId \/ arg_canonical fieldId = false)) ->
      Mutation_updateField databaseId fieldId field context w =
        (Throw (UserInputError ("Another field named " +:+ Js.dquote +:+ fi_name field
                                +:+ Js.dquote +:+ " already exists in this database.")), w))
     /\
     ((forall f, f ∈ db_fields database -> same_name f ->
                 f_id f = arg_id fieldId /\ arg_canonical fieldId = true) ->
      ascii_names ->
      exists pre post,
        db_fields database = pre ++ old :: post /\
        f_id (setField field old) = f_id old /\
        let database' := with_fields (pre ++ setField field old :: post) database in
        (validateDatabase database' = None ->
         exists w',
           Mutation_updateField databaseId fieldId field context w = (result database', w') /\
           databases w' = upsert db_id database' (databases w)))).
Proof.
  intros Hadmin Hfind context same_name ascii_names result.
  subst context same_name ascii_names result.
  cbn beta. split; [|split].
  - intros Hclash. apply fieldExists_true in Hclash.
    unfold Mutation_createField, DatabaseDefinition_findOne. cbn [user].
    rewrite (isAdmin_true u Hadmin). unfold_M. cbn [negb]. by rewrite Hfind, Hclash.
  - intros Hfree _ database' Hvalid.
    assert (fieldExists (db_fields database) field = false) as Hno.
    { apply not_true_is_false. intros H. apply fieldExists_true in H as (f & Hf & Hc).
      by apply (Hfree f). }
    unfold Mutation_createField, DatabaseDefinition_findOne, DatabaseDefinition_save,
      ActivityLog_create. cbn [user].
    rewrite (isAdmin_true u Hadmin). unfold_M. cbn [negb]. rewrite Hfind, Hno.
    world_fields. fold database'. rewrite Hvalid.
    unfold database'. rewrite (isNew_loaded _ _ _ _ Hfind). cbn [andb]. world_fields.
    destruct (auditUp w); eexists; split; reflexivity.
  - intros fieldId old Hold. split.
    + intros Hclash. apply otherFieldExists_true in Hclash.
      unfold Mutation_updateField, DatabaseDefinition_findOne. cbn [user].
      rewrite (isAdmin_true u Hadmin). unfold_M. cbn [negb].
      by rewrite Hfind, Hold, Hclash.
    + intros Hfree _.
      assert (otherFieldExists (db_fields database) fieldId field = false) as Hno.
      { apply not_true_is_false. intros H.
        apply otherFieldExists_true in H as (f & Hf & Hc & Hne).
        destruct (Hfree f Hf Hc) as [Hid Hcan]. destruct Hne; congruence. }
      destruct (update_first_in_place (fun f => bool_decide (f_id f = arg_id fieldId))
                  (setField field) _ _ Hold) as (pre & post & Hsplit & Hupd).
      exists pre, post. split; [done|]. split; [done|].
      intros database' Hvalid.
      unfold Mutation_updateField, DatabaseDefinition_findOne, DatabaseDefinition_save,
        ActivityLog_create. cbn [user].
      rewrite (isAdmin_true u Hadmin). unfold_M. cbn [negb].
      rewrite Hfind, Hold, Hno. rewrite Hupd. fold database'. rewrite Hvalid.
      unfold database'. rewrite (isNew_loaded _ _ _ _ Hfind). cbn [andb]. world_fields.
      destruct (auditUp w); eexists; split; reflexivity.
Qed.

(** On the example store: "Email" is added to [tasks], then "email" is
    refused; renaming "Done" to "TITLE" is refused; renaming "Title" to
    "title" goes through under the id as printed, and is refused under
    another spelling of the same id. *)
Lemma field_name_uniqueness_witness :
  let context := mkContext (Some Example.alice) in
  let Email := mkFieldInput "Email" "text" None None in
  let w1 := (Mutation_createField 100 Email context Example.world).2 in
  (exists w',
     Mutation_createField 100 Email context Example.world =
       (Return (with_fields (db_fields Example.tasks ++ [castField 1000 Email])
                            Example.tasks), w')) /\
  Mutation_createField 100 (mkFieldInput "email" "text" None None) context w1 =
    (Throw (UserInputError ("A field named " +:+ Js.dquote +:+ "email" +:+ Js.dquote
                            +:+ " already exists in this database.")), w1) /\
  Mutation_updateField 100 (canonical 102) (mkFieldInput "TITLE" "text" None None) context
                       Example.world =
    (Throw (UserInputError ("Another field named " +:+ Js.dquote +:+ "TITLE" +:+ Js.dquote
                            +:+ " already exists in this database.")), Example.world) /\
  (exists w',
     Mutation_updateField 100 (canonical 101) (mkFieldInput "title" "text" None None)
                          context Example.world =
       (Return (with_fields [mkField 101 "title" "text" [] None;
                             mkField 102 "Done" "boolean" [] None] Example.tasks), w')) /\
  Mutation_updateField 100 (mkIdArg 101 false) (mkFieldInput "title" "text" None None)
                       context Example.world =
    (Throw (UserInputError ("Another field named " +:+ Js.dquote +:+ "title" +:+ Js.dquote
                            +:+ " already exists in this database.")), Example.world).
Proof.
  assert (forall name,
            Js.is_ascii name = true ->
            Js.is_ascii name = true /\
            Forall (fun f => Js.is_ascii (f_name f) = true) (db_fields Example.tasks))
    as Hascii.
  { intros name Hname. split; [exact Hname|]. by repeat constructor. }
  intros context Email w1. split; [|split; [|split; [|split]]].
  - destruct (field_name_uniqueness Example.world Example.alice 100 Example.tasks
                Email eq_refl eq_refl) as (_ & H & _).
    destruct (H ltac:(intros f Hf;
                      repeat (apply elem_of_cons in Hf as [->|Hf]; [by vm_compute|]);
                      by apply elem_of_nil in Hf)
                (Hascii "Email" eq_refl) eq_refl) as (w' & Hrun & _).
    by exists w'.
  - destruct (field_name_uniqueness w1 Example.alice 100
                (with_fields (db_fields Example.tasks ++ [castField 1000 Email])
                             Example.tasks)
                (mkFieldInput "email" "text" None None) eq_refl eq_refl) as [H _].
    apply H. exists (castField 1000 Email).
    split; [|reflexivity]. right; right; left.
  - destruct (field_name_uniqueness Example.world Example.alice 100 Example.tasks
                (mkFieldInput "TITLE" "text" None None) eq_refl eq_refl) as (_ & _ & H).
    destruct (H (canonical 102) (mkField 102 "Done" "boolean" [] None) eq_refl)
      as [Hclash _].
    apply Hclash. exists (mkField 101 "Title" "text" [] None).
    split; [left|]. split; [done | by left].
  - destruct (field_name_uniqueness Example.world Example.alice 100 Example.tasks
                (mkFieldInput "title" "text" None None) eq_refl eq_refl) as (_ & _ & H).
    destruct (H (canonical 101) (mkField 101 "Title" "text" [] None) eq_refl)
      as [_ Hfree].
    destruct Hfree as (pre & post & Hsplit & _ & Hrun).
    { intros f Hf Hsame.
      repeat (apply elem_of_cons in Hf as [->|Hf]; [by vm_compute || by vm_compute in Hsame|]).
      by apply elem_of_nil in Hf. }
    { exact (Hascii "title" eq_refl). }
    destruct pre as [|x pre].
    + injection Hsplit as <-. cbn [app] in Hrun.
      destruct (Hrun eq_refl) as (w' & Hw' & _). by exists w'.
    + exfalso. injection Hsplit as <- Hrest.
      destruct pre as [|y pre]; [by injection Hrest|].
      injection Hrest as _ Hrest. by destruct pre.
  - destruct (field_name_uniqueness Example.world Example.alice 100 Example.tasks
                (mkFieldInput "title" "text" None None) eq_refl eq_refl) as (_ & _ & H).
    destruct (H (mkIdArg 101 false) (mkField 101 "Title" "text" [] None) eq_refl)
      as [Hclash _].
    apply Hclash. exists (mkField 101 "Title" "text" [] None).
    split; [left|]. split; [done | by right].
Defined.

(** C5, where the code misses it.  [updateField] means to refuse a name
    that another field has, and tells the field itself from the others
    by comparing its printed id with the [fieldId] argument as strings.
    Under a spelling of the id other than the printed one (its
    hexadecimal digits in upper case) the field is found, and then
    counts as another field that has its name: to give the field "Title"
    of [tasks] another type, its name kept, is refused as a conflict
    although no field with a different id is named "Title", and nothing
    is replaced; under the printed id the same call goes through. *)
Theorem updateField_own_name_conflicts :
  let context := mkContext (Some Example.alice) in
  let retyped := mkFieldInput "Title" "number" None None in
  fields_id (db_fields Example.tasks) 101 = Some (mkField 101 "Title" "text" [] None) /\
  (forall f, f ∈ db_fields Example.tasks ->
             Js.toLowerCase (f_name f) = Js.toLowerCase "Title" -> f_id f = 101%N) /\
  Mutation_updateField 100 (mkIdArg 101 false) retyped context Example.world =
    (Throw (UserInputError ("Another field named " +:+ Js.dquote +:+ "Title" +:+ Js.dquote
                            +:+ " already exists in this database.")), Example.world) /\
  exists w',
    Mutation_updateField 100 (canonical 101) retyped context Example.world =
      (Return (with_fields [mkField 101 "Title" "number" [] None;
                            mkField 102 "Done" "boolean" [] None] Example.tasks), w').
Proof.
  intros context retyped. split; [reflexivity|]. split; [|split].
  - intros f Hf Hname.
    repeat (apply elem_of_cons in Hf as [->|Hf]; [done || by vm_compute in Hname|]).
    by apply elem_of_nil in Hf.
  - by vm_compute.
  - eexists. by vm_compute.
Qed.

(** ** The values of a record *)






(** ** The order of an object's keys *)

Lemma get_app {A} (k : string) (o1 o2 : entries A) :
  get k (o1 ++ o2) = match get k o1 with Some v => Some v | None => get k o2 end.
Proof.
  induction o1 as [|[k' v] o1 IH]; [done|]. cbn. by destruct (decide (k' = k)).
Qed.

Lemma get_filter {A} (p : string * A -> bool) (k : string) (o : entries A) :
  (forall v, p (k, v) = true) -> get k (List.filter p o) = get k o.
Proof.
  intros Hp. induction o as [|[k' v] o IH]; [done|]. cbn.
  destruct (decide (k' = k)) as [->|Hne].
  - rewrite Hp. cbn. by rewrite decide_True.
  - destruct (p (k', v)); [|done]. cbn. by rewrite decide_False.
Qed.

Lemma get_filter_out {A} (p : string * A -> bool) (k : string) (o : entries A) :
  (forall v, p (k, v) = false) -> get k (List.filter p o) = None.
Proof.
  intros Hp. induction o as [|[k' v] o IH]; [done|]. cbn.
  destruct (p (k', v)) eqn:Hkv; [|done]. cbn.
  rewrite decide_False; [done|]. intros ->. by rewrite Hp in Hkv.
Qed.

Lemma get_insert_by {A} (le : string * A -> string * A -> bool) (e : string * A)
    (o : entries A) (k : string) :
  (forall y, y ∈ o -> y.1 = e.1 -> le e y = true) ->
  get k (insert_by le e o) = get k (e :: o).
Proof.
  intros Hle. induction o as [|[k' v'] o IH]; [done|]. cbn [insert_by].
  destruct (le e (k', v')) eqn:Hey; [done|].
  destruct e as [ke ve]. cbn [get] in IH |- *.
  destruct (decide (k' = k)) as [->|Hne].
  - destruct (decide (ke = k)) as [->|]; [|done].
    rewrite Hle in Hey; [done | left | done].
  - apply IH. intros y Hy. apply Hle. by right.
Qed.

Lemma get_sort_by {A} (le : string * A -> string * A -> bool) (o : entries A)
    (k : string) :
  (forall x y, x.1 = y.1 -> le x y = true) ->
  get k (sort_by le o) = get k o.
Proof.
  intros Hle. induction o as [|e o IH]; [done|]. cbn [sort_by foldr].
  fold (sort_by le o). rewrite get_insert_by by (intros; by apply Hle).
  destruct e as [ke ve]. cbn. by rewrite IH.
Qed.

(** Reading a key does not depend on the order the keys are listed in. *)
Lemma get_object_order {A} (k : string) (o : entries A) :
  get k (object_order o) = get k o.
Proof.
  unfold object_order. rewrite get_app, get_sort_by.
  - destruct (array_index k) as [i|] eqn:Hk.
    + rewrite get_filter by (intros v; cbn; rewrite Hk; by apply bool_decide_eq_true).
      rewrite get_filter_out; [by destruct (get k o)|].
      intros v. cbn. rewrite Hk. apply negb_false_iff. by apply bool_decide_eq_true.
    + rewrite get_filter_out.
      * apply get_filter. intros v. cbn. rewrite Hk. apply negb_true_iff.
        apply bool_decide_eq_false. by intros [? ?].
      * intros v. cbn. rewrite Hk. apply bool_decide_eq_false. by intros [? ?].
  - intros x y Hxy. rewrite Hxy. apply N.leb_refl.
Qed.

(** Without an array index among the keys the order is the insertion order. *)
Lemma object_order_plain {A} (o : entries A) :
  Forall (fun k => array_index k = None) (keys o) -> object_order o = o.
Proof.
  unfold object_order, keys. intros H.
  assert (List.filter (fun e : string * A => bool_decide (is_Some (array_index e.1))) o = []
          /\ List.filter (fun e : string * A =>
                            negb (bool_decide (is_Some (array_index e.1)))) o = o)
    as [-> ->]; [|done].
  induction o as [|[k v] o IH]; [done|]. rewrite fmap_cons in H.
  inversion H as [|? ? Hk Ho]; subst. cbn in Hk |- *. rewrite Hk.
  rewrite bool_decide_eq_false_2 by (by intros [? ?]). cbn.
  destruct (IH Ho) as [-> ->]. done.
Qed.

(** The keys are the same, listed in another order. *)
Lemma keys_object_order {A} (o : entries A) : keys (object_order o) ≡ₚ keys o.
Proof.
  unfold object_order, keys. rewrite fmap_app.
  assert (forall le (l : entries A), sort_by le l ≡ₚ l) as Hsort.
  { intros le l. induction l as [|e l IH]; [done|]. cbn [sort_by foldr]. fold (sort_by le l).
    rewrite <- IH at 2. generalize (sort_by le l). clear. intros l.
    induction l as [|y l IH]; [done|]. cbn. destruct (le e y); [done|].
    rewrite IH. apply Permutation_swap. }
  rewrite Hsort. rewrite <- fmap_app. apply fmap_Permutation.
  induction o as [|e o IH]; [done|]. cbn.
  destruct (bool_decide (is_Some (array_index e.1))); cbn.
  - by rewrite IH.
  - rewrite <- Permutation_middle. by rewrite IH.
Qed.




(** ** The pipeline *)

Lemma Forall_insert_by {A} (P : A -> Prop) (le : A -> A -> bool) (x : A) (l : list A) :
  P x -> Forall P l -> Forall P (insert_by le x l).
Proof.
  intros Hx Hl. induction Hl as [|y l Hy Hl IH]; simpl.
  - by constructor.
  - destruct (le x y); repeat constructor; auto.
Qed.

Lemma Forall_sort_by {A} (P : A -> Prop) (le : A -> A -> bool) (l : list A) :
  Forall P l -> Forall P (sort_by le l).
Proof.
  unfold sort_by. induction 1 as [|y l Hy Hl IH]; simpl; [constructor|].
  by apply Forall_insert_by.
Qed.

Lemma Forall_List_filter {A} (P : A -> Prop) (p : A -> bool) (l : list A) :
  Forall P l -> Forall P (List.filter p l).
Proof.
  induction 1 as [|y l Hy Hl IH]; simpl; [constructor|].
  destruct (p y); [by constructor | done].
Qed.

Lemma Forall_List_filter_true {A} (p : A -> bool) (l : list A) :
  Forall (fun x => p x = true) (List.filter p l).
Proof.
  induction l as [|y l IH]; simpl; [constructor|].
  destruct (p y) eqn:Hy; [by constructor | done].
Qed.

Lemma Forall_List_filter_implies {A} (P : A -> Prop) (p : A -> bool) (l : list A) :
  (forall x, p x = true -> P x) -> Forall P (List.filter p l).
Proof.
  intros H. induction l as [|y l IH]; simpl; [constructor|].
  destruct (p y) eqn:Hy; [constructor; auto | done].
Qed.

Section PipelineFacts.

Context {condition : Type}.
Variable cond_holds : condition -> option value -> bool.
Variable bson_leb : option value -> option value -> bool.

Local Abbreviation runStage := (runStage cond_holds bson_leb).
Local Abbreviation runPipeline := (runPipeline cond_holds bson_leb).

Lemma runPipeline_app (p q : list (@Stage condition)) (docs : list RecordDoc) :
  runPipeline (p ++ q) docs =
    match runPipeline p docs with
    | Return docs' => runPipeline q docs'
    | Throw e => Throw e
    end.
Proof.
  revert docs. induction p as [|st p IH]; intros docs; simpl; [done|].
  destruct (runStage st docs); [apply IH | done].
Qed.

(** No stage adds a document. *)
Lemma runStage_Forall (P : RecordDoc -> Prop) (st : @Stage condition) docs docs' :
  runStage st docs = Return docs' -> Forall P docs -> Forall P docs'.
Proof.
  intros Hrun HP. destruct st as [q|alts|fq|f o|n|n]; simpl in Hrun.
  - injection Hrun as <-. by apply Forall_List_filter.
  - destruct alts as [|a alts]; [done|].
    destruct (compileAlternatives (a :: alts)); [done|].
    injection Hrun as <-. by apply Forall_List_filter.
  - injection Hrun as <-. by apply Forall_List_filter.
  - injection Hrun as <-. by apply Forall_sort_by.
  - injection Hrun as <-. by apply Forall_drop.
  - injection Hrun as <-. by apply Forall_take.
Qed.

Lemma runPipeline_Forall (P : RecordDoc -> Prop) (p : list (@Stage condition))
    docs docs' :
  runPipeline p docs = Return docs' -> Forall P docs -> Forall P docs'.
Proof.
  revert docs. induction p as [|st p IH]; intros docs; simpl.
  - by intros [= <-].
  - destruct (runStage st docs) as [docs1|] eqn:Hst; [|done].
    intros Hrun HP. eapply IH; [done|]. by eapply runStage_Forall.
Qed.

(** The first stage of a pipeline bounds what the pipeline returns. *)
Lemma runPipeline_first_match (q : Query) (p : list (@Stage condition)) docs docs' :
  runPipeline (MatchQuery q :: p) docs = Return docs' ->
  Forall (fun r => record_matches q r = true) docs'.
Proof.
  simpl. intros Hrun. eapply runPipeline_Forall; [done|].
  apply Forall_List_filter_true.
Qed.

(** The stages [records] builds start with the match on the caller's
    tenant, the database and the soft-delete flag. *)
Lemma records_stages_head databaseId filter sort search u w :
  exists rest : list (@Stage condition),
    records_stages databaseId filter sort search u w =
      (Return (MatchQuery (mkQuery None (Some (u_tenantId u)) (Some databaseId)
                                   (Some false)) :: rest), w).
Proof.
  unfold records_stages, DatabaseDefinition_findById, DatabaseDefinition_findOne.
  unfold_M. destruct filter, sort, search as [[|c term]|];
    try (eexists; reflexivity);
    (destruct (List.find _ (databases w)); [destruct (0 <? _)%nat|];
     eexists; reflexivity).
Qed.

(** [Query.records] is the stages before pagination, then the two
    pagination stages, then the formatting. *)
Lemma records_paginates databaseId filter sort page limit search u w :
  Query_records cond_holds bson_leb databaseId filter sort page limit search
                (mkContext (Some u)) w =
    (match (records_before_pagination cond_holds bson_leb databaseId filter sort
                                      search u w).1 with
     | Return docs =>
         Return (format <$> take (Z.to_nat (limitNum 20 limit))
                              (drop (Z.to_nat (skipNum 20 page limit))
                                    docs))
     | Throw e => Throw e
     end, w).
Proof.
  unfold Query_records, records_pipeline, records_before_pagination, Record_aggregate.
  cbn [user].
  destruct (records_stages_returns databaseId filter sort search u w) as [stages Hst].
  unfold_M. rewrite Hst. cbn [fst]. rewrite runPipeline_app.
  destruct (runPipeline stages (records w)); done.
Qed.

(** Whatever [Query.records] returns belongs to the caller's tenant and
    to the database asked for, and is not soft-deleted; the store is
    not written. *)
Lemma records_own_tenant databaseId filter sort page limit search u w rs w' :
  Query_records cond_holds bson_leb databaseId filter sort page limit search
                (mkContext (Some u)) w = (Return rs, w') ->
  w' = w /\
  Forall (fun r => fr_tenantId r = u_tenantId u /\ fr_databaseId r = databaseId
                   /\ fr_isDeleted r = false) rs.
Proof.
  rewrite records_paginates. unfold records_before_pagination, Record_aggregate.
  destruct (records_stages_head databaseId filter sort search u w) as [rest Hst].
  unfold_M. rewrite Hst. cbn [fst].
  destruct (runPipeline _ (records w)) as [docs|] eqn:Hrun; [|done].
  intros [= <- <-]. split; [done|].
  apply runPipeline_first_match in Hrun.
  apply Forall_fmap. apply Forall_take, Forall_drop.
  induction Hrun as [|r docs' Hm _ IH]; constructor; [|exact IH].
  apply record_matches_true in Hm as (_ & Hten & Hdb & Hdel).
  unfold compose. cbn in *. auto.
Qed.

End PipelineFacts.

(** ** Pagination *)

Section Pagination.

Context {condition : Type}.
Variable cond_holds : condition -> option value -> bool.
Variable bson_leb : option value -> option value -> bool.

Lemma pageNum_default (page : option Z) :
  pageNum page = match page with
                 | Some p => if decide (0 < p) then p else 1
                 | None => 1
                 end.
Proof.
  destruct page as [p|]; [|done]. unfold pageNum.
  destruct (decide (0 < p)); [by rewrite (proj2 (Z.ltb_lt 0 p)) |].
  by rewrite (proj2 (Z.ltb_ge 0 p)) by lia.
Qed.

Lemma limitNum_default (dflt : Z) (limit : option Z) :
  limitNum dflt limit = match limit with
                        | Some l => if decide (0 < l) then l else dflt
                        | None => dflt
                        end.
Proof.
  destruct limit as [l|]; [|done]. unfold limitNum.
  destruct (decide (0 < l)); [by rewrite (proj2 (Z.ltb_lt 0 l)) |].
  by rewrite (proj2 (Z.ltb_ge 0 l)) by lia.
Qed.

(** Up to 2^53 the product of the skip is exact. *)
Lemma skipNum_exact (dflt : Z) (page limit : option Z) :
  Z.abs ((pageNum page - 1) * limitNum dflt limit) <= 2 ^ 53 ->
  skipNum dflt page limit = (pageNum page - 1) * limitNum dflt limit.
Proof.
  intros H. unfold skipNum, Js.times, Js.round_double. cbn zeta.
  by rewrite (proj2 (Z.leb_le _ _) H).
Qed.

(** Rounding to a double keeps a number above 2^53 at or above it, and
    a negative number not positive. *)
Lemma round_double_big (n : Z) : 2 ^ 53 < n -> 2 ^ 53 <= Js.round_double n.
Proof.
  intros Hn. unfold Js.round_double. cbn zeta.
  rewrite (Z.abs_eq n) by lia. rewrite (proj2 (Z.leb_gt _ _) Hn).
  rewrite Z.sgn_pos by lia. rewrite Z.mul_1_l.
  pose proof (Z.log2_le_mono (2 ^ 53) n ltac:(lia)) as Hlog.
  rewrite Z.log2_pow2 in Hlog by lia.
  set (k := Z.log2 n - 52).
  assert (1 <= k) as Hk by (unfold k; lia).
  assert (0 < 2 ^ k) as Hpos by (apply Z.pow_pos_nonneg; lia).
  assert (2 ^ 52 <= n / 2 ^ k) as Hq.
  { apply Z.div_le_lower_bound; [done|].
    rewrite Z.mul_comm, <- Z.pow_add_r by lia.
    replace (52 + k) with (Z.log2 n) by (unfold k; lia).
    apply Z.log2_spec. lia. }
  apply Z.le_trans with (n / 2 ^ k * 2 ^ k).
  - apply Z.le_trans with (2 ^ 52 * 2 ^ k).
    + rewrite <- Z.pow_add_r by lia. apply Z.pow_le_mono_r; lia.
    + apply Z.mul_le_mono_nonneg_r; lia.
  - apply Z.mul_le_mono_nonneg_r; [lia|]. destruct (_ || _); lia.
Qed.

Lemma round_double_negative (n : Z) : n <= 0 -> Js.round_double n <= 0.
Proof.
  intros Hn. unfold Js.round_double. cbn zeta. destruct (Z.abs n <=? 2 ^ 53); [done|].
  assert (Z.sgn n <= 0) as Hs by (destruct n; cbn in *; lia).
  set (k := Z.log2 (Z.abs n) - 52).
  assert (0 <= Z.abs n / 2 ^ k) as Hq.
  { destruct (Z.le_gt_cases 0 k).
    - apply Z.div_pos; [lia | apply Z.pow_pos_nonneg; lia].
    - rewrite Z.pow_neg_r by lia. by rewrite Z.div_0_r. }
  assert (0 <= 2 ^ k) as Hp by (apply Z.pow_nonneg; lia).
  destruct (_ || _); nia.
Qed.

(** On a list of at most 2^53 items, skipping the rounded product is
    skipping the exact one. *)
Lemma skipNum_observed {A} (dflt : Z) (page limit : option Z) (docs : list A) :
  Z.of_nat (length docs) <= 2 ^ 53 ->
  drop (Z.to_nat (skipNum dflt page limit)) docs
  = drop (Z.to_nat ((pageNum page - 1) * limitNum dflt limit)) docs.
Proof.
  intros Hlen. set (n := (pageNum page - 1) * limitNum dflt limit).
  destruct (Z.le_gt_cases (Z.abs n) (2 ^ 53)) as [Hsmall|Hbig].
  { by rewrite skipNum_exact. }
  unfold skipNum, Js.times. fold n.
  destruct (Z.le_gt_cases n 0) as [Hneg|Hpos].
  - pose proof (round_double_negative n Hneg).
    replace (Z.to_nat (Js.round_double n)) with 0%nat by lia.
    by replace (Z.to_nat n) with 0%nat by lia.
  - pose proof (round_double_big n ltac:(lia)).
    rewrite !drop_ge; [done | lia | lia].
Qed.

(** At the largest page and limit a 32-bit [Int] holds, the skip is the
    product rounded to a double. *)
Lemma skipNum_rounds :
  (pageNum (Some 2147483647) - 1) * limitNum 20 (Some 2147483647) = 4611686011984936962 /\
  skipNum 20 (Some 2147483647) (Some 2147483647) = 4611686011984936960.
Proof. by vm_compute. Qed.

(** The sort stage, when there is one, is the last stage before the
    pagination stages. *)
Lemma records_stages_sort_last databaseId filter (sort : SortInput) search u w :
  exists pre : list (@Stage condition),
    records_stages databaseId filter (Some sort) search u w =
      (Return (pre ++ [SortStage (s_field sort)
                         (if decide (Js.toLowerCase (s_order sort) = "desc")
                          then -1 else 1)]), w).
Proof.
  unfold records_stages, DatabaseDefinition_findById, DatabaseDefinition_findOne.
  unfold_M. destruct filter, search as [[|c term]|];
    try (eexists; reflexivity);
    (destruct (List.find _ (databases w)); [destruct (0 <? _)%nat|];
     eexists; reflexivity).
Qed.

(** C3: pagination.  [page] counts as 1 when it is unset or not
    positive; [limit] counts as 20 for records and as 25 for activity
    logs when it is unset or not positive.  [Query.records] runs the
    stages before pagination (the sort stage last among them), skips
    (page - 1) x limit of what they yield and takes limit of the rest;
    [Query.activityLogs] does the same on the caller's entries sorted
    most recent first.  The number handed to the skip stage is the
    product as a double computes it: the product itself up to 2^53,
    rounded to the nearest double above, which skips the same items of
    any list of at most 2^53.  When the stages before pagination yield 25
    records and limit is 10, page 1 is records 1 to 10, page 3 is
    records 21 to 25 and page 4 is the empty list, not an error. *)
Theorem pagination_semantics (w : World) (u : User) :
  let context := mkContext (Some u) in
  (forall page,
     pageNum page = match page with
                    | Some p => if decide (0 < p) then p else 1
                    | None => 1
                    end) /\
  (forall dflt limit,
     limitNum dflt limit = match limit with
                           | Some l => if decide (0 < l) then l else dflt
                           | None => dflt
                           end) /\
  (forall dflt page limit,
     skipNum dflt page limit = Js.round_double ((pageNum page - 1) * limitNum dflt limit) /\
     (Z.abs ((pageNum page - 1) * limitNum dflt limit) <= 2 ^ 53 ->
      skipNum dflt page limit = (pageNum page - 1) * limitNum dflt limit)) /\
  (forall databaseId filter sort page limit search,
     (exists stages : list (@Stage condition),
        records_stages databaseId filter sort search u w = (Return stages, w) /\
        records_pipeline databaseId filter sort page limit search u w =
          (Return (stages ++ [SkipStage (skipNum 20 page limit);
                              LimitStage (limitNum 20 limit)]), w) /\
        forall s, sort = Some s ->
          exists pre,
            stages = pre ++ [SortStage (s_field s)
                               (if decide (Js.toLowerCase (s_order s) = "desc")
                                then -1 else 1)]) /\
     Query_records cond_holds bson_leb databaseId filter sort page limit search
                   context w =
       (match (records_before_pagination cond_holds bson_leb databaseId filter sort
                                         search u w).1 with
        | Return docs =>
            Return (format <$>
                      take (Z.to_nat (limitNum 20 limit))
                        (drop (Z.to_nat (skipNum 20 page limit)) docs))
        | Throw e => Throw e
        end, w)) /\
  (forall limit page,
     Query_activityLogs limit page context w =
       (Return (take (Z.to_nat (limitNum 25 limit))
                  (drop (Z.to_nat (skipNum 25 page limit))
                     (sort_by (fun a b => l_createdAt b <=? l_createdAt a)
                        (List.filter (fun l => bool_decide (l_tenantId l = u_tenantId u))
                                     (activityLogs w))))), w)) /\
  (forall databaseId filter sort page limit search docs,
     (records_before_pagination cond_holds bson_leb databaseId filter sort
                                search u w).1 = Return docs ->
     Z.of_nat (length docs) <= 2 ^ 53 ->
     Query_records cond_holds bson_leb databaseId filter sort page limit search
                   context w =
       (Return (format <$>
                  take (Z.to_nat (limitNum 20 limit))
                    (drop (Z.to_nat ((pageNum page - 1) * limitNum 20 limit)) docs)),
        w)) /\
  (forall limit page,
     let sorted :=
       sort_by (fun a b => l_createdAt b <=? l_createdAt a)
               (List.filter (fun l => bool_decide (l_tenantId l = u_tenantId u))
                            (activityLogs w)) in
     Z.of_nat (length sorted) <= 2 ^ 53 ->
     Query_activityLogs limit page context w =
       (Return (take (Z.to_nat (limitNum 25 limit))
                  (drop (Z.to_nat ((pageNum page - 1) * limitNum 25 limit)) sorted)),
        w)) /\
  (forall databaseId filter sort search docs,
     (records_before_pagination cond_holds bson_leb databaseId filter sort
                                search u w).1 = Return docs ->
     length docs = 25%nat ->
     let page n :=
       (Query_records cond_holds bson_leb databaseId filter sort (Some n) (Some 10)
                      search context w).1 in
     page 1 = Return (format <$> take 10 docs) /\
     page 3 = Return (format <$> drop 20 docs) /\
     length (drop 20 docs) = 5%nat /\
     page 4 = Return []).
Proof.
  intros context. subst context.
  split; [exact pageNum_default|]. split; [exact limitNum_default|].
  split; [intros dflt page limit; split; [done | apply skipNum_exact]|].
  refine (conj _ (conj _ (conj _ (conj _ _)))).
  - intros databaseId filter sort page limit search. split.
    + destruct (records_stages_returns databaseId filter sort search u w)
        as [stages Hst].
      exists stages. split; [done|]. split.
      * unfold records_pipeline. unfold_M. by rewrite Hst.
      * intros s ->.
        destruct (records_stages_sort_last databaseId filter s search u w)
          as [pre Hpre].
        exists pre. congruence.
    + apply records_paginates.
  - intros limit page. reflexivity.
  - intros databaseId filter sort page limit search docs Hdocs Hlen.
    rewrite records_paginates, Hdocs. by rewrite skipNum_observed.
  - intros limit page sorted Hlen. rewrite <- (skipNum_observed 25 page limit) by done.
    reflexivity.
  - intros databaseId filter sort search docs Hdocs Hlen page. subst page. cbn beta.
    rewrite !records_paginates, Hdocs. cbn [fst].
    change (limitNum 20 (Some 10)) with 10.
    change (skipNum 20 (Some 1) (Some 10)) with 0.
    change (skipNum 20 (Some 3) (Some 10)) with 20.
    change (skipNum 20 (Some 4) (Some 10)) with 30.
    change (Z.to_nat 10) with 10%nat. change (Z.to_nat 0) with 0%nat.
    change (Z.to_nat 20) with 20%nat. change (Z.to_nat 30) with 30%nat.
    split; [done|]. split; [|split].
    + f_equal. f_equal. apply take_ge. rewrite length_drop. lia.
    + rewrite length_drop. lia.
    + rewrite drop_ge by lia. done.
Qed.

End Pagination.

(** On the store with records 1 to 25 of one database. *)
Lemma pagination_semantics_witness :
  let page n :=
    (Query_records Example.literal_holds Example.any_order 100 None None (Some n) (Some 10)
                   None (mkContext (Some Example.alice)) Example.world25).1 in
  page 1 = Return (format <$> (Example.numbered <$> seq 1 10)) /\
  page 3 = Return (format <$> (Example.numbered <$> seq 21 5)) /\
  page 4 = Return [].
Proof.
  intros page.
  destruct (pagination_semantics Example.literal_holds Example.any_order Example.world25
              Example.alice) as (_ & _ & _ & _ & _ & _ & _ & H).
  destruct (H 100%N None None None (Example.numbered <$> seq 1 25))
    as (H1 & H3 & _ & H4); [by vm_compute | by vm_compute |].
  split; [exact H1|]. split; [exact H3 | exact H4].
Defined.

(** ** Keyword search *)




Section KeywordSearch.

Context {condition : Type}.
Variable cond_holds : condition -> option value -> bool.
Variable bson_leb : option value -> option value -> bool.




(** The search stage [Query.records] pushes: one alternative per text
    field of the database found by id, and no stage when the term is
    empty, no database has the id, or the database has no text field. *)
Lemma records_stages_search databaseId (search : option string) u w :
  records_stages (condition := condition) databaseId None None search u w =
    (Return
       (MatchQuery (mkQuery None (Some (u_tenantId u)) (Some databaseId) (Some false))
        :: match search with
           | Some (String _ _ as term) =>
               match List.find (db_matches (mkQuery (Some databaseId) None None None))
                               (databases w) with
               | Some dbDefinition =>
                   let textFields :=
                     f_name <$> List.filter (fun field => bool_decide (f_type field = "text"))
                                            (db_fields dbDefinition) in
                   match textFields with
                   | [] => []
                   | _ => [MatchOr ((fun fieldName => (fieldName, mkRegex term "i"))
                                      <$> textFields)]
                   end
               | None => []
               end
           | _ => []
           end), w).
Proof.
  unfold records_stages, DatabaseDefinition_findById, DatabaseDefinition_findOne.
  unfold_M. destruct search as [[|c term]|]; try reflexivity.
  destruct (List.find _ (databases w)) as [d|]; [|reflexivity].
  cbn zeta. destruct (f_name <$> _) as [|f fs]; reflexivity.
Qed.

End KeywordSearch.

(** C4, at the failing input: the search term is handed to [$regex] as
    it comes, so it is read as a pattern.  With the term "a.c" the record
    whose only text field holds "abc" is returned, although "abc" does not
    contain "a.c" as a substring, up to case or not. *)
Theorem search_term_read_as_pattern :
  Js.includes (Js.toLowerCase "a.c") (Js.toLowerCase "abc") = false /\
  r_values Example.task1 = [("Title", VStr "abc")] /\
  (Query_records Example.literal_holds Example.any_order 100 None None None None
                 (Some "a.c") (Example.as_user Example.alice) Example.world).1
  = Return [format Example.task1].
Proof. by vm_compute. Qed.

(** ** Tenant isolation *)

Section Isolation.

Context {condition : Type}.
Variable cond_holds : condition -> option value -> bool.
Variable bson_leb : option value -> option value -> bool.

(** C10: the search stage of [Query.records] looks the database up by
    id alone.  Whatever database has the id, of whatever tenant, its
    text fields are the value paths searched; there are two stores that
    hold the same for the caller's tenant and differ in another tenant's
    schema on which the same call builds pipelines that search different
    paths.  What the query returns still belongs to the caller's tenant:
    the first stage sees to that. *)
Theorem search_stage_reads_any_tenants_schema :
  (forall databaseId c term (u : User) w dbDefinition,
     List.find (db_matches (mkQuery (Some databaseId) None None None)) (databases w)
       = Some dbDefinition ->
     exists pipeline : list (@Stage condition),
       records_pipeline databaseId None None None None (Some (String c term)) u w
         = (Return pipeline, w) /\
       searchedFields pipeline
         = f_name <$> List.filter (fun field => bool_decide (f_type field = "text"))
                                  (db_fields dbDefinition))
  /\
  (exists (w1 w2 : World) (u : User) (databaseId : ObjectId) (term : string)
          (p1 p2 : list (@Stage condition)),
     tenant_view (u_tenantId u) w1 = tenant_view (u_tenantId u) w2 /\
     records_pipeline databaseId None None None None (Some term) u w1 = (Return p1, w1) /\
     records_pipeline databaseId None None None None (Some term) u w2 = (Return p2, w2) /\
     searchedFields p1 <> searchedFields p2)
  /\
  (forall databaseId filter sort page limit search (u : User) w rs w',
     Query_records cond_holds bson_leb databaseId filter sort page limit search
                   (mkContext (Some u)) w = (Return rs, w') ->
     Forall (fun r => fr_tenantId r = u_tenantId u) rs).
Proof.
  refine (conj _ (conj _ _)).
  - intros databaseId c term u w d Hfind.
    unfold records_pipeline. unfold_M. rewrite records_stages_search, Hfind.
    eexists. split; [reflexivity|]. cbn zeta.
    destruct (f_name <$> _) as [|f fs] eqn:Hfields; [done|].
    unfold searchedFields, keys. cbn. rewrite app_nil_r.
    f_equal. clear. induction fs as [|x fs IH]; [reflexivity|].
    rewrite !fmap_cons. cbn [fst]. by rewrite IH.
  - exists Example.world, Example.world', Example.alice, 200%N, "acme".
    eexists. eexists. split; [reflexivity|].
    split; [reflexivity|]. split; [reflexivity|]. by vm_compute.
  - intros databaseId filter sort page limit search u w rs w' Hrun.
    apply records_own_tenant in Hrun as [_ Hrs].
    induction Hrs as [|r rs' [Hr _] _ IH]; constructor; done.
Qed.

(** C1, amended: a caller of one tenant who supplies the id of a
    database or record of another tenant gets none of its data and
    changes none of it, whatever the caller's role.  For every database
    of another tenant (database ids unique in the store): [database]
    throws the plain "Database not found ..." [Error]; every mutation
    that takes its id throws and writes nothing, and once the caller
    passes the role gate (and, for [updateDatabase], the name is not
    blank) what is thrown is: from [updateDatabase] and [deleteDatabase]
    the plain "Database not found ..." [Error]; from [createField],
    [updateField], [deleteField] and [createRecord] the [ForbiddenError]
    "Database not found or you don't have permission ...".  For every
    record of another tenant (record ids unique in the store): [record]
    returns [null]; [updateRecord] and [deleteRecord] throw and write
    nothing, the [UserInputError] "Record not found or you don't have
    permission." once the caller passes the role gate.  The listing
    queries [databases], [records] and [activityLogs] return documents of
    the caller's tenant only, and write nothing. *)
Theorem tenant_isolation (w : World) (u : User) :
  let context := mkContext (Some u) in
  let admin := u_role u = Admin in
  let editor := canEditRecords u = true in
  (forall d,
     NoDup (db_id <$> databases w) ->
     d ∈ databases w -> db_tenantId d <> u_tenantId u ->
     Query_database (db_id d) context w =
       (Throw (Error "Database not found or you don't have permission to view it."), w) /\
     (forall name,
        refused (Mutation_updateDatabase (db_id d) name context w) w
          (admin /\ blank name = false)
          (Error "Database not found or you don't have permission to modify it.")) /\
     refused (Mutation_deleteDatabase (db_id d) context w) w admin
       (Error "Database not found or you don't have permission to delete it.") /\
     (forall field,
        refused (Mutation_createField (db_id d) field context w) w admin
          (ForbiddenError
             "Database not found or you don't have permission to modify it.")) /\
     (forall fieldId field,
        refused (Mutation_updateField (db_id d) fieldId field context w) w admin
          (ForbiddenError
             "Database not found or you don't have permission to modify it.")) /\
     (forall fieldId,
        refused (Mutation_deleteField (db_id d) fieldId context w) w admin
          (ForbiddenError
             "Database not found or you don't have permission to modify it.")) /\
     (forall values,
        refused (Mutation_createRecord (db_id d) values context w) w editor
          (ForbiddenError "Database not found or you don't have permission."))) /\
  (forall r,
     NoDup (r_id <$> records w) ->
     r ∈ records w -> r_tenantId r <> u_tenantId u ->
     Query_record (r_id r) context w = (Return None, w) /\
     (forall values,
        refused (Mutation_updateRecord (r_id r) values context w) w editor
          (UserInputError "Record not found or you don't have permission.")) /\
     refused (Mutation_deleteRecord (r_id r) context w) w editor
       (UserInputError "Record not found or you don't have permission.")) /\
  (exists ds, Query_databases context w = (Return ds, w) /\
              Forall (fun x => db_tenantId x = u_tenantId u) ds) /\
  (forall databaseId filter sort page limit search rs w',
     Query_records cond_holds bson_leb databaseId filter sort page limit search
                   context w = (Return rs, w') ->
     w' = w /\ Forall (fun x => fr_tenantId x = u_tenantId u) rs) /\
  (forall limit page,
     exists ls, Query_activityLogs limit page context w = (Return ls, w) /\
                Forall (fun x => l_tenantId x = u_tenantId u) ls).
Proof.
  intros context admin editor. subst context admin editor.
  assert (exists a e, isAdmin u = a /\ canEditRecords u = e /\
                      (a = false -> u_role u <> Admin)) as (a & e & Ha & He & Hrole).
  { unfold isAdmin, canEditRecords. destruct (u_role u); eexists _, _; by repeat split. }
  refine (conj _ (conj _ (conj _ (conj _ _)))).
  - intros d Hdbs Hd Hdt.
    pose proof (fun del => foreign_database_not_found _ d (u_tenantId u) del Hdbs Hd Hdt)
      as Hnodb.
    unfold refused, Query_database, Mutation_updateDatabase,
      Mutation_deleteDatabase, Mutation_createField, Mutation_updateField,
      Mutation_deleteField, Mutation_createRecord, DatabaseDefinition_findOne,
      DatabaseDefinition_findOneAndUpdate.
    cbn [user]. rewrite Ha, He. unfold_M.
    split; [by rewrite Hnodb|].
    split.
    { intros name. destruct a; cbn [negb]; [destruct (blank name) eqn:Hb|];
        rewrite ?Hnodb; (eexists; split; [reflexivity|]);
        [intros [_ ?]; congruence | done |].
      intros [? _]. by destruct Hrole. }
    do 4 (split; [intros; destruct a; cbn [negb]; rewrite ?Hnodb;
                  (eexists; split; [reflexivity|]);
                  [done | intros ?; by destruct Hrole]|]).
    intros; destruct e; cbn [negb]; rewrite ?Hnodb;
      (eexists; split; [reflexivity|]); [done | intros ?; congruence].
  - intros r Hrecs Hr Hrt.
    pose proof (foreign_record_not_found _ r (u_tenantId u) Hrecs Hr Hrt) as Hnorec.
    unfold refused, Query_record, Mutation_updateRecord, Mutation_deleteRecord,
      Record_findOne, Record_findOneAndUpdate.
    cbn [user]. rewrite He. unfold_M.
    split; [by rewrite Hnorec|].
    split; intros; destruct e; cbn [negb]; rewrite ?Hnorec;
      (eexists; split; [reflexivity|]); [done | intros ?; congruence ..].
  - unfold Query_databases, DatabaseDefinition_find. cbn [user]. unfold_M.
    eexists. split; [reflexivity|].
    apply Forall_List_filter_implies. intros x Hm.
    apply db_matches_true in Hm as (_ & Hten & _). by apply Hten.
  - intros databaseId filter sort page limit search rs w' Hrun.
    apply records_own_tenant in Hrun as [-> Hrs]. split; [done|].
    induction Hrs as [|x rs' [Hx _] _ IH]; constructor; done.
  - intros limit page. unfold Query_activityLogs. cbn [user]. unfold_M.
    eexists. split; [reflexivity|].
    apply Forall_take, Forall_drop, Forall_sort_by.
    apply Forall_List_filter_implies. intros x Hm.
    unfold log_matches in Hm. apply andb_true_iff in Hm as [_ Hm].
    cbn [q_tenantId] in Hm. exact (proj1 (crit_true _ _) Hm _ eq_refl).
Qed.

End Isolation.

(** On the example stores: the caller of tenant 1 names the database of
    tenant 2; the path searched is that database's text field. *)
Lemma search_stage_reads_any_tenants_schema_witness :
  exists pipeline : list (@Stage value),
    records_pipeline 200 None None None None (Some "acme") Example.alice Example.world
      = (Return pipeline, Example.world) /\
    searchedFields pipeline = ["Company"].
Proof.
  destruct (search_stage_reads_any_tenants_schema Example.literal_holds Example.any_order)
    as (H & _ & _).
  destruct (H 200%N "a"%char "cme" Example.alice Example.world Example.leads eq_refl)
    as (pipeline & Hrun & Hfields).
  exists pipeline. split; [exact Hrun | exact Hfields].
Defined.

(** C1, as stated, fails: with the id of another tenant's record,
    [Query.record] returns [null], and with the id of another tenant's
    database [Query.records] returns the empty list; neither throws what
    the spec calls [NotFound].  And one lookup is not filtered by the
    caller's tenant: the search stage of [Query.records] finds the other
    tenant's database and takes its text field as the path to search. *)
Lemma tenant_isolation_counterexample :
  Example.lead1 ∈ records Example.world /\
  r_tenantId Example.lead1 <> u_tenantId Example.alice /\
  Query_record (r_id Example.lead1) (Example.as_user Example.alice) Example.world
    = (Return None, Example.world) /\
  Example.leads ∈ databases Example.world /\
  db_tenantId Example.leads <> u_tenantId Example.alice /\
  Query_records Example.literal_holds Example.any_order (db_id Example.leads)
                None None None None None (Example.as_user Example.alice) Example.world
    = (Return [], Example.world) /\
  (DatabaseDefinition_findById (db_id Example.leads) Example.world).1
    = Return (Some Example.leads) /\
  searchedFields
    (match (records_pipeline (condition := value) (db_id Example.leads) None None None None
                             (Some "acme") Example.alice Example.world).1 with
     | Return pipeline => pipeline
     | Throw _ => []
     end) = ["Company"].
Proof.
  split; [right; left|]. split; [done|]. split; [reflexivity|].
  split; [right; right; left|]. split; [done|]. split; [reflexivity|].
  split; reflexivity.
Qed.

Lemma tenant_isolation_witness :
  Query_database 200 (mkContext (Some Example.alice)) Example.world =
    (Throw (Error "Database not found or you don't have permission to view it."),
     Example.world) /\
  Mutation_deleteRecord 250 (mkContext (Some Example.alice)) Example.world =
    (Throw (UserInputError "Record not found or you don't have permission."),
     Example.world) /\
  Mutation_updateDatabase 200 "Mine" (mkContext (Some Example.alice)) Example.world =
    (Throw (Error "Database not found or you don't have permission to modify it."),
     Example.world).
Proof.
  assert (NoDup (db_id <$> databases Example.world)) as Hdbs.
  { repeat constructor; intros H; repeat (apply elem_of_cons in H as [H|H]; [done|]);
      by apply elem_of_nil in H. }
  assert (NoDup (r_id <$> records Example.world)) as Hrecs.
  { repeat constructor; intros H; repeat (apply elem_of_cons in H as [H|H]; [done|]);
      by apply elem_of_nil in H. }
  assert (Example.leads ∈ databases Example.world) as Hd by (right; right; left).
  assert (Example.lead1 ∈ records Example.world) as Hr by (right; left).
  destruct (tenant_isolation Example.literal_holds Example.any_order Example.world
              Example.alice)
    as (Hdatabase & Hrecord & _).
  destruct (Hdatabase Example.leads Hdbs Hd ltac:(done)) as (H1 & H3 & _).
  destruct (Hrecord Example.lead1 Hrecs Hr ltac:(done)) as (_ & _ & H10).
  split; [exact H1|].
  destruct H10 as (e10 & Hrun10 & He10). destruct (H3 "Mine") as (e3 & Hrun3 & He3).
  rewrite <- (He10 eq_refl), <- (He3 (conj eq_refl eq_refl)).
  split; [exact Hrun10 | exact Hrun3].
Defined.

(** * More of the resolvers *)

(** ** The writes a mutation issues *)

Lemma found_database (q : Query) (ds : list DatabaseDefinition)
    (d : DatabaseDefinition) (t : ObjectId) :
  List.find (db_matches q) ds = Some d -> q_tenantId q = Some t ->
  d ∈ ds /\ db_tenantId d = t.
Proof.
  intros Hfind Hq. apply find_some_elem in Hfind as [Hin Hm].
  apply db_matches_true in Hm as (_ & Hten & _). auto.
Qed.

Lemma found_record (q : Query) (rs : list RecordDoc) (r : RecordDoc) (t : ObjectId) :
  List.find (record_matches q) rs = Some r -> q_tenantId q = Some t ->
  r ∈ rs /\ r_tenantId r = t.
Proof.
  intros Hfind Hq. apply find_some_elem in Hfind as [Hin Hm].
  apply record_matches_true in Hm as (_ & Hten & _). auto.
Qed.

Ltac stop := apply rtc_refl.
Ltac world_norm :=
  unfold with_databases, with_records, with_activityLogs, with_auditUp in *; world_fields.
Ltac ran H := injection H as <- <-; world_norm.
Ltac logged := first [stop | apply rtc_once; eapply write_log; reflexivity].
Ltac then_logged c := eapply rtc_l; [c | logged].

Lemma createDatabase_writes name u w o w' :
  Mutation_createDatabase name (mkContext (Some u)) w = (o, w') -> rtc (write u) w w'.
Proof.
  unfold Mutation_createDatabase. cbn [user].
  destruct (negb (isAdmin u)); [intros H; ran H; stop|].
  destruct (blank name); [intros H; ran H; stop|].
  unfold_M. unfold new_DatabaseDefinition, DatabaseDefinition_save, ActivityLog_create.
  unfold_M. world_fields.
  destruct (validateDatabase _).
  { destruct (decide _); intros H; ran H; apply rtc_once, write_id. }
  destruct (isNew _ _ && name_taken _ _).
  { destruct (decide _); intros H; ran H; apply rtc_once, write_id. }
  world_fields. destruct w as [ds rs ls n t []]; world_fields; [|destruct (decide _)];
    intros H; ran H;
    match goal with
    | |- rtc _ _ (mkWorld (upsert db_id ?d _) _ _ _ _ _) =>
        then_logged ltac:(apply (write_database_new u _ d); reflexivity)
    end.
Qed.

Lemma applyDatabaseUpdate_keeps (upd : DatabaseUpdate) (d : DatabaseDefinition) :
  db_id (applyDatabaseUpdate upd d) = db_id d /\
  db_tenantId (applyDatabaseUpdate upd d) = db_tenantId d.
Proof. by destruct upd. Qed.

Lemma updateDatabase_writes id name u w o w' :
  Mutation_updateDatabase id name (mkContext (Some u)) w = (o, w') -> rtc (write u) w w'.
Proof.
  unfold Mutation_updateDatabase. cbn [user].
  destruct (negb (isAdmin u)); [intros H; ran H; stop|].
  destruct (blank name); [intros H; ran H; stop|].
  unfold_M. unfold DatabaseDefinition_findOneAndUpdate, ActivityLog_create. world_fields.
  destruct (List.find _ (databases w)); [|intros H; ran H; stop].
  destruct (touchesName _ && name_taken _ _); [destruct (decide _); intros H; ran H; stop|].
  world_fields. destruct w as [ds rs ls n t []]; world_fields; intros H; ran H;
    match goal with
    | |- rtc _ _ (mkWorld (update_first (db_matches ?q) ?f _) _ _ _ _ _) =>
        then_logged ltac:(apply (write_database_updated u _ q f);
                          [reflexivity | apply applyDatabaseUpdate_keeps])
    end.
Qed.

Lemma deleteDatabase_writes id u w o w' :
  Mutation_deleteDatabase id (mkContext (Some u)) w = (o, w') -> rtc (write u) w w'.
Proof.
  unfold Mutation_deleteDatabase. cbn [user].
  destruct (negb (isAdmin u)); [intros H; ran H; stop|].
  unfold_M. unfold DatabaseDefinition_findOneAndUpdate, ActivityLog_create. world_fields.
  destruct (List.find _ (databases w)); [|intros H; ran H; stop].
  destruct (touchesName _ && name_taken _ _); [intros H; ran H; stop|].
  world_fields. destruct w as [ds rs ls n t []]; world_fields; intros H; ran H;
    match goal with
    | |- rtc _ _ (mkWorld (update_first (db_matches ?q) ?f _) _ _ _ _ _) =>
        then_logged ltac:(apply (write_database_updated u _ q f);
                          [reflexivity | apply applyDatabaseUpdate_keeps])
    end.
Qed.

(** The end common to the three field mutations: the loaded database is
    saved with new fields, then the entry is logged. *)
Lemma save_fields_writes (u : User) (w0 w : World) (q : Query)
    (d : DatabaseDefinition) (fs : list FieldDefinition) (o : outcome DatabaseDefinition)
    (w' : World) :
  List.find (db_matches q) (databases w0) = Some d ->
  q_tenantId q = Some (u_tenantId u) ->
  databases w = databases w0 ->
  rtc (write u) w0 w ->
  (_ ← DatabaseDefinition_save (with_fields fs d);
   _ ← ActivityLog_create (u_tenantId u) (u_id u) CREATE_FIELD
         (mkDetails (Some (db_id d)) (Some (db_name d)) None);
   mret (with_fields fs d)) w = (o, w') \/
  (_ ← DatabaseDefinition_save (with_fields fs d);
   _ ← ActivityLog_create (u_tenantId u) (u_id u) UPDATE_FIELD
         (mkDetails (Some (db_id d)) (Some (db_name d)) None);
   mret (with_fields fs d)) w = (o, w') \/
  (_ ← DatabaseDefinition_save (with_fields fs d);
   _ ← ActivityLog_create (u_tenantId u) (u_id u) DELETE_FIELD
         (mkDetails (Some (db_id d)) (Some (db_name d)) None);
   mret (with_fields fs d)) w = (o, w') ->
  rtc (write u) w0 w'.
Proof.
  intros Hfind Hq Hdbs Hpath Hrun.
  destruct (found_database _ _ _ _ Hfind Hq) as [Hin Hten]. rewrite <- Hdbs in Hin.
  eapply rtc_trans; [exact Hpath|].
  unfold_M. unfold DatabaseDefinition_save, ActivityLog_create in Hrun. world_fields.
  destruct (validateDatabase _); [destruct Hrun as [H|[H|H]]; ran H; stop|].
  destruct (isNew _ _ && name_taken _ _); [destruct Hrun as [H|[H|H]]; ran H; stop|].
  world_fields.
  destruct w as [ds rs ls n t []]; world_fields; destruct Hrun as [H|[H|H]]; ran H;
    then_logged ltac:(apply (write_database_saved u _ d (with_fields fs d));
                      [exact Hin | exact Hten | done | done]).
Qed.

Lemma createField_writes databaseId field u w o w' :
  Mutation_createField databaseId field (mkContext (Some u)) w = (o, w') ->
  rtc (write u) w w'.
Proof.
  unfold Mutation_createField. cbn [user].
  destruct (negb (isAdmin u)); [intros H; ran H; stop|].
  unfold mbind at 1, M_bind at 1. unfold DatabaseDefinition_findOne at 1.
  destruct (List.find _ (databases w)) as [d|] eqn:Hfind; [|intros H; ran H; stop].
  destruct (fieldExists _ _); [intros H; ran H; stop|].
  unfold mbind at 1, M_bind at 1, freshId at 1. intros H.
  eapply (save_fields_writes u w _ _ d); [exact Hfind | reflexivity | | | left; exact H].
  - reflexivity.
  - apply rtc_once, write_id.
Qed.

Lemma updateField_writes databaseId fieldId field u w o w' :
  Mutation_updateField databaseId fieldId field (mkContext (Some u)) w = (o, w') ->
  rtc (write u) w w'.
Proof.
  unfold Mutation_updateField. cbn [user].
  destruct (negb (isAdmin u)); [intros H; ran H; stop|].
  unfold mbind at 1, M_bind at 1. unfold DatabaseDefinition_findOne at 1.
  destruct (List.find _ (databases w)) as [d|] eqn:Hfind; [|intros H; ran H; stop].
  destruct (fields_id _ _); [|intros H; ran H; stop].
  destruct (otherFieldExists _ _ _); [intros H; ran H; stop|]. intros H.
  eapply (save_fields_writes u w w _ d); [exact Hfind | reflexivity | reflexivity | stop |].
  right; left; exact H.
Qed.

Lemma deleteField_writes databaseId fieldId u w o w' :
  Mutation_deleteField databaseId fieldId (mkContext (Some u)) w = (o, w') ->
  rtc (write u) w w'.
Proof.
  unfold Mutation_deleteField. cbn [user].
  destruct (negb (isAdmin u)); [intros H; ran H; stop|].
  unfold mbind at 1, M_bind at 1. unfold DatabaseDefinition_findOne at 1.
  destruct (List.find _ (databases w)) as [d|] eqn:Hfind; [|intros H; ran H; stop].
  destruct (fields_id _ _); [|intros H; ran H; stop]. intros H.
  eapply (save_fields_writes u w w _ d); [exact Hfind | reflexivity | reflexivity | stop |].
  right; right; exact H.
Qed.

Lemma createRecord_writes databaseId values u w o w' :
  Mutation_createRecord databaseId values (mkContext (Some u)) w = (o, w') ->
  rtc (write u) w w'.
Proof.
  unfold Mutation_createRecord. cbn [user].
  destruct (negb (canEditRecords u)); [intros H; ran H; stop|].
  unfold_M. unfold DatabaseDefinition_findOne, new_Record, Record_save, ActivityLog_create.
  unfold_M. world_fields.
  destruct (List.find _ (databases w)); [|intros H; ran H; stop].
  world_fields.
  destruct (isNewRecord _ _ && negb _); [intros H; ran H; apply rtc_once, write_id|].
  destruct w as [ds rs ls n t []]; world_fields; intros H; ran H;
    match goal with
    | |- rtc _ _ (mkWorld _ (upsert r_id ?r _) _ _ _ _) =>
        then_logged ltac:(apply (write_record_new u _ r); reflexivity)
    end.
Qed.

Lemma updateRecord_writes id values u w o w' :
  Mutation_updateRecord id values (mkContext (Some u)) w = (o, w') ->
  rtc (write u) w w'.
Proof.
  unfold Mutation_updateRecord. cbn [user].
  destruct (negb (canEditRecords u)); [intros H; ran H; stop|].
  unfold_M. unfold Record_findOne, Record_save, ActivityLog_create. world_fields.
  destruct (List.find _ (records w)) as [r|] eqn:Hfind; [|intros H; ran H; stop].
  destruct (found_record _ _ _ (u_tenantId u) Hfind eq_refl) as [Hin Hten].
  destruct (mergedValues _ _); [intros H; ran H; stop|]. unfold_M.
  rewrite (isNewRecord_loaded _ _ r _ Hfind) by done. cbn [andb].
  world_fields. destruct w as [ds rs ls n t []]; world_fields; intros H; ran H;
    match goal with
    | |- rtc _ _ (mkWorld _ (upsert r_id ?r' _) _ _ _ _) =>
        then_logged ltac:(apply (write_record_saved u _ r r');
                          [exact Hin | exact Hten | done..])
    end.
Qed.

Lemma deleteRecord_writes id u w o w' :
  Mutation_deleteRecord id (mkContext (Some u)) w = (o, w') -> rtc (write u) w w'.
Proof.
  unfold Mutation_deleteRecord. cbn [user].
  destruct (negb (canEditRecords u)); [intros H; ran H; stop|].
  unfold_M. unfold Record_findOneAndUpdate, ActivityLog_create. world_fields.
  destruct (List.find _ (records w)); [|intros H; ran H; stop].
  world_fields. destruct w as [ds rs ls n t []]; world_fields; intros H; ran H;
    match goal with
    | |- rtc _ _ (mkWorld _ (update_first (record_matches ?q) ?f _) _ _ _ _) =>
        then_logged ltac:(apply (write_record_updated u _ q f); [reflexivity | done])
    end.
Qed.

Lemma discard_run {A} (m : M A) (w : World) (o : outcome unit) (w' : World) :
  discard m w = (o, w') -> exists o', m w = (o', w').
Proof. unfold discard. destruct (m w) as [[a|e] w1]; intros [= <- <-]; eauto. Qed.

(** Every mutation is a sequence of writes on behalf of its caller. *)
Lemma mutation_writes (call : MutationCall) (u : User) (w : World)
    (o : outcome unit) (w' : World) :
  Mutation_call call (mkContext (Some u)) w = (o, w') -> rtc (write u) w w'.
Proof.
  destruct call; cbn [Mutation_call]; intros H; apply discard_run in H as [o' H];
    eauto using createDatabase_writes, updateDatabase_writes, deleteDatabase_writes,
      createField_writes, updateField_writes, deleteField_writes,
      createRecord_writes, updateRecord_writes, deleteRecord_writes.
Qed.

(** ** What a write keeps *)

Lemma upsert_fresh {A} (id : A -> ObjectId) (x : A) (l : list A) :
  id x ∉ id <$> l -> upsert id x l = l ++ [x].
Proof.
  induction l as [|y l IH]; intros Hx; [done|]. simpl.
  rewrite fmap_cons in Hx. apply not_elem_of_cons in Hx as [Hne Hx].
  rewrite decide_False by congruence. by rewrite IH.
Qed.

(** With unique ids, saving a document again replaces it where it is. *)
Lemma upsert_replaces {A} (id : A -> ObjectId) (x x0 : A) (l : list A) :
  NoDup (id <$> l) -> x0 ∈ l -> id x = id x0 ->
  exists pre post, l = pre ++ x0 :: post /\ upsert id x l = pre ++ x :: post.
Proof.
  induction l as [|y l IH]; intros Hnd Hin Hid; [by apply elem_of_nil in Hin|].
  rewrite fmap_cons in Hnd. inversion Hnd as [|? ? Hy Hnd']; subst.
  simpl. destruct (decide (id y = id x)) as [Heq|Hne].
  - assert (y = x0) as ->.
    { apply elem_of_cons in Hin as [->|Hin]; [done|]. exfalso. apply Hy.
      rewrite Heq, Hid. by apply list_elem_of_fmap_2. }
    by exists [], l.
  - apply elem_of_cons in Hin as [->|Hin]; [congruence|].
    destruct (IH Hnd' Hin Hid) as (pre & post & -> & ->).
    by exists (y :: pre), post.
Qed.

Lemma update_first_fmap {A B} (g : A -> B) (p : A -> bool) (f : A -> A) (l : list A) :
  (forall x, g (f x) = g x) -> g <$> update_first p f l = g <$> l.
Proof.
  intros Hg. induction l as [|y l IH]; [done|]. simpl.
  destruct (p y); rewrite !fmap_cons; [by rewrite Hg | by rewrite IH].
Qed.

(** Rewriting the first match changes nothing for a filter that rejects
    the matches, before and after. *)
Lemma filter_update_first {A} (keep p : A -> bool) (f : A -> A) (l : list A) :
  (forall x, p x = true -> keep x = false /\ keep (f x) = false) ->
  List.filter keep (update_first p f l) = List.filter keep l.
Proof.
  intros H. induction l as [|y l IH]; [done|]. simpl.
  destruct (p y) eqn:Hp.
  - destruct (H y Hp) as [H1 H2]. simpl. by rewrite H1, H2.
  - simpl. by rewrite IH.
Qed.

Lemma elem_of_update_first {A} (p : A -> bool) (f : A -> A) (l : list A) (x : A) :
  x ∈ update_first p f l -> x ∈ l \/ exists y, y ∈ l /\ p y = true /\ x = f y.
Proof.
  induction l as [|y l IH]; simpl; [by left|].
  destruct (p y) eqn:Hp; intros Hx; apply elem_of_cons in Hx as [->|Hx].
  - right. exists y. split; [left | done].
  - left. by right.
  - left. left.
  - destruct (IH Hx) as [Hin|(z & Hz & Hpz & ->)]; [left; by right|].
    right. exists z. split; [by right | done].
Qed.

Lemma ids_below {A} (id : A -> ObjectId) (l : list A) (n : ObjectId) :
  (forall x, x ∈ l -> (id x < n)%N) -> n ∉ id <$> l.
Proof.
  intros H Hin. apply list_elem_of_fmap in Hin as (x & -> & Hx).
  specialize (H x Hx). lia.
Qed.

Lemma NoDup_snoc_fresh (l : list ObjectId) (n : ObjectId) :
  NoDup l -> n ∉ l -> NoDup (l ++ [n]).
Proof.
  intros Hnd Hn. apply NoDup_app. split; [done|]. split.
  - intros x Hx Hx'. apply list_elem_of_singleton in Hx'. by subst.
  - apply NoDup_singleton.
Qed.

(** A write keeps the ids unique and below the generator. *)
Lemma write_ids_unique (u : User) (w w' : World) :
  write u w w' -> ids_unique w -> ids_unique w'.
Proof.
  intros Hw (Hd & Hr & Hdn & Hrn). unfold ids_unique.
  destruct Hw as [w|w d Hid _|w d0 d Hin _ Hid _|w q f _ Hf
                  |w r Hid _|w r0 r Hin _ Hid _ _|w q f _ Hf|w entry _];
    unfold with_databases, with_records; cbn [databases records nextId].
  - repeat split; auto; intros x Hx; [specialize (Hdn x Hx)|specialize (Hrn x Hx)]; lia.
  - pose proof (ids_below db_id _ _ Hdn) as Hfresh. rewrite <- Hid in Hfresh.
    rewrite (upsert_fresh db_id d _ Hfresh). rewrite fmap_app.
    split; [by apply NoDup_snoc_fresh|]. split; [done|]. split.
    + intros x Hx. apply elem_of_app in Hx as [Hx|Hx].
      * specialize (Hdn x Hx). lia.
      * apply list_elem_of_singleton in Hx. subst. rewrite Hid. lia.
    + intros x Hx. specialize (Hrn x Hx). lia.
  - destruct (upsert_replaces db_id d d0 _ Hd Hin Hid) as (pre & post & Hl & ->).
    rewrite Hl in Hd, Hdn. rewrite fmap_app, fmap_cons in *. rewrite Hid.
    split; [done|]. split; [done|]. split; [|done].
    intros x Hx. apply elem_of_app in Hx as [Hx|Hx].
    + apply Hdn. apply elem_of_app. by left.
    + apply elem_of_cons in Hx as [->|Hx].
      * rewrite Hid. apply Hdn. apply elem_of_app. right. left.
      * apply Hdn. apply elem_of_app. right. by right.
  - rewrite (update_first_fmap db_id) by apply Hf.
    split; [done|]. split; [done|]. split; [|done].
    intros x Hx. apply elem_of_update_first in Hx as [Hx|(y & Hy & _ & ->)]; [auto|].
    rewrite (proj1 (Hf y)). auto.
  - pose proof (ids_below r_id _ _ Hrn) as Hfresh. rewrite <- Hid in Hfresh.
    rewrite (upsert_fresh r_id r _ Hfresh). rewrite fmap_app.
    split; [done|]. split; [by apply NoDup_snoc_fresh|]. split.
    + intros x Hx. specialize (Hdn x Hx). lia.
    + intros x Hx. apply elem_of_app in Hx as [Hx|Hx].
      * specialize (Hrn x Hx). lia.
      * apply list_elem_of_singleton in Hx. subst. rewrite Hid. lia.
  - destruct (upsert_replaces r_id r r0 _ Hr Hin Hid) as (pre & post & Hl & ->).
    rewrite Hl in Hr, Hrn. rewrite fmap_app, fmap_cons in *. rewrite Hid.
    split; [done|]. split; [done|]. split; [done|].
    intros x Hx. apply elem_of_app in Hx as [Hx|Hx].
    + apply Hrn. apply elem_of_app. by left.
    + apply elem_of_cons in Hx as [->|Hx].
      * rewrite Hid. apply Hrn. apply elem_of_app. right. left.
      * apply Hrn. apply elem_of_app. right. by right.
  - rewrite (update_first_fmap r_id) by apply Hf.
    split; [done|]. split; [done|]. split; [done|].
    intros x Hx. apply elem_of_update_first in Hx as [Hx|(y & Hy & _ & ->)]; [auto|].
    rewrite (proj1 (Hf y)). auto.
  - repeat split; auto; intros x Hx; [specialize (Hdn x Hx)|specialize (Hrn x Hx)]; lia.
Qed.

Lemma List_filter_app {A} (p : A -> bool) (l1 l2 : list A) :
  List.filter p (l1 ++ l2) = List.filter p l1 ++ List.filter p l2.
Proof. induction l1 as [|x l1 IH]; simpl; [done|]. destruct (p x); simpl; by rewrite IH. Qed.

(** A write on behalf of [u] leaves what another tenant owns as it is. *)
Lemma write_frame (u : User) (w w' : World) (t : ObjectId) :
  write u w w' -> ids_unique w -> t <> u_tenantId u ->
  tenant_view t w' = tenant_view t w.
Proof.
  intros Hw (Hd & Hr & Hdn & Hrn) Ht. unfold tenant_view.
  destruct Hw as [w|w d Hid Hten|w d0 d Hin Hten0 Hid Hten|w q f Hq Hf
                  |w r Hid Hten|w r0 r Hin Hten0 Hid Hten _|w q f Hq Hf|w entry Hten];
    unfold with_databases, with_records; cbn [databases records activityLogs].
  - done.
  - pose proof (ids_below db_id _ _ Hdn) as Hfresh. rewrite <- Hid in Hfresh.
    rewrite (upsert_fresh db_id d _ Hfresh), List_filter_app. simpl.
    rewrite bool_decide_eq_false_2 by congruence. by rewrite app_nil_r.
  - destruct (upsert_replaces db_id d d0 _ Hd Hin Hid) as (pre & post & -> & ->).
    rewrite !List_filter_app. simpl.
    rewrite !bool_decide_eq_false_2 by congruence. done.
  - rewrite filter_update_first; [done|]. intros x Hx.
    apply db_matches_true in Hx as (_ & Hx & _). specialize (Hx _ Hq).
    rewrite (proj2 (Hf x)). split; apply bool_decide_eq_false_2; congruence.
  - pose proof (ids_below r_id _ _ Hrn) as Hfresh. rewrite <- Hid in Hfresh.
    rewrite (upsert_fresh r_id r _ Hfresh), List_filter_app. simpl.
    rewrite bool_decide_eq_false_2 by congruence. by rewrite app_nil_r.
  - destruct (upsert_replaces r_id r r0 _ Hr Hin Hid) as (pre & post & -> & ->).
    rewrite !List_filter_app. simpl.
    rewrite !bool_decide_eq_false_2 by congruence. done.
  - rewrite filter_update_first; [done|]. intros x Hx.
    apply record_matches_true in Hx as (_ & Hx & _). specialize (Hx _ Hq).
    rewrite (proj1 (proj2 (Hf x))). split; apply bool_decide_eq_false_2; congruence.
  - rewrite List_filter_app. simpl.
    rewrite bool_decide_eq_false_2 by congruence. by rewrite app_nil_r.
Qed.

(** A write removes nothing and moves nothing to another owner: the
    ownership lists and the log only grow at their end. *)
Lemma write_grows (u : User) (w w' : World) :
  write u w w' -> ids_unique w ->
  database_owners w `prefix_of` database_owners w' /\
  record_owners w `prefix_of` record_owners w' /\
  activityLogs w `prefix_of` activityLogs w'.
Proof.
  intros Hw (Hd & Hr & Hdn & Hrn). unfold database_owners, record_owners.
  destruct Hw as [w|w d Hid Hten|w d0 d Hin Hten0 Hid Hten|w q f Hq Hf
                  |w r Hid Hten|w r0 r Hin Hten0 Hid Hten Hdb|w q f Hq Hf|w entry Hten];
    unfold with_databases, with_records; cbn [databases records activityLogs].
  - done.
  - pose proof (ids_below db_id _ _ Hdn) as Hfresh. rewrite <- Hid in Hfresh.
    rewrite (upsert_fresh db_id d _ Hfresh), fmap_app.
    split; [by apply prefix_app_r|done].
  - destruct (upsert_replaces db_id d d0 _ Hd Hin Hid) as (pre & post & -> & ->).
    rewrite !fmap_app, !fmap_cons, Hid, Hten. done.
  - rewrite update_first_fmap; [done|]. intros x. destruct (Hf x) as [-> ->]. done.
  - pose proof (ids_below r_id _ _ Hrn) as Hfresh. rewrite <- Hid in Hfresh.
    rewrite (upsert_fresh r_id r _ Hfresh), fmap_app.
    split; [done|]. split; [by apply prefix_app_r|done].
  - destruct (upsert_replaces r_id r r0 _ Hr Hin Hid) as (pre & post & -> & ->).
    rewrite !fmap_app, !fmap_cons, Hid, Hten, Hdb. done.
  - rewrite update_first_fmap; [done|]. intros x. destruct (Hf x) as (-> & -> & ->). done.
  - split; [done|]. split; [done|]. by apply prefix_app_r.
Qed.

Lemma writes_keep (u : User) (w w' : World) :
  rtc (write u) w w' -> ids_unique w ->
  ids_unique w' /\
  (forall t, t <> u_tenantId u -> tenant_view t w' = tenant_view t w) /\
  database_owners w `prefix_of` database_owners w' /\
  record_owners w `prefix_of` record_owners w' /\
  activityLogs w `prefix_of` activityLogs w'.
Proof.
  induction 1 as [w|w w1 w' Hstep _ IH]; intros Hw; [done|].
  pose proof (write_ids_unique u w w1 Hstep Hw) as Hw1.
  destruct (IH Hw1) as (Hu & Hframe & Hdbs & Hrecs & Hlogs).
  destruct (write_grows u w w1 Hstep Hw) as (Hdbs1 & Hrecs1 & Hlogs1).
  split; [done|]. split.
  - intros t Ht. rewrite (Hframe t Ht). by apply (write_frame u).
  - split; [by etrans|]. split; by etrans.
Qed.

Lemma ids_unique_example : ids_unique Example.world.
Proof.
  split; [|split; [|split]].
  - repeat constructor; intros H; repeat (apply elem_of_cons in H as [H|H]; [done|]);
      by apply elem_of_nil in H.
  - repeat constructor; intros H; repeat (apply elem_of_cons in H as [H|H]; [done|]);
      by apply elem_of_nil in H.
  - intros d Hd. repeat (apply elem_of_cons in Hd as [->|Hd]; [by vm_compute|]).
    by apply elem_of_nil in Hd.
  - intros r Hr. repeat (apply elem_of_cons in Hr as [->|Hr]; [by vm_compute|]).
    by apply elem_of_nil in Hr.
Qed.

(** X1: every data mutation keeps the [_id]s of the databases and of the
    records pairwise distinct and below the id generator, whatever its
    arguments and whether it returns or throws. *)
Theorem mutations_keep_ids_unique (call : MutationCall) (u : User) (w : World) :
  ids_unique w -> ids_unique (Mutation_call call (mkContext (Some u)) w).2.
Proof.
  intros Hw. destruct (Mutation_call call (mkContext (Some u)) w) as [o w'] eqn:Hrun.
  apply mutation_writes in Hrun. by apply (writes_keep u w w').
Qed.

Lemma mutations_keep_ids_unique_witness :
  ids_unique (Mutation_call (CreateRecord 100 [("Title", VStr "t")])
                            (mkContext (Some Example.erin)) Example.world).2.
Proof. apply mutations_keep_ids_unique. exact ids_unique_example. Defined.

(** X2: a mutation called by a user of one tenant changes nothing of what
    another tenant owns - not its databases, not its records, not its
    activity log - whatever ids and values the caller supplies and
    whether the call returns or throws (ids unique in the store). *)
Theorem mutations_leave_other_tenants (call : MutationCall) (u : User) (w : World)
    (t : ObjectId) :
  ids_unique w -> t <> u_tenantId u ->
  tenant_view t (Mutation_call call (mkContext (Some u)) w).2 = tenant_view t w.
Proof.
  intros Hw Ht. destruct (Mutation_call call (mkContext (Some u)) w) as [o w'] eqn:Hrun.
  apply mutation_writes in Hrun. by apply (writes_keep u w w').
Qed.

Lemma mutations_leave_other_tenants_witness :
  tenant_view Example.tenant2
    (Mutation_call (UpdateRecord 250 [("Company", VStr "mine")])
                   (mkContext (Some Example.alice)) Example.world).2
  = tenant_view Example.tenant2 Example.world /\
  tenant_view Example.tenant2
    (Mutation_call (DeleteDatabase 100) (mkContext (Some Example.alice)) Example.world).2
  = tenant_view Example.tenant2 Example.world.
Proof.
  split; apply mutations_leave_other_tenants; (exact ids_unique_example || done).
Defined.

(** X3: no mutation removes a document or hands it to another owner.
    After any call the databases of the store are, in the same order, the
    databases it had, each with the [_id] and [tenantId] it had, possibly
    followed by new ones; likewise the records, each with its [_id],
    [tenantId] and [databaseId]; and the activity log is the log it was,
    possibly followed by new entries (ids unique in the store). *)
Theorem mutations_only_add (call : MutationCall) (u : User) (w : World) :
  ids_unique w ->
  let w' := (Mutation_call call (mkContext (Some u)) w).2 in
  database_owners w `prefix_of` database_owners w' /\
  record_owners w `prefix_of` record_owners w' /\
  activityLogs w `prefix_of` activityLogs w'.
Proof.
  intros Hw. cbn zeta.
  destruct (Mutation_call call (mkContext (Some u)) w) as [o w'] eqn:Hrun.
  apply mutation_writes in Hrun. by apply (writes_keep u w w').
Qed.

Lemma mutations_only_add_witness :
  let w' := (Mutation_call (DeleteRecord 150) (mkContext (Some Example.alice))
                           Example.world).2 in
  database_owners Example.world `prefix_of` database_owners w' /\
  record_owners Example.world `prefix_of` record_owners w' /\
  activityLogs Example.world `prefix_of` activityLogs w'.
Proof. apply mutations_only_add. exact ids_unique_example. Defined.

(** ** The audit trail *)

Ltac unfold_mutations :=
  unfold Mutation_call, discard, Mutation_createDatabase, Mutation_updateDatabase,
    Mutation_deleteDatabase, Mutation_createField, Mutation_updateField,
    Mutation_deleteField, Mutation_createRecord, Mutation_updateRecord,
    Mutation_deleteRecord, DatabaseDefinition_findOne, DatabaseDefinition_findOneAndUpdate,
    DatabaseDefinition_save, new_DatabaseDefinition, Record_findOne,
    Record_findOneAndUpdate, Record_save, new_Record, ActivityLog_create in *;
  unfold_M.

(** X4: the audit trail.  A mutation that returns has appended exactly
    one entry to the activity log, carrying the caller's tenant, the
    caller's id, the action of that mutation and the time of the call; a
    mutation that throws has appended none. *)
Theorem audit_trail (call : MutationCall) (u : User) (w : World) :
  let run := Mutation_call call (mkContext (Some u)) w in
  match run.1 with
  | Return _ =>
      exists entry,
        activityLogs run.2 = activityLogs w ++ [entry] /\
        l_tenantId entry = u_tenantId u /\ l_userId entry = u_id u /\
        l_action entry = action_of call /\ l_createdAt entry = now w
  | Throw _ => activityLogs run.2 = activityLogs w
  end.
Proof.
  cbn zeta. destruct call; unfold_mutations; cbn [user];
    repeat (case_match; simplify_eq/=); try done; eexists; by repeat split.
Qed.

(** ** Blank names, and the header of a request *)

Section Strip.
Variable pats : list (list ascii).

Lemma strip_prefix_Some (p l r : list ascii) :
  Js.strip_prefix p l = Some r <-> l = p ++ r.
Proof.
  unfold Js.strip_prefix. case_decide as H.
  - split.
    + intros [= <-]. by rewrite <- H at 1; rewrite take_drop.
    + intros ->. by rewrite drop_app_length.
  - split; [done|]. intros ->. destruct H. by rewrite take_app_length.
Qed.

Lemma skip_Some (l r : list ascii) :
  Js.skip pats l = Some r -> exists p, p ∈ pats /\ l = p ++ r.
Proof.
  induction pats as [|p ps IH]; [done|]. cbn.
  destruct (Js.strip_prefix p l) as [r'|] eqn:Hp.
  - intros [= ->]. exists p. split; [left|]. by apply strip_prefix_Some.
  - intros H. destruct (IH H) as (q & Hq & ->). exists q. split; [by right | done].
Qed.

Lemma skip_None (l : list ascii) :
  Js.skip pats l = None <-> forall p r, p ∈ pats -> l <> p ++ r.
Proof.
  induction pats as [|p ps IH]; cbn.
  - split; [|done]. intros _ p r Hp. by apply elem_of_nil in Hp.
  - destruct (Js.strip_prefix p l) as [r'|] eqn:Hp.
    + split; [done|]. intros H. apply strip_prefix_Some in Hp. by destruct (H p r'); [left|].
    + rewrite IH. split.
      * intros H q r [->|Hq]%elem_of_cons; [|by apply H].
        intros Hl. apply strip_prefix_Some in Hl. congruence.
      * intros H q r Hq. apply H. by right.
Qed.

(** What [strip] leaves does not start with a pattern, given fuel. *)
Lemma strip_done (n : nat) (l : list ascii) :
  Forall (fun p => p <> []) pats -> (length l <= n)%nat ->
  Js.skip pats (Js.strip pats n l) = None.
Proof.
  intros Hne. revert l. induction n as [|n IH]; intros l Hlen; cbn.
  - destruct l; [|cbn in Hlen; lia]. apply skip_None. intros p r Hp Hl.
    symmetry in Hl. apply app_eq_nil in Hl as [-> _].
    rewrite Forall_forall in Hne. by apply (Hne [] Hp).
  - destruct (Js.skip pats l) as [r|] eqn:Hskip; [|done].
    apply IH. apply skip_Some in Hskip as (p & Hp & ->).
    rewrite Forall_forall in Hne. specialize (Hne p Hp).
    rewrite length_app in Hlen. destruct p; [done|]. cbn in Hlen. lia.
Qed.

(** [strip] leaves nothing only of a sequence of patterns. *)
Lemma strip_nil (n : nat) (l : list ascii) :
  Js.strip pats n l = [] -> exists ps, Forall (fun p => p ∈ pats) ps /\ l = concat ps.
Proof.
  revert l. induction n as [|n IH]; intros l; cbn.
  - intros ->. by exists [].
  - destruct (Js.skip pats l) as [r|] eqn:Hskip.
    + intros H. destruct (IH r H) as (ps & Hps & ->).
      apply skip_Some in Hskip as (p & Hp & ->).
      exists (p :: ps). split; [by constructor | done].
    + intros ->. by exists [].
Qed.

(** A byte that occurs in no pattern is not stripped, nor what follows it. *)
Lemma strip_anchor (n : nat) (b : ascii) (pre post : list ascii) :
  Forall (fun p => b ∉ p) pats ->
  exists pre', Js.strip pats n (pre ++ b :: post) = pre' ++ b :: post.
Proof.
  intros Hb. revert pre. induction n as [|n IH]; intros pre; cbn; [by exists pre|].
  destruct (Js.skip pats _) as [r|] eqn:Hskip; [|by exists pre].
  apply skip_Some in Hskip as (p & Hp & Hl).
  rewrite Forall_forall in Hb. specialize (Hb p Hp).
  assert (exists pre1, pre = p ++ pre1) as [pre1 ->].
  { clear -Hl Hb. revert pre Hl. induction p as [|c p IHp]; intros pre Hl; [by exists pre|].
    destruct pre as [|c' pre]; cbn in Hl.
    - injection Hl as -> _. destruct Hb. left.
    - injection Hl as -> Hl. destruct (IHp ltac:(set_solver) pre Hl) as [pre1 ->].
      by exists pre1. }
  rewrite <- app_assoc in Hl. apply app_inv_head in Hl as <-. apply IH.
Qed.

End Strip.

(** Stripping the reversed patterns off the reversed list leaves nothing
    only of a list that starts with a pattern, or of the empty list. *)
Lemma strip_reverse_nil (pats : list (list ascii)) (n : nat) (l : list ascii) :
  Js.skip pats l = None ->
  reverse (Js.strip (reverse <$> pats) n (reverse l)) = [] -> l = [].
Proof.
  intros Hstart Hend.
  apply (f_equal reverse) in Hend. rewrite reverse_involutive, reverse_nil in Hend.
  apply strip_nil in Hend as (ps & Hps & Hl).
  apply (f_equal reverse) in Hl. rewrite reverse_involutive in Hl.
  destruct ps as [|p ps _] using rev_ind; [done|].
  rewrite concat_app, reverse_app in Hl.
  change (concat [p]) with (p ++ []) in Hl. rewrite app_nil_r in Hl.
  apply Forall_app in Hps as [_ Hp]. inversion Hp as [|? ? Hp' _]; subst.
  apply list_elem_of_fmap in Hp' as (q & Hpq & Hq). subst p.
  rewrite reverse_involutive in Hstart.
  rewrite skip_None in Hstart. by destruct (Hstart q _ Hq eq_refl).
Qed.


Lemma white_space_nonempty : Forall (fun p => p <> []) Js.white_space.
Proof. by repeat constructor. Qed.

Lemma string_of_list_ascii_nil (l : list ascii) :
  string_of_list_ascii l = "" <-> l = [].
Proof. by destruct l. Qed.

Lemma list_ascii_of_string_app (s1 s2 : string) :
  list_ascii_of_string (s1 +:+ s2) = list_ascii_of_string s1 ++ list_ascii_of_string s2.
Proof.
  induction s1 as [|c s1 IH]; [done|].
  change (String c s1 +:+ s2) with (String c (s1 +:+ s2)). cbn. by rewrite IH.
Qed.

Lemma trim_empty (s : string) : Js.trim s = "" <-> has_nonspace s = false.
Proof.
  unfold Js.trim, has_nonspace, Js.trimStart.
  rewrite negb_false_iff, bool_decide_eq_true, !string_of_list_ascii_nil. split.
  - apply strip_reverse_nil. apply strip_done; [apply white_space_nonempty | done].
  - by intros ->.
Qed.

(** A byte that is part of no white space character survives [trim]. *)
Lemma trim_anchor (b : ascii) (s1 s2 : string) :
  Forall (fun p => b ∉ p) Js.white_space ->
  Js.trim (s1 +:+ String b s2) <> "".
Proof.
  intros Hb. unfold Js.trim. rewrite string_of_list_ascii_nil, list_ascii_of_string_app.
  cbn [list_ascii_of_string]. unfold Js.trimStart_bytes.
  destruct (strip_anchor Js.white_space (length (list_ascii_of_string s1 ++
                                                   b :: list_ascii_of_string s2))
              b (list_ascii_of_string s1) (list_ascii_of_string s2) Hb) as [pre' ->].
  unfold Js.trimEnd_bytes. rewrite reverse_app, reverse_cons, <- app_assoc.
  change ([b] ++ reverse pre') with (b :: reverse pre').
  destruct (strip_anchor (reverse <$> Js.white_space)
              (length (pre' ++ b :: list_ascii_of_string s2))
              b (reverse (list_ascii_of_string s2)) (reverse pre')) as [pre'' ->].
  - apply Forall_fmap. eapply Forall_impl; [exact Hb|]. intros p Hp.
    unfold compose. by rewrite elem_of_reverse.
  - intros H. apply (f_equal length) in H.
    rewrite length_reverse, length_app in H. cbn in H. lia.
Qed.

Lemma blank_iff (name : string) : blank name = true <-> has_nonspace name = false.
Proof.
  unfold blank. rewrite orb_true_iff, !bool_decide_eq_true, trim_empty.
  split; [intros [->|H]; done | auto].
Qed.

Lemma split_on_no_space (s : string) : no_space s = true -> split_on " " s = [s].
Proof.
  induction s as [|c s IH]; [done|]. simpl. intros H.
  apply andb_true_iff in H as [Hc Hs]. apply negb_true_iff, bool_decide_eq_false in Hc.
  rewrite decide_False by done. by rewrite (IH Hs).
Qed.

Lemma split_on_first (s rest : string) :
  no_space s = true -> split_on " " (s +:+ " " +:+ rest) = s :: split_on " " rest.
Proof.
  induction s as [|c s IH]; [done|]. intros H. simpl in H.
  apply andb_true_iff in H as [Hc Hs]. apply negb_true_iff, bool_decide_eq_false in Hc.
  change (String c s +:+ " " +:+ rest) with (String c (s +:+ " " +:+ rest)).
  cbn [split_on]. rewrite decide_False by done. by rewrite (IH Hs).
Qed.

Lemma startsWith_app (needle s rest : string) :
  Js.startsWith needle s = true -> Js.startsWith needle (s +:+ rest) = true.
Proof.
  revert s. induction needle as [|a needle IH]; intros s; [done|].
  destruct s as [|b s]; [done|].
  change (String b s +:+ rest) with (String b (s +:+ rest)). simpl.
  intros H. apply andb_true_iff in H as [-> H]. simpl. by apply IH.
Qed.

(** The usual header: the word "Bearer", one space, the token. *)
Lemma bearer_token_usual (tok : string) :
  no_space tok = true -> bearer_token (Some ("Bearer " +:+ tok)) = Some tok.
Proof.
  intros Htok. unfold bearer_token.
  change ("Bearer " +:+ tok) with ("Bearer" +:+ " " +:+ tok).
  rewrite (startsWith_app "Bearer" "Bearer" _ eq_refl), split_on_first by done.
  by rewrite split_on_no_space.
Qed.

(** X5: the token the server reads from the [authorization] header is
    the second of the header's pieces at single spaces, whenever the first
    piece starts with "Bearer" - be it "Bearer" or a longer word - and
    whatever follows the token; a header whose first word does not start
    with "Bearer" (say in lower case), or no header, yields no token, and
    two spaces after "Bearer" yield the empty token, which counts as
    none. *)
Theorem bearer_token_read (scheme tok : string) :
  no_space scheme = true -> no_space tok = true ->
  Js.startsWith "Bearer" scheme = true ->
  bearer_token (Some (scheme +:+ " " +:+ tok)) = Some tok /\
  (forall rest, bearer_token (Some (scheme +:+ " " +:+ tok +:+ " " +:+ rest)) = Some tok) /\
  bearer_token (Some (scheme +:+ " " +:+ " " +:+ tok)) = Some "" /\
  bearer_token (Some scheme) = None /\
  bearer_token None = None /\
  (forall header, Js.startsWith "Bearer" header = false -> bearer_token (Some header) = None).
Proof.
  intros Hscheme Htok Hbearer. unfold bearer_token.
  split; [|split; [|split; [|split; [|split]]]].
  - rewrite (startsWith_app _ _ _ Hbearer), split_on_first by done.
    by rewrite split_on_no_space.
  - intros rest. rewrite (startsWith_app _ _ _ Hbearer), !split_on_first by done. done.
  - rewrite (startsWith_app _ _ _ Hbearer), split_on_first by done.
    change (" " +:+ tok) with (String " " tok). cbn [split_on].
    rewrite decide_True by done. done.
  - rewrite Hbearer. by rewrite split_on_no_space.
  - done.
  - by intros header ->.
Qed.

Lemma bearer_token_read_witness :
  bearer_token (Some "Bearer abc.def") = Some "abc.def" /\
  bearer_token (Some "BearerOfNews abc.def") = Some "abc.def" /\
  bearer_token (Some "Bearer  abc.def") = Some "" /\
  bearer_token (Some "bearer abc.def") = None.
Proof.
  destruct (bearer_token_read "Bearer" "abc.def" eq_refl eq_refl eq_refl)
    as (H1 & _ & H3 & _ & _ & H6).
  destruct (bearer_token_read "BearerOfNews" "abc.def" eq_refl eq_refl eq_refl)
    as (H1' & _).
  split; [exact H1|]. split; [exact H1'|]. split; [exact H3|]. by apply H6.
Defined.

(** ** Accounts *)

Lemma find_app_none {A} (p : A -> bool) (l1 l2 : list A) :
  List.find p l1 = None -> List.find p (l1 ++ l2) = List.find p l2.
Proof.
  induction l1 as [|x l1 IH]; [done|]. simpl. destruct (p x); [done | exact IH].
Qed.

Section AuthFacts.

Context {condition : Type}.
Variable cond_holds : condition -> option value -> bool.
Variable bson_leb : option value -> option value -> bool.
Variable bcrypt_hash : string -> string.
Variable bcrypt_compare : string -> string -> bool.
Variable jwt_sign : TokenPayload -> string.
Variable jwt_verify : string -> option TokenPayload.

(** X6: a request without a usable token is served by no data resolver.
    When the header yields no token or the empty token, when [jwt.verify]
    throws on the token, or when no user has the id the token names, each
    of the nine mutations and of the five queries throws
    [AuthenticationError] and the store is not written. *)
Theorem unauthenticated_requests_refused (authorization : option string)
    (s : Accounts) (w : World) :
  bearer_token authorization = None \/ bearer_token authorization = Some "" \/
  (exists tok, bearer_token authorization = Some tok /\
     (jwt_verify tok = None \/
      exists p, jwt_verify tok = Some p /\ User_findById (tp_id p) s = None)) ->
  let context := server_context jwt_verify authorization s in
  (forall call, exists msg,
     Mutation_call call context w = (Throw (AuthenticationError msg), w)) /\
  (exists msg, Query_databases context w = (Throw (AuthenticationError msg), w)) /\
  (forall id, exists msg,
     Query_database id context w = (Throw (AuthenticationError msg), w)) /\
  (forall databaseId filter sort page limit search, exists msg,
     Query_records cond_holds bson_leb databaseId filter sort page limit search context w
       = (Throw (AuthenticationError msg), w)) /\
  (forall id, exists msg,
     Query_record id context w = (Throw (AuthenticationError msg), w)) /\
  (forall limit page, exists msg,
     Query_activityLogs limit page context w = (Throw (AuthenticationError msg), w)).
Proof.
  intros Hno context.
  assert (user context = None) as Huser.
  { subst context. unfold server_context.
    destruct Hno as [->|[->|(tok & -> & Htok)]]; [done..|].
    destruct tok as [|c tok]; [done|].
    destruct Htok as [->|(p & -> & Hp)]; [done|]. cbn [user]. by rewrite Hp. }
  destruct context as [[u|]]; [discriminate|]. clear.
  split; [intros []; eexists; reflexivity|].
  repeat split; intros; eexists; reflexivity.
Qed.

(** X7: the role and the tenant of a caller come from the user document,
    not from the token.  A token that verifies and names the id of a
    stored user gives the context that user's stored tenant and role,
    whatever role and tenant the token itself carries; so a user whose
    stored role is not Admin is refused [createDatabase] even with a
    token that says Admin. *)
Theorem context_takes_role_from_store (authorization : option string)
    (tok : string) (payload : TokenPayload) (d : UserDoc) (s : Accounts) :
  bearer_token authorization = Some tok -> tok <> "" ->
  jwt_verify tok = Some payload ->
  User_findById (tp_id payload) s = Some d ->
  server_context jwt_verify authorization s =
    mkContext (Some (mkUser (ud_id d) (ud_tenantId d) (ud_role d))) /\
  (ud_role d <> Admin ->
   forall name w,
     Mutation_createDatabase name (server_context jwt_verify authorization s) w =
       (Throw (ForbiddenError
                 "You are not authorized to perform this action. Admin role required."),
        w)).
Proof.
  intros Hbearer Hne Hverify Hfind.
  assert (server_context jwt_verify authorization s =
            mkContext (Some (mkUser (ud_id d) (ud_tenantId d) (ud_role d)))) as Hctx.
  { unfold server_context. rewrite Hbearer.
    destruct tok as [|c tok]; [done|]. by rewrite Hverify, Hfind. }
  split; [done|]. intros Hrole name w. rewrite Hctx.
  unfold Mutation_createDatabase. cbn [user].
  rewrite isAdmin_false by done. done.
Qed.

Lemma no_user_with_email (email : string) (s : Accounts) :
  (forall d, d ∈ users s -> ud_email d <> email) ->
  List.find (fun d => bool_decide (ud_email d = email)) (users s) = None.
Proof.
  intros H. apply find_none_iff. intros d Hd. by apply bool_decide_eq_false, H.
Qed.

(** X8: [signup] refuses without writing: with an empty username, email
    or password it throws [UserInputError] "Please provide username,
    email, and password."; with all three given and a user already
    registered under the email it throws [UserInputError] "User with this
    email already exists."; neither creates a tenant or a user. *)
Theorem signup_refusals (username email password : string) (s : Accounts) :
  (username = "" \/ email = "" \/ password = "" ->
   Mutation_signup bcrypt_hash jwt_sign username email password s =
     (Throw (UserInputError "Please provide username, email, and password."), s)) /\
  (username <> "" -> email <> "" -> password <> "" ->
   (exists d, d ∈ users s /\ ud_email d = email) ->
   Mutation_signup bcrypt_hash jwt_sign username email password s =
     (Throw (UserInputError "User with this email already exists."), s)).
Proof.
  unfold Mutation_signup. split.
  - intros H.
    assert (bool_decide (username = "") || bool_decide (email = "")
            || bool_decide (password = "") = true) as ->; [|done].
    rewrite !orb_true_iff, !bool_decide_eq_true.
    destruct H as [H|[H|H]]; [left; left | left; right | right]; exact H.
  - intros Hu He Hp (d & Hd & Hemail).
    rewrite !bool_decide_eq_false_2 by done. cbn [orb].
    unfold mbind, MA_bind, User_findOne_email.
    destruct (List.find _ (users s)) as [d'|] eqn:Hfind; [done|].
    exfalso. pose proof (proj1 (find_none_iff _ _) Hfind d Hd) as Hnone.
    by apply bool_decide_eq_false in Hnone.
Qed.

Lemma workspace_name_not_empty (username : string) :
  Js.trim (username +:+ "'s Workspace") <> "".
Proof.
  apply (trim_anchor "'" username "s Workspace").
  apply Forall_forall. intros p Hp Hin. unfold Js.white_space, Js.bytes in Hp.
  cbn in Hp. repeat (apply elem_of_cons in Hp as [->|Hp];
                     [repeat (apply elem_of_cons in Hin as [Hin|Hin]; [done|]);
                      by apply elem_of_nil in Hin|]).
  by apply elem_of_nil in Hp.
Qed.

Lemma tenant_name_free (name : string) (s : Accounts) :
  (forall t, t ∈ tenants s -> t_name t <> name) ->
  existsb (fun t' => bool_decide (t_name t' = name)) (tenants s) = false.
Proof.
  intros H. apply not_true_is_false. intros Hex.
  apply existsb_true_iff in Hex as (t & Ht & Heq).
  apply bool_decide_eq_true in Heq. by apply (H t).
Qed.

(** X9: a successful [signup].  With the three arguments given, no user
    under the email or the username, no tenant under the workspace name
    and a hash that is not empty, [signup] appends one tenant, named
    after the user ("<username>'s Workspace", trimmed), and one user: the
    Admin of that tenant, stored with the hash of the password; the token
    it returns is signed over that user's id, role and tenant. *)
Theorem signup_creates_tenant_and_admin (username email password : string)
    (s : Accounts) :
  username <> "" -> email <> "" -> password <> "" ->
  (forall d, d ∈ users s -> ud_email d <> email /\ ud_username d <> username) ->
  (forall t, t ∈ tenants s -> t_name t <> Js.trim (username +:+ "'s Workspace")) ->
  bcrypt_hash password <> "" ->
  let newTenant := signup_tenant username s in
  let newUser := signup_user bcrypt_hash username email password s in
  Mutation_signup bcrypt_hash jwt_sign username email password s =
    (Return (mkAuthPayload
               (jwt_sign (mkPayload (ud_id newUser) Admin (t_id newTenant))) newUser),
     mkAccounts (tenants s ++ [newTenant]) (users s ++ [newUser])
                (N.succ (N.succ (acc_nextId s))) (acc_now s)).
Proof.
  intros Hu He Hp Husers Htenants Hhash newTenant newUser.
  unfold Mutation_signup.
  rewrite !bool_decide_eq_false_2 by done. cbn [orb].
  unfold mbind, MA_bind, User_findOne_email.
  rewrite no_user_with_email by (intros d Hd; by apply Husers).
  unfold new_Tenant, Tenant_save. cbn [t_name tenants users acc_nextId acc_now].
  rewrite decide_False by apply workspace_name_not_empty.
  rewrite tenant_name_free by done.
  unfold new_User, User_save.
  cbn [ud_username ud_email ud_password tenants users acc_nextId acc_now t_id].
  rewrite !decide_False by done.
  assert (existsb (fun d' => bool_decide (ud_username d' = username)
                             || bool_decide (ud_email d' = email)) (users s) = false)
    as ->; [|done].
  apply not_true_is_false. intros Hex.
  apply existsb_true_iff in Hex as (d & Hd & Heq).
  destruct (Husers d Hd) as [H1 H2].
  apply orb_true_iff in Heq as [Heq|Heq]; apply bool_decide_eq_true in Heq; done.
Qed.

(** X10: the two saves of [signup] are not one unit.  When the email is
    new and the workspace name is free but a stored user already has the
    username, the tenant is saved, the save of the user hits the unique
    index, [signup] throws the store's duplicate-key error 11000, and the
    tenant stays behind without a user. *)
Theorem signup_leaves_orphan_tenant (username email password : string)
    (s : Accounts) :
  username <> "" -> email <> "" -> password <> "" ->
  (forall d, d ∈ users s -> ud_email d <> email) ->
  (exists d, d ∈ users s /\ ud_username d = username) ->
  (forall t, t ∈ tenants s -> t_name t <> Js.trim (username +:+ "'s Workspace")) ->
  bcrypt_hash password <> "" ->
  exists s',
    Mutation_signup bcrypt_hash jwt_sign username email password s = (Throw (MongoServerError 11000), s') /\
    tenants s' = tenants s ++ [signup_tenant username s] /\
    users s' = users s.
Proof.
  intros Hu He Hp Hemail (d & Hd & Hname) Htenants Hhash.
  unfold Mutation_signup.
  rewrite !bool_decide_eq_false_2 by done. cbn [orb].
  unfold mbind, MA_bind, User_findOne_email.
  rewrite no_user_with_email by done.
  unfold new_Tenant, Tenant_save. cbn [t_name tenants users acc_nextId acc_now].
  rewrite decide_False by apply workspace_name_not_empty.
  rewrite tenant_name_free by done.
  unfold new_User, User_save.
  cbn [ud_username ud_email ud_password tenants users acc_nextId acc_now t_id].
  rewrite !decide_False by done.
  assert (existsb (fun d' => bool_decide (ud_username d' = username)
                             || bool_decide (ud_email d' = email)) (users s) = true)
    as ->.
  { apply existsb_true_iff. exists d. split; [done|].
    apply orb_true_iff. left. by apply bool_decide_eq_true. }
  eexists. split; [reflexivity|]. done.
Qed.

(** X11: [login] tells an unknown email from a wrong password.  Both
    failures throw [UserInputError] and write nothing, but under an
    unknown email the message is "Invalid Credentials" and under a known
    email with a password that does not match it is "Invalid credentials":
    the two differ in the case of one letter. *)
Theorem login_failures (email password : string) (s : Accounts) :
  ((forall d, d ∈ users s -> ud_email d <> email) ->
   Mutation_login bcrypt_compare jwt_sign email password s =
     (Throw (UserInputError "Invalid Credentials"), s)) /\
  (forall d,
     List.find (fun d => bool_decide (ud_email d = email)) (users s) = Some d ->
     bcrypt_compare password (ud_password d) = false ->
     Mutation_login bcrypt_compare jwt_sign email password s =
       (Throw (UserInputError "Invalid credentials"), s)) /\
  UserInputError "Invalid Credentials" <> UserInputError "Invalid credentials".
Proof.
  unfold Mutation_login, mbind, MA_bind, User_findOne_email.
  split; [|split].
  - intros H. by rewrite no_user_with_email.
  - intros d -> Hcmp. by rewrite Hcmp.
  - discriminate.
Qed.

(** X12: who signed up can log in.  After a [signup] that returned, a
    [login] with the same email and password - the password comparing
    equal to its own hash - returns the user [signup] created, with a
    token signed over the same id, role and tenant, and writes nothing. *)
Theorem signup_then_login (username email password : string) (s s' : Accounts)
    (a : AuthPayload) :
  Mutation_signup bcrypt_hash jwt_sign username email password s = (Return a, s') ->
  bcrypt_compare password (bcrypt_hash password) = true ->
  Mutation_login bcrypt_compare jwt_sign email password s' =
    (Return (mkAuthPayload
               (jwt_sign (mkPayload (ud_id (auth_user a)) Admin
                                    (ud_tenantId (auth_user a))))
               (auth_user a)), s') /\
  ud_role (auth_user a) = Admin /\ ud_email (auth_user a) = email.
Proof.
  unfold Mutation_signup, Mutation_login.
  destruct (_ || _); [done|].
  unfold mbind, MA_bind, User_findOne_email.
  destruct (List.find _ (users s)) as [d|] eqn:Hfind; [done|].
  unfold new_Tenant, Tenant_save. cbn [t_name tenants users acc_nextId acc_now].
  destruct (decide _); [done|]. destruct (existsb _ (tenants s)); [done|].
  unfold new_User, User_save.
  cbn [ud_username ud_email ud_password tenants users acc_nextId acc_now t_id].
  repeat (destruct (decide _); [done|]). destruct (existsb _ (users s)); [done|].
  intros [= <- <-] Hcmp. cbn [users auth_user ud_id ud_tenantId ud_role ud_email].
  rewrite (find_app_none _ _ _ Hfind). cbn [List.find ud_email].
  rewrite bool_decide_eq_true_2 by done. cbn [ud_password]. by rewrite Hcmp.
Qed.

(** X13: the token of a [signup] opens the tenant it created.  When the
    token [signup] returned is sent back as "Bearer <token>" and verifies
    to the payload it was signed over, the server's context for the
    request carries the new user as the Admin of the new tenant (user ids
    unique in the accounts; a token has no space in it). *)
Theorem signup_token_authenticates (username email password : string)
    (s s' : Accounts) (a : AuthPayload) :
  accounts_ids_unique s ->
  Mutation_signup bcrypt_hash jwt_sign username email password s = (Return a, s') ->
  no_space (token a) = true -> token a <> "" ->
  jwt_verify (token a) =
    Some (mkPayload (ud_id (auth_user a)) Admin (ud_tenantId (auth_user a))) ->
  server_context jwt_verify (Some ("Bearer " +:+ token a)) s' =
    mkContext (Some (mkUser (ud_id (auth_user a)) (ud_tenantId (auth_user a)) Admin)) /\
  t_id <$> tenants s' = (t_id <$> tenants s) ++ [ud_tenantId (auth_user a)].
Proof.
  intros [_ Hbound]. unfold Mutation_signup.
  destruct (_ || _); [done|].
  unfold mbind, MA_bind, User_findOne_email.
  destruct (List.find _ (users s)) as [d|] eqn:Hfind; [done|].
  unfold new_Tenant, Tenant_save. cbn [t_name tenants users acc_nextId acc_now].
  destruct (decide _); [done|]. destruct (existsb _ (tenants s)); [done|].
  unfold new_User, User_save.
  cbn [ud_username ud_email ud_password tenants users acc_nextId acc_now t_id].
  repeat (destruct (decide _); [done|]). destruct (existsb _ (users s)); [done|].
  intros [= <- <-]. cbn [token auth_user ud_id ud_tenantId tenants].
  intros Hns Hne Hverify. split; [|by rewrite fmap_app].
  unfold server_context.
  rewrite (bearer_token_usual _ Hns).
  destruct (jwt_sign _) as [|c tok] eqn:Htok; [done|]. rewrite Hverify.
  unfold User_findById. cbn [tp_id users].
  rewrite find_app_none.
  - cbn [List.find ud_id]. by rewrite bool_decide_eq_true_2.
  - apply find_none_iff. intros d Hd. apply bool_decide_eq_false.
    specialize (Hbound d Hd). lia.
Qed.

End AuthFacts.

Lemma accounts_ids_unique_example : accounts_ids_unique Example.accounts.
Proof.
  split.
  - repeat constructor. intros H. by apply elem_of_nil in H.
  - intros d Hd. apply elem_of_cons in Hd as [->|Hd]; [by vm_compute|].
    by apply elem_of_nil in Hd.
Qed.

Lemma unauthenticated_requests_refused_witness :
  exists msg,
    Mutation_call (DeleteRecord 150)
                  (server_context Example.verify (Some "Basic YWxpY2U6cHc=") Example.accounts)
                  Example.world
    = (Throw (AuthenticationError msg), Example.world).
Proof.
  destruct (unauthenticated_requests_refused Example.literal_holds Example.any_order
              Example.verify (Some "Basic YWxpY2U6cHc=") Example.accounts Example.world)
    as [H _]; [by left|].
  exact (H (DeleteRecord 150)).
Defined.

(** Carol is stored as a Viewer; a token that says Admin does not help. *)
Lemma context_takes_role_from_store_witness :
  Example.verify "Aiiiiiii." = Some (mkPayload 7 Admin 0) /\
  server_context Example.verify (Some "Bearer Aiiiiiii.") Example.accounts =
    mkContext (Some (mkUser 7 70 Viewer)) /\
  Mutation_createDatabase "Plans"
    (server_context Example.verify (Some "Bearer Aiiiiiii.") Example.accounts) Example.world
  = (Throw (ForbiddenError
              "You are not authorized to perform this action. Admin role required."),
     Example.world).
Proof.
  split; [reflexivity|].
  destruct (context_takes_role_from_store Example.verify (Some "Bearer Aiiiiiii.")
              "Aiiiiiii." (mkPayload 7 Admin 0) Example.carol Example.accounts
              eq_refl ltac:(done) eq_refl eq_refl) as [Hctx Hforbidden].
  split; [exact Hctx|]. by apply Hforbidden.
Defined.

Lemma signup_refusals_witness :
  Mutation_signup Example.hash Example.sign "" "dave@example.com" "pw" Example.accounts =
    (Throw (UserInputError "Please provide username, email, and password."),
     Example.accounts) /\
  Mutation_signup Example.hash Example.sign "dave" "carol@example.com" "pw"
                  Example.accounts =
    (Throw (UserInputError "User with this email already exists."), Example.accounts).
Proof.
  destruct (signup_refusals Example.hash Example.sign "" "dave@example.com" "pw"
              Example.accounts) as [H1 _].
  destruct (signup_refusals Example.hash Example.sign "dave" "carol@example.com" "pw"
              Example.accounts) as [_ H2].
  split; [by apply H1; left|].
  apply H2; [done..|]. exists Example.carol. split; [left | done].
Defined.

Lemma signup_creates_tenant_and_admin_witness :
  Mutation_signup Example.hash Example.sign "dave" "dave@example.com" "pw"
                  Example.accounts =
    (Return (mkAuthPayload
               (Example.sign (mkPayload 101 Admin 100))
               (mkUserDoc 101 100 "dave" "dave@example.com" "hashed:pw" Admin 5)),
     mkAccounts (tenants Example.accounts ++ [mkTenant 100 "dave's Workspace" "Free" 5])
                (users Example.accounts
                   ++ [mkUserDoc 101 100 "dave" "dave@example.com" "hashed:pw" Admin 5])
                102 5).
Proof.
  apply (signup_creates_tenant_and_admin Example.hash Example.sign "dave"
           "dave@example.com" "pw" Example.accounts); try done.
  - intros d Hd. apply elem_of_cons in Hd as [->|Hd]; [done|]. by apply elem_of_nil in Hd.
  - intros t Ht. apply elem_of_cons in Ht as [->|Ht]; [done|]. by apply elem_of_nil in Ht.
Defined.

Lemma signup_leaves_orphan_tenant_witness :
  exists s',
    Mutation_signup Example.hash Example.sign "carol" "c2@example.com" "pw"
      (mkAccounts [] [Example.carol] 100 5) = (Throw (MongoServerError 11000), s') /\
    tenants s' = [mkTenant 100 "carol's Workspace" "Free" 5] /\
    users s' = [Example.carol].
Proof.
  assert (forall d, d ∈ [Example.carol] -> ud_email d <> "c2@example.com") as Hemail.
  { intros d Hd. apply elem_of_cons in Hd as [->|Hd]; [done|]. by apply elem_of_nil in Hd. }
  assert (exists d, d ∈ [Example.carol] /\ ud_username d = "carol") as Hname.
  { exists Example.carol. split; [left | done]. }
  assert (forall t : Tenant, t ∈ [] -> t_name t <> Js.trim ("carol" +:+ "'s Workspace"))
    as Hfree.
  { intros t Ht. by apply elem_of_nil in Ht. }
  destruct (signup_leaves_orphan_tenant Example.hash Example.sign "carol"
              "c2@example.com" "pw" (mkAccounts [] [Example.carol] 100 5)
              ltac:(done) ltac:(done) ltac:(done) Hemail Hname Hfree ltac:(done))
    as (s' & Hrun & Htenants & Husers).
  exists s'. split; [exact Hrun|]. split; [exact Htenants | exact Husers].
Defined.

Lemma login_failures_witness :
  Mutation_login Example.compare Example.sign "nobody@example.com" "pw" Example.accounts =
    (Throw (UserInputError "Invalid Credentials"), Example.accounts) /\
  Mutation_login Example.compare Example.sign "carol@example.com" "wrong" Example.accounts =
    (Throw (UserInputError "Invalid credentials"), Example.accounts).
Proof.
  destruct (login_failures Example.compare Example.sign "nobody@example.com" "pw"
              Example.accounts) as (H1 & _).
  destruct (login_failures Example.compare Example.sign "carol@example.com" "wrong"
              Example.accounts) as (_ & H2 & _).
  split.
  - apply H1. intros d Hd.
    apply elem_of_cons in Hd as [->|Hd]; [done|]. by apply elem_of_nil in Hd.
  - by apply (H2 Example.carol).
Defined.

Lemma signup_then_login_witness :
  let run := Mutation_signup Example.hash Example.sign "dave" "dave@example.com" "pw"
                             Example.accounts in
  exists a, run.1 = Return a /\
    Mutation_login Example.compare Example.sign "dave@example.com" "pw" run.2 =
      (Return (mkAuthPayload (Example.sign (mkPayload 101 Admin 100)) (auth_user a)),
       run.2).
Proof.
  intros run. eexists. split; [reflexivity|].
  destruct (signup_then_login Example.hash Example.compare Example.sign "dave"
              "dave@example.com" "pw" Example.accounts run.2 _ eq_refl eq_refl)
    as [Hlogin _].
  exact Hlogin.
Defined.

Lemma signup_token_authenticates_witness :
  let run := Mutation_signup Example.hash Example.sign "dave" "dave@example.com" "pw"
                             Example.accounts in
  server_context Example.verify
    (Some ("Bearer " +:+ Example.sign (mkPayload 101 Admin 100))) run.2
  = mkContext (Some (mkUser 101 100 Admin)).
Proof.
  intros run.
  destruct (signup_token_authenticates Example.hash Example.sign Example.verify "dave"
              "dave@example.com" "pw" Example.accounts run.2 _
              accounts_ids_unique_example eq_refl eq_refl ltac:(done) eq_refl)
    as [Hctx _].
  exact Hctx.
Defined.

(** ** Creating, reading and soft-deleting *)

Lemma name_taken_true (d : DatabaseDefinition) (ds : list DatabaseDefinition) :
  name_taken d ds = true <->
  exists d', d' ∈ ds /\ db_tenantId d' = db_tenantId d /\ db_name d' = db_name d /\
             db_id d' <> db_id d.
Proof.
  unfold name_taken. rewrite existsb_true_iff.
  setoid_rewrite andb_true_iff. setoid_rewrite andb_true_iff.
  setoid_rewrite negb_true_iff. setoid_rewrite bool_decide_eq_true.
  setoid_rewrite bool_decide_eq_false.
  split; intros (d' & Hd' & H); exists d'; (split; [exact Hd'|]); tauto.
Qed.

Lemma isNew_fresh (d : DatabaseDefinition) (ds : list DatabaseDefinition) :
  db_id d ∉ db_id <$> ds -> isNew d ds = true.
Proof.
  intros Hfresh. unfold isNew. apply negb_true_iff, not_true_is_false. intros Hex.
  apply existsb_true_iff in Hex as (d' & Hd' & Heq). apply bool_decide_eq_true in Heq.
  apply Hfresh. rewrite <- Heq. by apply list_elem_of_fmap_2.
Qed.

Lemma has_nonspace_not_blank (name : string) :
  has_nonspace name = true -> blank name = false.
Proof.
  intros H. apply not_true_is_false. intros Hb. apply blank_iff in Hb. congruence.
Qed.

(** A name made of no-break spaces is blank: both mutations that take a
    name refuse it as empty. *)
Lemma no_break_space_blank :
  blank Example.nbsp = true /\
  Js.trim (" " +:+ Example.nbsp +:+ "Plan" +:+ Example.nbsp) = "Plan" /\
  Mutation_createDatabase Example.nbsp (mkContext (Some Example.alice)) Example.world =
    (Throw (UserInputError "Database name cannot be empty."), Example.world) /\
  Mutation_updateDatabase 200 Example.nbsp (mkContext (Some Example.alice)) Example.world =
    (Throw (UserInputError "Database name cannot be empty."), Example.world).
Proof. by vm_compute. Qed.

(** X14: the names [createDatabase] refuses.  For an Admin: a name made
    of white space only (or empty) is refused with [UserInputError]
    "Database name cannot be empty." and nothing is written; a name that,
    trimmed, is exactly the name of a database of the caller's tenant -
    be that database soft-deleted - is refused with [UserInputError] "A
    database with this name already exists in your tenant.", and no
    database, record or log entry is written (ids unique in the store). *)
Theorem createDatabase_refusals (name : string) (u : User) (w : World) :
  u_role u = Admin ->
  (has_nonspace name = false ->
   Mutation_createDatabase name (mkContext (Some u)) w =
     (Throw (UserInputError "Database name cannot be empty."), w)) /\
  (has_nonspace name = true -> ids_unique w ->
   (exists d, d ∈ databases w /\ db_tenantId d = u_tenantId u /\
              db_name d = Js.trim name) ->
   exists w',
     Mutation_createDatabase name (mkContext (Some u)) w =
       (Throw (UserInputError "A database with this name already exists in your tenant."),
        w') /\
     databases w' = databases w /\ records w' = records w /\
     activityLogs w' = activityLogs w).
Proof.
  intros Hadmin. unfold Mutation_createDatabase. cbn [user].
  rewrite (isAdmin_true u Hadmin). cbn [negb]. split.
  - intros Hblank. by rewrite (proj2 (blank_iff name) Hblank).
  - intros Hname (_ & _ & Hdn & _) (d & Hd & Hten & Hdname).
    rewrite (has_nonspace_not_blank name Hname).
    unfold_M. unfold new_DatabaseDefinition, DatabaseDefinition_save. unfold_M.
    world_fields. unfold validateDatabase. cbn [db_name db_fields validateFields].
    rewrite decide_False by (intros H; apply trim_empty in H; congruence).
    rewrite isNew_fresh by (by apply ids_below).
    assert (name_taken (mkDatabase (nextId w) (u_tenantId u) (Js.trim name) [] false (now w))
                       (databases w) = true) as ->.
    { apply name_taken_true. exists d. cbn. repeat split; try done.
      specialize (Hdn d Hd). lia. }
    cbn [andb]. rewrite decide_True by done. eexists. split; [reflexivity|]. done.
Qed.

Lemma createDatabase_refusals_witness :
  Mutation_createDatabase "   " (mkContext (Some Example.alice)) Example.world =
    (Throw (UserInputError "Database name cannot be empty."), Example.world) /\
  exists w',
    Mutation_createDatabase " Archive " (mkContext (Some Example.alice)) Example.world =
      (Throw (UserInputError "A database with this name already exists in your tenant."),
       w') /\
    databases w' = databases Example.world.
Proof.
  destruct (createDatabase_refusals "   " Example.alice Example.world eq_refl) as [H1 _].
  destruct (createDatabase_refusals " Archive " Example.alice Example.world eq_refl)
    as [_ H2].
  split; [by apply H1|].
  destruct (H2 eq_refl ids_unique_example) as (w' & Hrun & Hdbs & _).
  - exists Example.archive. split; [right; left | done].
  - exists w'. split; [exact Hrun | exact Hdbs].
Defined.

(** X15: a database created can be read back.  For an Admin, a name with
    a character that is not white space and no database of the caller's
    tenant under the trimmed name - a database of another tenant, or one
    whose name differs in case only, does not count - [createDatabase]
    appends a live database without fields under the trimmed name, and
    then [database(id)] returns exactly that database and [databases]
    lists it last (ids unique in the store, the audit entry written). *)
Theorem createDatabase_then_read (name : string) (u : User) (w : World) :
  u_role u = Admin -> has_nonspace name = true -> ids_unique w -> auditUp w = true ->
  (forall d, d ∈ databases w -> db_tenantId d = u_tenantId u ->
             db_name d <> Js.trim name) ->
  let created := mkDatabase (nextId w) (u_tenantId u) (Js.trim name) [] false (now w) in
  exists w',
    Mutation_createDatabase name (mkContext (Some u)) w = (Return created, w') /\
    databases w' = databases w ++ [created] /\
    Query_database (db_id created) (mkContext (Some u)) w' = (Return created, w') /\
    (forall listed,
       Query_databases (mkContext (Some u)) w = (Return listed, w) ->
       Query_databases (mkContext (Some u)) w' = (Return (listed ++ [created]), w')).
Proof.
  intros Hadmin Hname (Hnd & _ & Hdn & _) Hup Hfree created.
  pose proof (ids_below db_id _ _ Hdn) as Hfresh.
  unfold Mutation_createDatabase. cbn [user].
  rewrite (isAdmin_true u Hadmin), (has_nonspace_not_blank name Hname). cbn [negb].
  unfold_M. unfold new_DatabaseDefinition, DatabaseDefinition_save, ActivityLog_create.
  unfold_M. world_fields. unfold validateDatabase. cbn [db_name db_fields validateFields].
  rewrite decide_False by (intros H; apply trim_empty in H; congruence).
  fold created.
  assert (name_taken created (databases w) = false) as ->.
  { apply not_true_is_false. intros H.
    apply name_taken_true in H as (d & Hd & Hten & Hdname & _). by apply (Hfree d). }
  rewrite andb_false_r. unfold with_databases. world_fields. rewrite Hup.
  rewrite (upsert_fresh db_id created _ Hfresh).
  eexists. split; [reflexivity|]. cbn [databases]. split; [done|].
  unfold Query_database, Query_databases, DatabaseDefinition_findOne,
    DatabaseDefinition_find. cbn [user]. unfold_M. cbn [databases fst].
  split.
  - rewrite find_app_none.
    + cbn.
      assert (db_matches (mkQuery (Some (nextId w)) (Some (u_tenantId u)) None (Some false))
                created = true) as ->; [|done].
      apply db_matches_true. by repeat split; intros ? [= <-].
    + apply find_none_iff. intros d Hd. apply not_true_is_false. intros Hm.
      apply db_matches_true in Hm as (Hid & _). specialize (Hid _ eq_refl).
      apply Hfresh. cbn in Hid. rewrite <- Hid. by apply list_elem_of_fmap_2.
  - intros listed Hl. injection Hl as <-.
    rewrite List_filter_app. cbn [List.filter].
    assert (db_matches (mkQuery None (Some (u_tenantId u)) None (Some false))
              created = true) as ->; [|done].
    apply db_matches_true. by repeat split; intros ? [= <-].
Qed.

Lemma createDatabase_then_read_witness :
  exists created w',
    Mutation_createDatabase " Leads " (mkContext (Some Example.alice)) Example.world =
      (Return created, w') /\
    db_name created = "Leads" /\
    Query_database (db_id created) (mkContext (Some Example.alice)) w' =
      (Return created, w') /\
    Query_databases (mkContext (Some Example.alice)) w' =
      (Return [Example.tasks; created], w').
Proof.
  destruct (createDatabase_then_read " Leads " Example.alice Example.world
              eq_refl eq_refl ids_unique_example eq_refl)
    as (w' & Hrun & _ & Hone & Hall).
  - intros d Hd Hten Hdname.
    repeat (apply elem_of_cons in Hd as [->|Hd]); try done. by apply elem_of_nil in Hd.
  - eexists _, w'. split; [exact Hrun|]. split; [reflexivity|].
    split; [exact Hone|]. exact (Hall [Example.tasks] eq_refl).
Defined.

(** ** Soft deletion *)

Lemma update_first_by_id {A} (key : A -> ObjectId) (m : A -> bool) (f : A -> A)
    (l : list A) (i : ObjectId) (d : A) :
  NoDup (key <$> l) -> (forall y, m y = true -> key y = i) ->
  List.find m l = Some d ->
  update_first m f l = (fun y => if decide (key y = i) then f d else y) <$> l.
Proof.
  intros Hnd Hm. induction l as [|y l IH]; [done|]. cbn [List.find update_first fmap list_fmap].
  inversion Hnd as [|? ? Hy Hnd']; subst.
  destruct (m y) eqn:Hmy.
  - intros [= ->]. rewrite decide_True by by apply Hm. f_equal.
    symmetry. etrans; [|apply list_fmap_id]. apply list_fmap_ext. intros ? y' Hy'.
    apply list_elem_of_lookup_2 in Hy'. cbn.
    rewrite decide_False; [done|]. intros Heq. apply Hy.
    rewrite (Hm d Hmy), <- Heq. by apply list_elem_of_fmap_2.
  - intros Hfind. rewrite decide_False.
    + f_equal. by apply IH.
    + intros Heq. apply find_some_elem in Hfind as [Hd Hmd].
      apply Hy. rewrite Heq, <- (Hm d Hmd). by apply list_elem_of_fmap_2.
Qed.

Lemma find_fmap_fields (i j : ObjectId) (d' : DatabaseDefinition)
    (l : list DatabaseDefinition) :
  db_id d' = i -> (forall y, y ∈ l -> db_id y = i -> db_fields d' = db_fields y) ->
  db_fields <$> List.find (db_matches (mkQuery (Some j) None None None))
                  ((fun y => if decide (db_id y = i) then d' else y) <$> l) =
  db_fields <$> List.find (db_matches (mkQuery (Some j) None None None)) l.
Proof.
  intros Hid. induction l as [|y l IH]; [done|]. intros Hfields.
  cbn [fmap list_fmap List.find].
  assert (forall x, db_matches (mkQuery (Some j) None None None) x = bool_decide (db_id x = j))
    as Hm.
  { intros x. unfold db_matches, crit. cbn. by rewrite !andb_true_r. }
  rewrite !Hm. destruct (decide (db_id y = i)) as [Hy|Hy].
  - assert (db_id d' = db_id y) as -> by congruence. case_bool_decide.
    + cbn. f_equal. apply Hfields; [left | done].
    + apply IH. intros; apply Hfields; [by right | done].
  - case_bool_decide; [done|]. apply IH.
    intros; apply Hfields; [by right | done].
Qed.

Section ReadsAfterWrites.

Context {condition : Type}.
Variable cond_holds : condition -> option value -> bool.
Variable bson_leb : option value -> option value -> bool.

Lemma records_read_same databaseId (filter : option (entries condition)) sort page limit
    search u (w w' : World) :
  records w' = records w ->
  db_fields <$> List.find (db_matches (mkQuery (Some databaseId) None None None))
                          (databases w') =
  db_fields <$> List.find (db_matches (mkQuery (Some databaseId) None None None))
                          (databases w) ->
  (Query_records cond_holds bson_leb databaseId filter sort page limit search
                 (mkContext (Some u)) w').1 =
  (Query_records cond_holds bson_leb databaseId filter sort page limit search
                 (mkContext (Some u)) w).1.
Proof.
  intros Hrs Hfs. rewrite !records_paginates. cbn [fst].
  unfold records_before_pagination, records_stages, DatabaseDefinition_findById,
    DatabaseDefinition_findOne, Record_aggregate.
  unfold_M.
  destruct search as [[|c s]|]; cbn [fst]; rewrite ?Hrs; try done.
  destruct (List.find _ (databases w')) as [d1|], (List.find _ (databases w)) as [d2|];
    cbn in Hfs; try discriminate Hfs.
  - injection Hfs as Hfs. rewrite Hfs.
    destruct (0 <? length _)%nat; cbn; by rewrite ?Hrs.
  - cbn. by rewrite ?Hrs.
Qed.

(** X16: [deleteDatabase] is a soft delete that does not cascade.  For an
    Admin and a database of the caller's tenant (ids unique in the store,
    the audit entry written) it returns [true]; afterwards [database(id)]
    throws the not-found error, [databases] lists what it listed before
    apart from this database, no record is touched, and every [records]
    query - of this database too - returns what it returned before. *)
Theorem deleteDatabase_soft (id : ObjectId) (u : User) (w : World)
    (d : DatabaseDefinition) :
  u_role u = Admin -> ids_unique w -> auditUp w = true ->
  List.find (db_matches (mkQuery (Some id) (Some (u_tenantId u)) None None))
            (databases w) = Some d ->
  exists w',
    Mutation_deleteDatabase id (mkContext (Some u)) w = (Return true, w') /\
    Query_database id (mkContext (Some u)) w' =
      (Throw (Error "Database not found or you don't have permission to view it."), w') /\
    (forall listed listed',
       Query_databases (mkContext (Some u)) w = (Return listed, w) ->
       Query_databases (mkContext (Some u)) w' = (Return listed', w') ->
       listed' = List.filter (fun x => negb (bool_decide (db_id x = id))) listed) /\
    records w' = records w /\
    (forall databaseId (filter : option (entries condition)) sort page limit search,
       (Query_records cond_holds bson_leb databaseId filter sort page limit search
                      (mkContext (Some u)) w').1 =
       (Query_records cond_holds bson_leb databaseId filter sort page limit search
                      (mkContext (Some u)) w).1).
Proof.
  intros Hadmin (Hnd & _) Hup Hfind.
  pose proof (update_first_by_id db_id
                (db_matches (mkQuery (Some id) (Some (u_tenantId u)) None None))
                (applyDatabaseUpdate (SetIsDeleted true)) _ id d Hnd) as Hupd.
  specialize (Hupd ltac:(by intros y [Hy _]%db_matches_true; apply Hy) Hfind).
  unfold Mutation_deleteDatabase. cbn [user]. rewrite (isAdmin_true u Hadmin). cbn [negb].
  unfold_M. unfold DatabaseDefinition_findOneAndUpdate, ActivityLog_create.
  rewrite Hfind. cbn [touchesName andb]. unfold with_databases. world_fields.
  rewrite Hup, Hupd. eexists. split; [reflexivity|].
  apply find_some_elem in Hfind as [Hd Hmd].
  apply db_matches_true in Hmd as (Hid & Hten & _).
  specialize (Hid _ eq_refl). specialize (Hten _ eq_refl). cbn in Hid, Hten.
  split; [|split; [|split; [done|]]].
  - unfold Query_database, DatabaseDefinition_findOne. cbn [user]. unfold_M.
    cbn [databases].
    match goal with
    | |- context [List.find ?m ?l] => assert (List.find m l = None) as ->; [|done]
    end.
    apply find_none_iff. intros x Hx. apply list_elem_of_fmap in Hx as (y & -> & Hy).
    apply not_true_is_false. intros Hm. apply db_matches_true in Hm as (Hi & _ & Hdel).
    specialize (Hi _ eq_refl). specialize (Hdel _ eq_refl).
    destruct (decide (db_id y = id)); [done|]. by cbn in Hi.
  - intros listed listed'. unfold Query_databases, DatabaseDefinition_find. cbn [user].
    intros [= <-] [= <-]. cbn [databases]. clear Hupd Hd Hnd.
    induction (databases w) as [|y l IH]; [done|].
    cbn [fmap list_fmap List.filter].
    rewrite IH. clear IH.
    destruct (decide (db_id y = id)) as [Hy|Hy].
    + match goal with
      | |- context [db_matches ?q (mkDatabase ?a ?b ?c ?e true ?f)] =>
          assert (db_matches q (mkDatabase a b c e true f) = false) as ->
      end.
      { apply not_true_is_false. intros (_ & _ & Hdel)%db_matches_true.
        by specialize (Hdel _ eq_refl). }
      case_match; [|done]. cbn [List.filter]. by rewrite bool_decide_eq_true_2.
    + case_match; [|done]. cbn [List.filter]. by rewrite bool_decide_eq_false_2.
  - intros. apply records_read_same; [done|]. cbn [databases].
    apply find_fmap_fields; [done|].
    intros y Hy Hyid. by rewrite (same_id_same_doc db_id _ y d Hnd Hy Hd) by congruence.
Qed.

(** What [Query.records] returns was read from the store: each item is a
    stored record that passes the base match, formatted. *)
Lemma records_from_store databaseId (filter : option (entries condition)) sort page limit
    search u w rs w' :
  Query_records cond_holds bson_leb databaseId filter sort page limit search
                (mkContext (Some u)) w = (Return rs, w') ->
  Forall (fun x => exists r, r ∈ records w /\ r_isDeleted r = false /\ x = format r) rs.
Proof.
  rewrite records_paginates. unfold records_before_pagination, Record_aggregate.
  destruct (records_stages_head (condition := condition) databaseId filter sort search u w)
    as [rest Hst].
  unfold_M. rewrite Hst. cbn [fst].
  destruct (runPipeline _ _ _ (records w)) as [docs|] eqn:Hrun; [|done].
  intros [= <- <-].
  pose proof (runPipeline_first_match _ _ _ _ _ _ Hrun) as Hm.
  eapply runPipeline_Forall with (P := fun r => r ∈ records w) in Hrun;
    [|by apply Forall_forall].
  apply Forall_fmap, Forall_take, Forall_drop.
  rewrite Forall_forall in Hm, Hrun |- *. intros r Hr. exists r.
  split; [by apply Hrun|]. split; [|done].
  apply Hm in Hr. apply record_matches_true in Hr as (_ & _ & _ & Hdel).
  by apply Hdel.
Qed.

Lemma find_update_first_same {A} (m : A -> bool) (f : A -> A) (l : list A) (r : A) :
  List.find m l = Some r -> m (f r) = true ->
  List.find m (update_first m f l) = Some (f r).
Proof.
  intros Hfind Hm. induction l as [|y l IH]; [done|]. cbn in Hfind |- *.
  destruct (m y) eqn:Hy.
  - injection Hfind as ->. cbn. by rewrite Hm.
  - cbn. rewrite Hy. by apply IH.
Qed.

(** X17: [deleteRecord] is a soft delete.  For a caller who may edit
    records and a record of the caller's tenant (ids unique in the store,
    the audit entry written) it returns [true] and sets [isDeleted] and
    [updatedAt], leaving the values; afterwards [record(id)] still returns
    the record, flagged as deleted, while no [records] query returns it;
    no database is touched. *)
Theorem deleteRecord_soft (id : ObjectId) (u : User) (w : World) (r : RecordDoc) :
  canEditRecords u = true -> ids_unique w -> auditUp w = true ->
  List.find (record_matches (mkQuery (Some id) (Some (u_tenantId u)) None None))
            (records w) = Some r ->
  exists w',
    Mutation_deleteRecord id (mkContext (Some u)) w = (Return true, w') /\
    Query_record id (mkContext (Some u)) w' =
      (Return (Some (format (mkRecord (r_id r) (r_tenantId r) (r_databaseId r)
                                      (r_values r) true (r_createdAt r) (now w)))),
       w') /\
    databases w' = databases w /\
    (forall databaseId (filter : option (entries condition)) sort page limit search
            listed w'',
       Query_records cond_holds bson_leb databaseId filter sort page limit search
                     (mkContext (Some u)) w' = (Return listed, w'') ->
       forall x, x ∈ listed -> fr_id x <> id).
Proof.
  intros Hedit (_ & Hnd & _) Hup Hfind.
  pose proof (update_first_by_id r_id
                (record_matches (mkQuery (Some id) (Some (u_tenantId u)) None None))
                (setDeleted true (now w)) _ id r Hnd) as Hupd.
  specialize (Hupd ltac:(by intros y [Hy _]%record_matches_true; apply Hy) Hfind).
  pose proof (find_update_first_same _ (setDeleted true (now w)) _ _ Hfind) as Hread.
  unfold Mutation_deleteRecord. cbn [user]. rewrite Hedit. cbn [negb].
  unfold_M. unfold Record_findOneAndUpdate, ActivityLog_create, dateNow.
  rewrite Hfind. unfold with_records. world_fields. rewrite Hup.
  eexists. split; [reflexivity|].
  apply find_some_elem in Hfind as [Hr Hmr].
  split; [|split; [done|]].
  - unfold Query_record, Record_findOne. cbn [user]. unfold_M. cbn [records].
    rewrite Hread; [done|].
    apply record_matches_true in Hmr as (Hid & Hten & _).
    apply record_matches_true. cbn. by repeat split; auto.
  - intros databaseId filter sort page limit search listed w'' Hq x Hx Hxid.
    apply records_from_store in Hq. rewrite Forall_forall in Hq.
    destruct (Hq x Hx) as (y & Hy & Hdel & ->). cbn [records] in Hy.
    rewrite Hupd in Hy. apply list_elem_of_fmap in Hy as (z & -> & Hz).
    destruct (decide (r_id z = id)) as [Hzid|Hzid]; [done|].
    by cbn in Hxid.
Qed.




Lemma Forall_plain_ok {A} (name : A -> string) (l : list A) :
  Forall (fun x => plain_key (name x) = true) l ->
  Forall (fun x => Map_key_ok (name x) = true) l.
Proof.
  intros H. apply Forall_forall. intros x Hx. apply plain_key_ok.
  rewrite Forall_forall in H. by apply H.
Qed.

(** A record built by [createRecord] lists its values as a read does
    when no field name is an array index. *)
Lemma as_read_validated (fields : list FieldDefinition) (values : entries value)
    (id tenantId databaseId : ObjectId) (deleted : bool) (created updated : Z) :
  Forall (fun f => array_index (f_name f) = None) fields ->
  let r := mkRecord id tenantId databaseId (validatedValues fields values)
                    deleted created updated in
  as_read r = r.
Proof.
  intros Hnames r. unfold as_read, r. cbn. f_equal.
  apply object_order_plain. apply Forall_forall. intros k Hk.
  apply keys_validatedValues in Hk. apply list_elem_of_fmap in Hk as (f & -> & Hf).
  rewrite Forall_forall in Hnames. by apply Hnames.
Qed.

(** X18: a record created can be read back.  For a caller who may edit
    records and a database of the caller's tenant - soft-deleted or not:
    the lookup has no [isDeleted] criterion - whose field names are plain
    keys, [createRecord] appends a live record of that database and
    tenant under a fresh id, with both timestamps the current time, and
    then [record(id)] returns that record with its values listed as a
    read lists them: the same value under every key, array indices
    first; it is exactly what [createRecord] returned when no field name
    is an array index (ids unique in the store, the audit entry
    written). *)
Theorem createRecord_then_read (databaseId : ObjectId) (values : entries value)
    (u : User) (w : World) (d : DatabaseDefinition) :
  canEditRecords u = true -> ids_unique w -> auditUp w = true ->
  List.find (db_matches (mkQuery (Some databaseId) (Some (u_tenantId u)) None None))
            (databases w) = Some d ->
  Forall (fun f => plain_key (f_name f) = true) (db_fields d) ->
  let newRecord :=
    mkRecord (nextId w) (u_tenantId u) databaseId
             (validatedValues (db_fields d) values) false (now w) (now w) in
  exists w',
    Mutation_createRecord databaseId values (mkContext (Some u)) w =
      (Return (format newRecord), w') /\
    records w' = records w ++ [as_read newRecord] /\
    databases w' = databases w /\
    Query_record (nextId w) (mkContext (Some u)) w' =
      (Return (Some (format (as_read newRecord))), w') /\
    (forall k, get k (r_values (as_read newRecord)) = get k (r_values newRecord)) /\
    keys (r_values (as_read newRecord)) ≡ₚ keys (r_values newRecord) /\
    (Forall (fun f => array_index (f_name f) = None) (db_fields d) ->
     as_read newRecord = newRecord).
Proof.
  intros Hedit (_ & _ & _ & Hrn) Hup Hfind Hplain newRecord.
  pose proof (ids_below r_id _ _ Hrn) as Hfresh.
  rewrite (createRecord_run databaseId values u w d Hedit Hfind
             (Forall_plain_ok f_name _ Hplain)).
  unfold ActivityLog_create. unfold_M. world_fields. rewrite Hup.
  fold newRecord. rewrite (upsert_fresh r_id (as_read newRecord) _ Hfresh).
  eexists. split; [reflexivity|]. cbn [records databases]. split; [done|]. split; [done|].
  split; [|split; [|split]].
  - unfold Query_record, Record_findOne. cbn [user]. unfold_M. cbn [records].
    rewrite find_app_none.
    + cbn [List.find].
      assert (record_matches (mkQuery (Some (nextId w)) (Some (u_tenantId u)) None None)
                (as_read newRecord) = true) as ->; [|done].
      apply record_matches_true. by repeat split; intros ? [= <-].
    + apply find_none_iff. intros r Hr. apply not_true_is_false. intros Hm.
      apply record_matches_true in Hm as (Hid & _). specialize (Hid _ eq_refl).
      apply Hfresh. cbn in Hid. rewrite <- Hid. by apply list_elem_of_fmap_2.
  - intros k. apply get_object_order.
  - apply keys_object_order.
  - intros Hnames. by apply as_read_validated.
Qed.


End ReadsAfterWrites.

Lemma deleteDatabase_soft_witness :
  exists w',
    Mutation_deleteDatabase 100 (mkContext (Some Example.alice)) Example.world =
      (Return true, w') /\
    Query_database 100 (mkContext (Some Example.alice)) w' =
      (Throw (Error "Database not found or you don't have permission to view it."), w') /\
    (Query_records Example.literal_holds Example.any_order 100 None None None None None
                   (mkContext (Some Example.alice)) w').1 =
      Return [format Example.task1].
Proof.
  destruct (deleteDatabase_soft Example.literal_holds Example.any_order 100
              Example.alice Example.world Example.tasks eq_refl ids_unique_example
              eq_refl eq_refl)
    as (w' & Hrun & Hone & _ & _ & Hrecords).
  exists w'. split; [exact Hrun|]. split; [exact Hone|].
  exact (Hrecords 100%N None None None None None).
Defined.

Lemma deleteRecord_soft_witness :
  exists w',
    Mutation_deleteRecord 150 (mkContext (Some Example.erin)) Example.world =
      (Return true, w') /\
    Query_record 150 (mkContext (Some Example.erin)) w' =
      (Return (Some (format (setDeleted true 5 Example.task1))), w') /\
    forall listed w'',
      Query_records Example.literal_holds Example.any_order 100 None None None None None
                    (mkContext (Some Example.erin)) w' = (Return listed, w'') ->
      forall x, x ∈ listed -> fr_id x <> 150%N.
Proof.
  destruct (deleteRecord_soft Example.literal_holds Example.any_order 150
              Example.erin Example.world Example.task1 eq_refl ids_unique_example
              eq_refl eq_refl)
    as (w' & Hrun & Hone & _ & Hlisted).
  exists w'. split; [exact Hrun|]. split; [exact Hone|].
  exact (Hlisted 100%N None None None None None).
Defined.

Lemma createRecord_then_read_witness :
  exists created w',
    Mutation_createRecord 110 [("Title", VStr "kept")] (mkContext (Some Example.erin))
                          Example.world = (Return created, w') /\
    fr_isDeleted created = false /\
    Query_record 1000 (mkContext (Some Example.erin)) w' = (Return (Some created), w').
Proof.
  assert (Forall (fun f => plain_key (f_name f) = true) (db_fields Example.archive))
    as Hplain by (by repeat constructor).
  assert (Forall (fun f => array_index (f_name f) = None) (db_fields Example.archive))
    as Hnames by (by repeat constructor).
  destruct (createRecord_then_read 110 [("Title", VStr "kept")] Example.erin
              Example.world Example.archive eq_refl ids_unique_example eq_refl eq_refl
              Hplain)
    as (w' & Hrun & _ & _ & Hread & _ & _ & Hsame).
  rewrite (Hsame Hnames) in Hread.
  eexists _, w'. split; [exact Hrun|]. split; [reflexivity | exact Hread].
Defined.


(** Where a field is named by an array index, the read lists it first:
    [createRecord] returns the values in the order of the fields, b then
    1, and [record(id)] returns 1 then b. *)
Lemma read_lists_array_indices_first :
  let context := mkContext (Some Example.erin) in
  let values := [("1", VNum 10); ("b", VNum 20)] in
  exists created w',
    Mutation_createRecord 120 values context Example.world_grid = (Return created, w') /\
    fr_values created = [mkFieldValue "b" (VNum 20); mkFieldValue "1" (VNum 10)] /\
    exists read,
      Query_record 1000 context w' = (Return (Some read), w') /\
      fr_values read = [mkFieldValue "1" (VNum 10); mkFieldValue "b" (VNum 20)].
Proof.
  eexists _, _. split; [by vm_compute|]. split; [reflexivity|].
  eexists. split; [by vm_compute | reflexivity].
Qed.

(** ** The fields of a database *)

Lemma fields_wf_mono (fields : list FieldDefinition) (n n' : ObjectId) :
  fields_wf fields n -> (n <= n')%N -> fields_wf fields n'.
Proof.
  intros (H1 & H2 & H3) Hn.
  split; [done|]. split; [done|]. intros f Hf. specialize (H3 f Hf). lia.
Qed.

Lemma elem_of_upsert_inv {A} (id : A -> ObjectId) (x y : A) (l : list A) :
  y ∈ upsert id x l -> y = x \/ y ∈ l.
Proof.
  induction l as [|z l IH]; cbn.
  - intros ->%list_elem_of_singleton. by left.
  - destruct (decide (id z = id x)).
    + intros [->|?]%elem_of_cons; [by left | right; by right].
    + intros [->|?]%elem_of_cons; [right; left | destruct IH; auto; right; by right].
Qed.

Lemma NoDup_fmap_same {A B} (h : A -> B) (l : list A) (x y : A) :
  NoDup (h <$> l) -> x ∈ l -> y ∈ l -> h x = h y -> x = y.
Proof.
  intros Hnd Hx Hy Hxy.
  apply list_elem_of_lookup in Hx as [i Hi]. apply list_elem_of_lookup in Hy as [j Hj].
  assert (i = j) as ->; [|congruence].
  apply (NoDup_lookup (h <$> l) i j (h x)); [done| |].
  - by rewrite list_lookup_fmap, Hi.
  - by rewrite list_lookup_fmap, Hj, Hxy.
Qed.

Lemma List_filter_sublist {A} (p : A -> bool) (l : list A) :
  List.filter p l `sublist_of` l.
Proof.
  induction l as [|y l IH]; cbn; [done|].
  destruct (p y); [by apply sublist_skip | by apply sublist_cons].
Qed.

Lemma elem_of_List_filter {A} (p : A -> bool) (l : list A) (x : A) :
  x ∈ List.filter p l <-> x ∈ l /\ p x = true.
Proof.
  induction l as [|y l IH]; cbn.
  - rewrite elem_of_nil. tauto.
  - destruct (p y) eqn:Hy; rewrite ?elem_of_cons, IH.
    + split; [intros [->|[? ?]]; auto | tauto].
    + split; [tauto|]. intros [[->|?] ?]; [congruence | done].
Qed.

(** [createField]: a name that is new up to case, under a fresh id. *)
Lemma fields_wf_push (fields : list FieldDefinition) (n n' : ObjectId)
    (field : FieldInput) :
  fields_wf fields n -> fieldExists fields field = false -> (n < n')%N ->
  fields_wf (fields ++ [castField n field]) n'.
Proof.
  intros (Hids & Hnames & Hlt) Hnew Hn. unfold fields_wf, names_distinct.
  rewrite !fmap_app. cbn [fmap list_fmap castField f_id f_name].
  split; [|split].
  - apply NoDup_app. split; [done|]. split; [|apply NoDup_singleton].
    intros i Hi ->%list_elem_of_singleton.
    apply list_elem_of_fmap in Hi as (f & Hf & Hfin). specialize (Hlt f Hfin). lia.
  - apply NoDup_app. split; [done|]. split; [|apply NoDup_singleton].
    intros s Hs ->%list_elem_of_singleton.
    apply list_elem_of_fmap in Hs as (f & Hf & Hfin).
    assert (fieldExists fields field = true) as Hex; [|congruence].
    apply existsb_true_iff. exists f. split; [done|]. by apply bool_decide_eq_true.
  - intros f [Hf| ->%list_elem_of_singleton]%elem_of_app; [|done].
    specialize (Hlt f Hf). lia.
Qed.

(** [updateField]: the field with the id is rewritten where it stands, to
    a name no field with another id has up to case. *)
Lemma fields_wf_set (fields : list FieldDefinition) (n n' : ObjectId)
    (arg : IdArg) (field : FieldInput) :
  fields_wf fields n -> otherFieldExists fields arg field = false -> (n <= n')%N ->
  fields_wf (update_first (fun f => bool_decide (f_id f = arg_id arg)) (setField field)
                          fields)
            n'.
Proof.
  intros (Hids & Hnames & Hlt) Hother Hn. set (fieldId := arg_id arg).
  assert (forall f, f ∈ fields ->
            Js.toLowerCase (f_name f) = Js.toLowerCase (fi_name field) ->
            f_id f = fieldId) as Hclash.
  { intros f Hf Hname. destruct (decide (f_id f = fieldId)) as [|Hne]; [done|].
    assert (otherFieldExists fields arg field = true) as Hex; [|congruence].
    apply otherFieldExists_true. exists f. split; [done|]. split; [done | by left]. }
  split; [|split].
  - by rewrite update_first_fmap.
  - unfold names_distinct in *.
    destruct (List.find (fun f => bool_decide (f_id f = fieldId)) fields) as [f0|] eqn:Hfind.
    + rewrite (update_first_by_id f_id _ (setField field) fields fieldId f0 Hids
                 ltac:(by intros ? ?%bool_decide_eq_true) Hfind).
      rewrite <- list_fmap_compose. apply NoDup_fmap_2_strong.
      * intros x y Hx Hy. unfold compose.
        destruct (decide (f_id x = fieldId)) as [Hxi|Hxi],
                 (decide (f_id y = fieldId)) as [Hyi|Hyi]; cbn [setField f_name].
        -- intros _. apply (NoDup_fmap_same f_id fields); [done..|congruence].
        -- intros Heq. destruct Hyi. by apply Hclash.
        -- intros Heq. destruct Hxi. by apply Hclash.
        -- by apply (NoDup_fmap_same (fun f => Js.toLowerCase (f_name f)) fields).
      * by eapply NoDup_fmap_1.
    + assert (update_first (fun f => bool_decide (f_id f = fieldId)) (setField field) fields
              = fields) as ->; [|done].
      rewrite find_none_iff in Hfind. clear -Hfind.
      induction fields as [|y l IH]; [done|]. cbn.
      rewrite (Hfind y) by left. f_equal. apply IH. intros. apply Hfind. by right.
  - intros f [Hf|(y & Hy & _ & ->)]%elem_of_update_first.
    + specialize (Hlt f Hf). lia.
    + specialize (Hlt y Hy). cbn. lia.
Qed.

(** [deleteField]: fields are only taken out. *)
Lemma fields_wf_filter (fields : list FieldDefinition) (n n' : ObjectId)
    (p : FieldDefinition -> bool) :
  fields_wf fields n -> (n <= n')%N -> fields_wf (List.filter p fields) n'.
Proof.
  intros (Hids & Hnames & Hlt) Hn. unfold fields_wf, names_distinct in *.
  pose proof (List_filter_sublist p fields) as Hsub.
  split; [|split].
  - eapply sublist_NoDup; [exact Hids|]. by apply fmap_sublist.
  - eapply sublist_NoDup; [exact Hnames|]. by apply fmap_sublist.
  - intros f [Hf _]%elem_of_List_filter. specialize (Hlt f Hf). lia.
Qed.

(** X20: the fields of the databases stay well formed.  If in every
    database the fields have pairwise distinct ids drawn from the
    generator and pairwise distinct names up to case, then so it is after
    any of the nine mutations, called by anyone, whether it returns or
    throws. *)
Theorem mutations_keep_fields_ok (call : MutationCall) (context : Context) (w : World) :
  fields_ok w -> fields_ok (Mutation_call call context w).2.
Proof.
  unfold fields_ok. intros Hok.
  assert (forall n', (nextId w <= n')%N ->
            forall d, d ∈ databases w -> fields_wf (db_fields d) n') as Hmono.
  { intros n' Hn d Hd. eapply fields_wf_mono; [by apply Hok | done]. }
  destruct call; unfold_mutations; destruct context as [[u|]]; cbn [user];
    repeat case_match; simplify_eq; cbn [snd databases nextId];
    try exact Hok;
    unfold with_databases, with_records; world_fields;
    try (apply Hmono; lia).
  all: repeat match goal with
       | Hf : List.find _ (databases _) = Some ?d |- _ =>
           apply find_some_elem in Hf as [Hf _]; apply Hok in Hf
       end.
  all: intros x Hx;
    first [ apply elem_of_upsert_inv in Hx as [->|Hx]; [|apply Hmono; [lia | done]]
          | apply elem_of_update_first in Hx as [Hx|(y & Hy & _ & ->)];
            [apply Hmono; [lia | done] |] ].
  all: cbn [db_fields with_fields applyDatabaseUpdate].
  all: first
    [ by (split; [constructor | split; [constructor | intros ? ?%elem_of_nil]])
    | apply Hmono; [lia | done]
    | eapply fields_wf_push; [eassumption | eassumption | lia]
    | eapply fields_wf_set; [eassumption | eassumption | lia]
    | eapply fields_wf_filter; [eassumption | lia] ].
Qed.

Lemma fields_ok_example : fields_ok Example.world.
Proof.
  intros d Hd.
  repeat (apply elem_of_cons in Hd as [->|Hd]); [| | |by apply elem_of_nil in Hd].
  all: split; [|split].
  all: try (unfold names_distinct; cbn; repeat constructor; intros H;
            repeat (apply elem_of_cons in H as [H|H]; [done|]);
            by apply elem_of_nil in H).
  all: intros f Hf; repeat (apply elem_of_cons in Hf as [->|Hf]; [by vm_compute|]);
    by apply elem_of_nil in Hf.
Qed.

Lemma mutations_keep_fields_ok_witness :
  fields_ok (Mutation_call (CreateField 100 (mkFieldInput "Owner" "text" None None))
                           (mkContext (Some Example.alice)) Example.world).2.
Proof.
  apply (mutations_keep_fields_ok
           (CreateField 100 (mkFieldInput "Owner" "text" None None))
           (mkContext (Some Example.alice)) Example.world).
  exact fields_ok_example.
Defined.


(** ** The stages of [Query.records] *)

Lemma foldl_set_fresh {A} (l acc : entries A) :
  NoDup (keys (acc ++ l)) ->
  foldl (fun q '(k, c) => set k c q) acc l = acc ++ l.
Proof.
  revert acc. induction l as [|[k c] l IH]; intros acc Hnd; cbn.
  - by rewrite app_nil_r.
  - assert (set k c acc = acc ++ [(k, c)]) as ->.
    { assert (k ∉ keys acc) as Hk.
      { unfold keys in *. rewrite fmap_app in Hnd. apply NoDup_app in Hnd as (_ & Hd & _).
        intros Hin. apply (Hd k Hin). left. }
      clear -Hk. induction acc as [|[k' v'] acc IH]; [done|]. cbn.
      unfold keys in Hk. cbn in Hk. apply not_elem_of_cons in Hk as [Hne Hk].
      rewrite decide_False by done. f_equal. by apply IH. }
    rewrite IH; [by rewrite <- app_assoc|]. by rewrite <- app_assoc.
Qed.

Section RecordsQuery.

Context {condition : Type}.
Variable cond_holds : condition -> option value -> bool.
Variable bson_leb : option value -> option value -> bool.

(** The stages in the order they are pushed: the base match and the
    search, then the filter, then the sort. *)
Lemma records_stages_order databaseId (filter : option (entries condition)) sort search
    u w :
  exists searched : list (@Stage condition),
    records_stages databaseId None None search u w = (Return searched, w) /\
    records_stages databaseId filter sort search u w =
      (Return (searched
               ++ match filter with
                  | Some filter =>
                      [MatchFilter (foldl (fun q '(k, c) => set k c q) [] filter)]
                  | None => []
                  end
               ++ match sort with
                  | Some sort =>
                      [SortStage (s_field sort)
                         (if decide (Js.toLowerCase (s_order sort) = "desc")
                          then -1 else 1)]
                  | None => []
                  end), w).
Proof.
  unfold records_stages, DatabaseDefinition_findById, DatabaseDefinition_findOne.
  unfold_M.
  destruct search as [[|c term]|];
    [| destruct (List.find _ (databases w)); [destruct (0 <? _)%nat|] |];
    (eexists; split; [reflexivity|]);
    destruct filter, sort; cbn [app]; by rewrite <- ?app_assoc, ?app_nil_r.
Qed.

(** X21: the user filter.  With a filter object (its keys pairwise
    distinct, as those of an object are) every record [records] returns,
    whatever the search, sort and page, is a stored record that satisfies
    every condition of the filter; without search and sort, [records]
    returns the page asked for of the live records of the database that
    satisfy every condition, in collection order - all live records when
    the filter has no condition. *)
Theorem records_filter (databaseId : ObjectId) (filter : entries condition)
    (u : User) (w : World) :
  NoDup (keys filter) ->
  (forall sort page limit search listed w',
     Query_records cond_holds bson_leb databaseId (Some filter) sort page limit search
                   (mkContext (Some u)) w = (Return listed, w') ->
     forall x, x ∈ listed ->
       exists r, r ∈ records w /\ x = format r /\ satisfies cond_holds filter r = true) /\
  (forall page limit,
     Query_records cond_holds bson_leb databaseId (Some filter) None page limit None
                   (mkContext (Some u)) w =
       (Return (page_of page limit
                  (List.filter (satisfies cond_holds filter)
                               (live_records databaseId u w))), w)) /\
  (filter = [] ->
   List.filter (satisfies cond_holds filter) (live_records databaseId u w) =
     live_records databaseId u w).
Proof.
  intros Hnd.
  pose proof (foldl_set_fresh filter [] Hnd) as Hfq. cbn [app] in Hfq.
  split; [|split].
  - intros sort page limit search listed w'. rewrite records_paginates.
    unfold records_before_pagination, Record_aggregate.
    destruct (records_stages_order databaseId (Some filter) sort search u w)
      as (searched & _ & Hst).
    unfold_M. rewrite Hst, Hfq. cbn [fst]. rewrite runPipeline_app.
    destruct (runPipeline _ _ searched (records w)) as [docs|] eqn:Hsearched; [|done].
    cbn [app runPipeline runStage].
    destruct (runPipeline _ _ _ (List.filter _ docs)) as [sorted|] eqn:Hsorted; [|done].
    intros [= <- <-] x Hx.
    eapply runPipeline_Forall
      with (P := fun r => r ∈ records w /\ satisfies cond_holds filter r = true)
      in Hsorted.
    + apply list_elem_of_fmap in Hx as (r & -> & Hr). exists r.
      pose proof (Forall_take _ (Z.to_nat (limitNum 20 limit)) _
                    (Forall_drop _ (Z.to_nat (skipNum 20 page limit)) _
                                 Hsorted)) as Hpage.
      rewrite Forall_forall in Hpage. destruct (Hpage r Hr). done.
    + apply Forall_forall. intros y [Hy Hsat]%elem_of_List_filter. split; [|done].
      eapply runPipeline_Forall with (P := fun r => r ∈ records w) in Hsearched;
        [|by apply Forall_forall].
      rewrite Forall_forall in Hsearched. by apply Hsearched.
  - intros page limit. rewrite records_paginates.
    unfold records_before_pagination, Record_aggregate, records_stages. unfold_M.
    cbn [fst]. by rewrite Hfq.
  - intros ->. induction (live_records databaseId u w) as [|y l IH]; [done|].
    cbn. by rewrite IH.
Qed.


(** X23: without a sort the pages of [records] are consecutive slices
    of one listing.  For a positive limit L, 1 <= k <= m and mL up to
    2^53, page k at limit L is records (k-1)L+1 to kL of what page 1 at
    limit mL returns, whatever the filter and the search: over an
    unchanged store, read in collection order, no record is repeated or
    left out between consecutive pages. *)
Theorem pages_are_slices (databaseId : ObjectId) (filter : option (entries condition))
    (search : option string) (u : User) (w : World)
    (L k m : Z) (whole : list FormattedRecord) (w' : World) :
  0 < L -> 1 <= k <= m -> m * L <= 2 ^ 53 ->
  Query_records cond_holds bson_leb databaseId filter None (Some 1) (Some (m * L)) search
                (mkContext (Some u)) w = (Return whole, w') ->
  Query_records cond_holds bson_leb databaseId filter None (Some k) (Some L) search
                (mkContext (Some u)) w =
    (Return (take (Z.to_nat L) (drop (Z.to_nat ((k - 1) * L)) whole)), w).
Proof.
  intros HL Hk Hbound. rewrite !records_paginates.
  destruct (records_before_pagination _ _ _ _ _ _ _ _).1 as [docs|]; [|done].
  intros [= <- <-]. f_equal. f_equal.
  assert (0 < m * L) as HmL by nia.
  assert (pageNum (Some k) = k) as Hpk.
  { unfold pageNum. by rewrite (proj2 (Z.ltb_lt 0 k)) by lia. }
  assert (limitNum 20 (Some L) = L) as HlL.
  { unfold limitNum. by rewrite (proj2 (Z.ltb_lt 0 L)) by lia. }
  assert (limitNum 20 (Some (m * L)) = m * L) as HlmL.
  { unfold limitNum. by rewrite (proj2 (Z.ltb_lt 0 (m * L))) by lia. }
  rewrite !skipNum_exact, Hpk, HlL, HlmL.
  - change (pageNum (Some 1) - 1) with 0. rewrite Z.mul_0_l.
    change (Z.to_nat 0) with 0%nat. rewrite drop_0.
    rewrite (proj2 (Z.ltb_lt 0 (m * L))) by lia.
    rewrite <- fmap_drop, <- fmap_take. f_equal.
    rewrite !take_drop_commute, take_take. f_equal. f_equal.
    symmetry. apply Nat.min_l.
    rewrite <- Z2Nat.inj_add by nia. apply Z2Nat.inj_le; nia.
  - rewrite HlmL. change (pageNum (Some 1) - 1) with 0. rewrite Z.mul_0_l. done.
  - rewrite Hpk, HlL. rewrite Z.abs_eq by nia.
    apply Z.le_trans with (m * L); [nia | exact Hbound].
Qed.

End RecordsQuery.

Lemma records_filter_witness :
  Query_records Example.literal_holds Example.any_order 100
                (Some [("Title", VStr "abc")]) None None None None
                (mkContext (Some Example.alice)) Example.world =
    (Return [format Example.task1], Example.world) /\
  Query_records Example.literal_holds Example.any_order 100
                (Some [("Title", VStr "xyz")]) None None None None
                (mkContext (Some Example.alice)) Example.world =
    (Return [], Example.world).
Proof.
  assert (forall c : value, NoDup (keys [("Title", c)])) as Hnd.
  { intros c. apply NoDup_singleton. }
  destruct (records_filter Example.literal_holds Example.any_order 100
              [("Title", VStr "abc")] Example.alice Example.world (Hnd _))
    as (_ & Habc & _).
  destruct (records_filter Example.literal_holds Example.any_order 100
              [("Title", VStr "xyz")] Example.alice Example.world (Hnd _))
    as (_ & Hxyz & _).
  split; [exact (Habc None None) | exact (Hxyz None None)].
Defined.


Lemma pages_are_slices_witness :
  exists whole,
    Query_records Example.literal_holds Example.any_order 100 None None
                  (Some 1) (Some (3 * 10)) None
                  (mkContext (Some Example.alice)) Example.world25 =
      (Return whole, Example.world25) /\
    length whole = 25%nat /\
    Query_records Example.literal_holds Example.any_order 100 None None
                  (Some 3) (Some 10) None
                  (mkContext (Some Example.alice)) Example.world25 =
      (Return (drop 20 whole), Example.world25).
Proof.
  eexists. split; [reflexivity|]. split; [reflexivity|].
  exact (pages_are_slices Example.literal_holds Example.any_order 100 None None
           Example.alice Example.world25 10 3 3 _ _ ltac:(lia) ltac:(lia) ltac:(lia)
           eq_refl).
Defined.

(** ** Renaming, and the single reads against the listings *)

(** X24: the names [updateDatabase] refuses.  For an Admin: a name made
    of white space only (or empty) is refused with [UserInputError]
    "Database name cannot be empty."; a name that, trimmed, is the name
    of another database of the caller's tenant - soft-deleted or not - is
    refused with [UserInputError] "Another database with this name
    already exists in your tenant."; the store is unchanged in both
    cases. *)
Theorem updateDatabase_refusals (id : ObjectId) (name : string) (u : User) (w : World) :
  u_role u = Admin ->
  (has_nonspace name = false ->
   Mutation_updateDatabase id name (mkContext (Some u)) w =
     (Throw (UserInputError "Database name cannot be empty."), w)) /\
  (has_nonspace name = true ->
   forall d,
     List.find (db_matches (mkQuery (Some id) (Some (u_tenantId u)) None None))
               (databases w) = Some d ->
     (exists d', d' ∈ databases w /\ db_tenantId d' = u_tenantId u /\
                 db_name d' = Js.trim name /\ db_id d' <> id) ->
     Mutation_updateDatabase id name (mkContext (Some u)) w =
       (Throw (UserInputError
                 "Another database with this name already exists in your tenant."), w)).
Proof.
  intros Hadmin. unfold Mutation_updateDatabase. cbn [user].
  rewrite (isAdmin_true u Hadmin). cbn [negb]. split.
  - intros Hblank. by rewrite (proj2 (blank_iff name) Hblank).
  - intros Hname d Hfind (d' & Hd' & Hten & Hdname & Hid).
    rewrite (has_nonspace_not_blank name Hname).
    unfold_M. unfold DatabaseDefinition_findOneAndUpdate. rewrite Hfind.
    apply find_some_elem in Hfind as [Hd Hm].
    apply db_matches_true in Hm as (Hdid & Hdten & _).
    specialize (Hdid _ eq_refl). specialize (Hdten _ eq_refl). cbn in Hdid, Hdten.
    assert (name_taken (applyDatabaseUpdate (SetName name) d) (databases w) = true) as ->.
    { apply name_taken_true. exists d'. cbn. repeat split; congruence. }
    cbn [touchesName andb]. by rewrite decide_True.
Qed.

Lemma updateDatabase_refusals_witness :
  Mutation_updateDatabase 100 "  " (mkContext (Some Example.alice)) Example.world =
    (Throw (UserInputError "Database name cannot be empty."), Example.world) /\
  Mutation_updateDatabase 100 "Archive " (mkContext (Some Example.alice)) Example.world =
    (Throw (UserInputError
              "Another database with this name already exists in your tenant."),
     Example.world).
Proof.
  destruct (updateDatabase_refusals 100 "  " Example.alice Example.world eq_refl)
    as [Hblank _].
  destruct (updateDatabase_refusals 100 "Archive " Example.alice Example.world eq_refl)
    as [_ Htaken].
  split; [exact (Hblank eq_refl)|].
  apply (Htaken eq_refl Example.tasks eq_refl).
  exists Example.archive. split; [right; left | done].
Defined.

Lemma find_unique {A} (key : A -> ObjectId) (m : A -> bool) (l : list A) (x : A) :
  NoDup (key <$> l) -> x ∈ l -> m x = true ->
  (forall y, m y = true -> key y = key x) ->
  List.find m l = Some x.
Proof.
  intros Hnd Hx Hmx Hm.
  destruct (List.find m l) as [y|] eqn:Hfind.
  - apply find_some_elem in Hfind as [Hy Hmy]. f_equal.
    apply (same_id_same_doc key l); auto.
  - rewrite find_none_iff in Hfind. specialize (Hfind x Hx). congruence.
Qed.

(** X25: [database] and [databases] agree.  With ids unique in the
    store, [database(id)] returns a database exactly when [databases]
    lists a database with that id, and then it returns that one. *)
Theorem database_agrees_with_databases (id : ObjectId) (u : User) (w : World)
    (listed : list DatabaseDefinition) :
  ids_unique w ->
  Query_databases (mkContext (Some u)) w = (Return listed, w) ->
  forall d,
    Query_database id (mkContext (Some u)) w = (Return d, w) <->
    d ∈ listed /\ db_id d = id.
Proof.
  intros (Hnd & _). unfold Query_databases, Query_database, DatabaseDefinition_find,
    DatabaseDefinition_findOne. cbn [user]. unfold_M. intros [= <-] d.
  rewrite elem_of_List_filter. split.
  - destruct (List.find _ (databases w)) as [d0|] eqn:Hfind; [|done].
    intros [= ->]. apply find_some_elem in Hfind as [Hd Hm].
    apply db_matches_true in Hm as (Hid & Hten & Hdel).
    split; [split; [done|] | by apply Hid].
    apply db_matches_true. refine (conj _ (conj _ _)); [by intros ? [=] | done | done].
  - intros [[Hd Hm] Hid].
    rewrite (find_unique db_id _ _ d Hnd Hd); [done| |].
    + apply db_matches_true in Hm as (_ & Hten & Hdel). apply db_matches_true.
      refine (conj _ (conj _ _)); [by intros ? [= <-] | done | done].
    + intros y (Hy & _)%db_matches_true. rewrite Hid. by apply Hy.
Qed.

Lemma database_agrees_with_databases_witness :
  Query_database 100 (mkContext (Some Example.alice)) Example.world =
    (Return Example.tasks, Example.world) <->
  Example.tasks ∈ [Example.tasks] /\ db_id Example.tasks = 100%N.
Proof.
  exact (database_agrees_with_databases 100 Example.alice Example.world [Example.tasks]
           ids_unique_example eq_refl Example.tasks).
Defined.

Section SingleReads.

Context {condition : Type}.
Variable cond_holds : condition -> option value -> bool.
Variable bson_leb : option value -> option value -> bool.

(** X26: [record] agrees with [records].  With ids unique in the store,
    whatever a [records] query returns, [record(id)] on the id of one of
    its items returns that item. *)
Theorem record_agrees_with_records databaseId (filter : option (entries condition))
    sort page limit search (u : User) (w w' : World) (listed : list FormattedRecord) :
  ids_unique w ->
  Query_records cond_holds bson_leb databaseId filter sort page limit search
                (mkContext (Some u)) w = (Return listed, w') ->
  forall x, x ∈ listed ->
    Query_record (fr_id x) (mkContext (Some u)) w = (Return (Some x), w).
Proof.
  intros (_ & Hnd & _) Hq x Hx.
  pose proof (records_from_store _ _ _ _ _ _ _ _ _ _ _ _ Hq) as Hstore.
  apply records_own_tenant in Hq as [_ Hown].
  rewrite Forall_forall in Hstore, Hown.
  destruct (Hstore x Hx) as (r & Hr & _ & ->). destruct (Hown _ Hx) as (Hten & _).
  unfold Query_record, Record_findOne. cbn [user]. unfold_M.
  rewrite (find_unique r_id _ _ r Hnd Hr); [done| |].
  - apply record_matches_true. cbn.
    refine (conj _ (conj _ (conj _ _))); try done; by intros ? [= <-].
  - intros y (Hy & _)%record_matches_true. by apply Hy.
Qed.

End SingleReads.

Lemma record_agrees_with_records_witness :
  Query_record 150 (mkContext (Some Example.alice)) Example.world =
    (Return (Some (format Example.task1)), Example.world).
Proof.
  apply (record_agrees_with_records Example.literal_holds Example.any_order 100
           None None None None None Example.alice Example.world Example.world
           [format Example.task1] ids_unique_example eq_refl (format Example.task1)).
  left.
Defined.
